(** * HD44780 LCD driver and input button reader (avr/lcd_and_input.c)

    A shallow embedding of the driver's static state, its timer interrupt
    (autoscroll and button debouncing), the transaction staging store, the
    confirmation workflow [userDenied] and the seed presenter
    [writeBackupSeed], followed by the properties proved about them.

    Conventions.
    - [uint8_t] and [uint16_t] variables are [Z] values; every increment and
      decrement of the source is written with its wrap-around.
    - [char] is [ascii]; a [char *] argument is the list of characters found
      in memory from the pointer on.
    - The HD44780 transport is abstracted at [write8]: every call appends the
      level of the register-select line and the byte to [lcd_bus]. Module
      [Pins] models the pin functions below it ([writeArduinoPin], [write4],
      [write8], [setArduinoPinInput]) on the I/O registers, and the two are
      related in the further properties.
    - The foreground reads the [volatile] button flags; the interrupts that
      fire while it polls are supplied by a [timeline]: one burst of timer
      ticks per volatile read. Module [Traced] embeds the foreground a
      second time, with the settle delay of [clearLcd] as a further point
      where a burst is taken and with a log of the flag reads that fixes
      their order among the writes to the display. *)

From Stdlib Require Import ZArith List Bool Ascii String Lia.
From stdpp Require Import base list.
Import ListNotations.
Local Open Scope Z_scope.

(** ** Constants of the source *)

Definition MAX_OUTPUTS : Z := 2.
Definition NUM_COLUMNS : Z := 16.
Definition SCROLL_SPEED : Z := 150.
Definition SCROLL_PAUSE : Z := 450.
Definition DEBOUNCE_COUNT : Z := 8.
Definition ACCEPT_PIN : Z := 6.
Definition CANCEL_PIN : Z := 7.

(** [uint8_t] and [uint16_t] truncation. *)
Definition u8 (x : Z) : Z := x mod 256.
Definition u16 (x : Z) : Z := x mod 65536.

Definition NUL : ascii := Ascii.zero.

Definition is_NUL (c : ascii) : bool := (N_of_ascii c =? 0)%N.

(** A string literal as it lies in memory: its characters, then the
    terminator. *)
Definition literal (s : string) : list ascii := list_ascii_of_string s ++ [NUL].

(** ** Static state of the module *)

(** One [write8] on the bus: the level of RS (false = command, true = data)
    and the byte. *)
Record lcd_write := LcdWrite { bus_rs : bool; bus_byte : Z }.

Record display := mkDisplay {
  current_column : Z;
  max_line_size : Z;
  scroll_pos : Z;
  scroll_to_left : bool;
  scroll_counter : Z;
  rs_pin : bool;
  lcd_bus : list lcd_write
}.

Record buttons := mkButtons {
  accept_button : bool;
  cancel_button : bool;
  accept_debounce : Z;
  cancel_debounce : Z
}.

Record staging := mkStaging {
  list_amount : list (list ascii);
  list_address : list (list ascii);
  list_index : Z;
  transaction_fee_set : bool;
  transaction_fee_amount : list ascii
}.

Record world := mkWorld {
  disp : display;
  btn : buttons;
  stage : staging
}.

Definition with_disp (d : display) (w : world) : world :=
  mkWorld d (btn w) (stage w).
Definition with_btn (b : buttons) (w : world) : world :=
  mkWorld (disp w) b (stage w).
Definition with_stage (s : staging) (w : world) : world :=
  mkWorld (disp w) (btn w) s.

(** ** Pin access *)

(** What the two [sampleArduinoPin] calls of one interrupt read from the
    input registers. Both button pins are below 8, so both read PIND. *)
Record pin_reads := mkPins { PIND_accept : Z; PIND_cancel : Z }.

(** [sampleArduinoPin], for a pin below 8 given the value of PIND, else the
    value of PINB. *)
Definition sampleArduinoPin (pin : Z) (PIND PINB : Z) : Z :=
  if pin <? 8 then u8 (Z.land PIND (u8 (Z.shiftl 1 pin)))
  else u8 (Z.land PINB (u8 (Z.shiftl 1 (pin - 8)))).

(** [writeArduinoPin(RS_PIN, value)]: only the register-select line is
    tracked. *)
Definition writeArduinoPin_RS (value : Z) (d : display) : display :=
  mkDisplay (current_column d) (max_line_size d) (scroll_pos d)
    (scroll_to_left d) (scroll_counter d) (negb (value =? 0)) (lcd_bus d).

Definition write8 (value : Z) (d : display) : display :=
  mkDisplay (current_column d) (max_line_size d) (scroll_pos d)
    (scroll_to_left d) (scroll_counter d) (rs_pin d)
    (lcd_bus d ++ [LcdWrite (rs_pin d) (u8 value)]).

Definition set_current_column (v : Z) (d : display) : display :=
  mkDisplay v (max_line_size d) (scroll_pos d) (scroll_to_left d)
    (scroll_counter d) (rs_pin d) (lcd_bus d).
Definition set_max_line_size (v : Z) (d : display) : display :=
  mkDisplay (current_column d) v (scroll_pos d) (scroll_to_left d)
    (scroll_counter d) (rs_pin d) (lcd_bus d).
Definition set_scroll_pos (v : Z) (d : display) : display :=
  mkDisplay (current_column d) (max_line_size d) v (scroll_to_left d)
    (scroll_counter d) (rs_pin d) (lcd_bus d).
Definition set_scroll_to_left (v : bool) (d : display) : display :=
  mkDisplay (current_column d) (max_line_size d) (scroll_pos d) v
    (scroll_counter d) (rs_pin d) (lcd_bus d).
Definition set_scroll_counter (v : Z) (d : display) : display :=
  mkDisplay (current_column d) (max_line_size d) (scroll_pos d)
    (scroll_to_left d) v (rs_pin d) (lcd_bus d).

(** ** The timer interrupt *)

(** Lines 239-272: the scrolling half of [ISR(TIMER0_COMPA_vect)]. *)
Definition ISR_scroll (d : display) : display :=
  let d := set_scroll_counter (u16 (scroll_counter d - 1)) d in
  if scroll_counter d =? 0 then
    let d :=
      if max_line_size d >? NUM_COLUMNS then
        if scroll_to_left d then
          if scroll_pos d =? 0 then set_scroll_to_left false d
          else
            let d := write8 28 (writeArduinoPin_RS 0 d) in
            set_scroll_pos (u8 (scroll_pos d - 1)) d
        else
          if scroll_pos d =? max_line_size d - NUM_COLUMNS
          then set_scroll_to_left true d
          else
            let d := write8 24 (writeArduinoPin_RS 0 d) in
            set_scroll_pos (u8 (scroll_pos d + 1)) d
      else d in
    set_scroll_counter SCROLL_SPEED d
  else d.

(** Lines 274-311: the debouncing half. [temp] is a [bool]; the accept
    block tests the sample against 0, the cancel block assigns the sample
    to [temp], which converts non-zero to true. *)
Definition ISR_buttons (p : pin_reads) (b : buttons) : buttons :=
  let temp :=
    if negb (sampleArduinoPin ACCEPT_PIN (PIND_accept p) 0 =? 0)
    then true else false in
  let b :=
    if (accept_button b && temp) || (negb (accept_button b) && negb temp) then
      let b := mkButtons (accept_button b) (cancel_button b)
                 (u8 (accept_debounce b + 1)) (cancel_debounce b) in
      if accept_debounce b =? DEBOUNCE_COUNT
      then mkButtons (negb (accept_button b)) (cancel_button b)
             (accept_debounce b) (cancel_debounce b)
      else b
    else mkButtons (accept_button b) (cancel_button b) 0 (cancel_debounce b) in
  let temp := negb (sampleArduinoPin CANCEL_PIN (PIND_cancel p) 0 =? 0) in
  if (cancel_button b && temp) || (negb (cancel_button b) && negb temp) then
    let b := mkButtons (accept_button b) (cancel_button b)
               (accept_debounce b) (u8 (cancel_debounce b + 1)) in
    if cancel_debounce b =? DEBOUNCE_COUNT
    then mkButtons (accept_button b) (negb (cancel_button b))
           (accept_debounce b) (cancel_debounce b)
    else b
  else mkButtons (accept_button b) (cancel_button b) (accept_debounce b) 0.

Definition ISR (p : pin_reads) (w : world) : world :=
  with_btn (ISR_buttons p (btn w)) (with_disp (ISR_scroll (disp w)) w).

(** A run of consecutive timer ticks. *)
Definition run_ticks (ps : list pin_reads) (w : world) : world :=
  fold_left (fun w p => ISR p w) ps w.

(** ** Display line driver *)

(** [clearLcd]. The settle delay has no effect on the state. *)
Definition clearLcd_disp (d : display) : display :=
  let d := set_current_column 0 d in
  let d := set_max_line_size 0 d in
  let d := set_scroll_pos 0 d in
  let d := set_scroll_to_left false d in
  let d := set_scroll_counter SCROLL_SPEED d in
  write8 1 (writeArduinoPin_RS 0 d).

Definition gotoStartOfLine_disp (line : Z) (d : display) : display :=
  let d := writeArduinoPin_RS 0 d in
  let d := if line =? 0 then write8 128 d else write8 192 d in
  set_current_column 0 d.

(** The loop of [writeString]: [str] is the memory from the pointer on;
    running off the modelled memory reads as the terminator. *)
Fixpoint writeString_loop (str : list ascii) (d : display) : display :=
  match str with
  | [] => d
  | c :: str' =>
      if negb (is_NUL c) && (current_column d <? 40) then
        let d := write8 (Z.of_N (N_of_ascii c)) d in
        let d := set_current_column (u8 (current_column d + 1)) d in
        let d := if current_column d >? max_line_size d
                 then set_max_line_size (current_column d) d else d in
        writeString_loop str' d
      else d
  end.

(** [writeString]; [is_progmem] only selects the address space the
    characters are fetched from. *)
Definition writeString_disp (str : list ascii) (is_progmem : bool)
    (d : display) : display :=
  let d := writeArduinoPin_RS 1 d in
  let d := writeString_loop str d in
  set_scroll_counter SCROLL_PAUSE d.

(** ** The foreground and its view of the interrupts *)

(** The interrupts still to come: one burst of timer ticks for every read of
    a [volatile] button flag the foreground will make. An exhausted timeline
    means the foreground is still waiting. *)
Definition timeline := list (list pin_reads).

Record machine := mkMachine { hw : world; irq : timeline }.

(** Foreground computations: state passing over [machine], [None] when the
    timeline ends in the middle of a polling loop. *)
Definition M (A : Type) : Type := machine -> option (A * machine).

Definition ret {A : Type} (a : A) : M A := fun m => Some (a, m).

Definition bind {A B : Type} (c : M A) (k : A -> M B) : M B :=
  fun m => match c m with
           | Some (a, m') => k a m'
           | None => None
           end.

Declare Scope fg_scope.
Delimit Scope fg_scope with fg.
Notation "x <- c ;; k" := (bind c (fun x => k))
  (at level 100, c at next level, right associativity) : fg_scope.
Notation "c ;; k" := (bind c (fun _ => k))
  (at level 100, right associativity) : fg_scope.
Local Open Scope fg_scope.

Definition get_world : M world := fun m => Some (hw m, m).

Definition on_disp (f : display -> display) : M unit :=
  fun m => Some (tt, mkMachine (with_disp (f (disp (hw m))) (hw m)) (irq m)).

Definition clearLcd : M unit := on_disp clearLcd_disp.
Definition gotoStartOfLine (line : Z) : M unit :=
  on_disp (gotoStartOfLine_disp line).
Definition writeString (str : list ascii) (is_progmem : bool) : M unit :=
  on_disp (writeString_disp str is_progmem).

(** [waitForNoButtonPress]: the condition [accept_button || cancel_button]
    reads the accept flag and, only when that is false, the cancel flag. *)
Fixpoint waitForNoButtonPress_loop (tl : timeline) (w : world)
    : option (unit * machine) :=
  match tl with
  | [] => None
  | b1 :: tl1 =>
      let w1 := run_ticks b1 w in
      if accept_button (btn w1) then waitForNoButtonPress_loop tl1 w1
      else
        match tl1 with
        | [] => None
        | b2 :: tl2 =>
            let w2 := run_ticks b2 w1 in
            if cancel_button (btn w2) then waitForNoButtonPress_loop tl2 w2
            else Some (tt, mkMachine w2 tl2)
        end
  end.

Definition waitForNoButtonPress : M unit :=
  fun m => waitForNoButtonPress_loop (irq m) (hw m).

(** The do-while loop of [waitForButtonPress]; it yields the two copies
    [current_accept_button] and [current_cancel_button] it exits with. *)
Fixpoint waitForButtonPress_loop (tl : timeline) (w : world)
    : option (bool * bool * machine) :=
  match tl with
  | b1 :: b2 :: tl2 =>
      let w1 := run_ticks b1 w in
      let current_accept_button := accept_button (btn w1) in
      let w2 := run_ticks b2 w1 in
      let current_cancel_button := cancel_button (btn w2) in
      if negb current_accept_button && negb current_cancel_button
      then waitForButtonPress_loop tl2 w2
      else Some (current_accept_button, current_cancel_button,
                 mkMachine w2 tl2)
  | _ => None
  end.

Definition waitForButtonPress : M bool :=
  fun m =>
    match waitForButtonPress_loop (irq m) (hw m) with
    | Some (current_accept_button, current_cancel_button, m') =>
        if current_accept_button then Some (false, m') else Some (true, m')
    | None => None
    end.

(** ** Transaction staging store *)

(** [strncpy(dest, src, n)]: copy up to the terminator, pad with
    terminators up to [n] characters. *)
Fixpoint strncpy_chars (src : list ascii) (n : nat) {struct n} : list ascii :=
  match n with
  | O => []
  | S n' =>
      match src with
      | [] => replicate (S n') NUL
      | c :: src' =>
          if is_NUL c then replicate (S n') NUL
          else c :: strncpy_chars src' n'
      end
  end.

Definition strncpy (dest src : list ascii) (n : nat) : list ascii :=
  strncpy_chars src n ++ drop n dest.

Section Staging.

(** [TEXT_AMOUNT_LENGTH] and [TEXT_ADDRESS_LENGTH] come from
    hwinterface.h, which is not among the sources: they are parameters. *)
Variables TEXT_AMOUNT_LENGTH TEXT_ADDRESS_LENGTH : nat.

Definition newOutputSeen (text_amount text_address : list ascii)
    (s : staging) : bool * staging :=
  if list_index s >=? MAX_OUTPUTS then (true, s)
  else
    let i := Z.to_nat (list_index s) in
    let amount_dest := default [] (list_amount s !! i) in
    let address_dest := default [] (list_address s !! i) in
    let amount_dest := strncpy amount_dest text_amount TEXT_AMOUNT_LENGTH in
    let address_dest :=
      strncpy address_dest text_address TEXT_ADDRESS_LENGTH in
    let amount_dest := <[(TEXT_AMOUNT_LENGTH - 1)%nat := NUL]> amount_dest in
    let address_dest :=
      <[(TEXT_ADDRESS_LENGTH - 1)%nat := NUL]> address_dest in
    (false,
     mkStaging (<[i := amount_dest]> (list_amount s))
       (<[i := address_dest]> (list_address s))
       (u8 (list_index s + 1))
       (transaction_fee_set s) (transaction_fee_amount s)).

Definition setTransactionFee (text_amount : list ascii) (s : staging)
    : staging :=
  let fee := strncpy (transaction_fee_amount s) text_amount
               TEXT_AMOUNT_LENGTH in
  let fee := <[(TEXT_AMOUNT_LENGTH - 1)%nat := NUL]> fee in
  mkStaging (list_amount s) (list_address s) (list_index s) true fee.

End Staging.

Definition clearOutputsSeen (s : staging) : staging :=
  mkStaging (list_amount s) (list_address s) 0 false
    (transaction_fee_amount s).

(** ** Confirmation workflow *)

(** Modelled from the spec: the enumeration [AskUserCommand] is declared in
    hwinterface.h, which is not among the sources. The nine tags are the
    ones [userDenied] compares against; [ASKUSER_UNRECOGNISED] stands for
    every other value, which falls to the final [else]. *)
Inductive AskUserCommand : Type :=
  | ASKUSER_NUKE_WALLET
  | ASKUSER_NEW_ADDRESS
  | ASKUSER_SIGN_TRANSACTION
  | ASKUSER_FORMAT
  | ASKUSER_CHANGE_NAME
  | ASKUSER_BACKUP_WALLET
  | ASKUSER_RESTORE_WALLET
  | ASKUSER_CHANGE_KEY
  | ASKUSER_GET_MASTER_KEY
  | ASKUSER_UNRECOGNISED.

Definition str_delete_line0 := literal "Delete existing wallet".
Definition str_delete_line1 := literal "and start a new one?".
Definition str_new_line0 := literal "Create new".
Definition str_new_line1 := literal "address?".
Definition str_sign_part0 := literal "Sending ".
Definition str_sign_part1 := literal " BTC to".
Definition str_fee_part0 := literal "Transaction fee:".
Definition str_fee_part1 := literal " BTC".
Definition str_format_line0 := literal "Do you want to".
Definition str_format_line1 := literal "delete everything?".
Definition str_change_name_line0 := literal "Change the name".
Definition str_change_name_line1 := literal "of your wallet?".
Definition str_backup_line0 := literal "Do you want to do".
Definition str_backup_line1 := literal "a wallet backup?".
Definition str_restore_line0 := literal "Restore wallet".
Definition str_restore_line1 := literal "from backup?".
Definition str_change_key_line0 := literal "Change the key".
Definition str_change_key_line1 := literal "of your wallet?".
Definition str_get_master_key_line0 := literal "Reveal master".
Definition str_get_master_key_line1 := literal "public key?".
Definition str_unknown_line0 := literal "Unknown command in userDenied()".
Definition str_unknown_line1 := literal "Press any button to continue".
Definition str_stream_error := literal "Stream error".

(** Row [i] of a staged text table, as [writeString] receives it. *)
Definition row (table : list (list ascii)) (i : Z) : list ascii :=
  default [] (table !! Z.to_nat i).

(** The [for] loop of the sign-transaction branch, entered with [n]
    iterations to go ([list_index - i], [list_index] being at most 255 and
    constant during the loop), the loop variable [i] and the current [r]. *)
Fixpoint userDenied_for (n : nat) (i : Z) (r : bool) : M bool :=
  match n with
  | O => ret r
  | S n' =>
      clearLcd ;;
      waitForNoButtonPress ;;
      gotoStartOfLine 0 ;;
      writeString str_sign_part0 true ;;
      w <- get_world ;;
      writeString (row (list_amount (stage w)) i) false ;;
      writeString str_sign_part1 true ;;
      gotoStartOfLine 1 ;;
      writeString (row (list_address (stage w)) i) false ;;
      r <- waitForButtonPress ;;
      if r then ret r
      else userDenied_for n' (u8 (i + 1)) r
  end.

Definition userDenied (command : AskUserCommand) : M bool :=
  clearLcd ;;
  r <- match command with
       | ASKUSER_NUKE_WALLET =>
           waitForNoButtonPress ;;
           gotoStartOfLine 0 ;;
           writeString str_delete_line0 true ;;
           gotoStartOfLine 1 ;;
           writeString str_delete_line1 true ;;
           waitForButtonPress
       | ASKUSER_NEW_ADDRESS =>
           waitForNoButtonPress ;;
           gotoStartOfLine 0 ;;
           writeString str_new_line0 true ;;
           gotoStartOfLine 1 ;;
           writeString str_new_line1 true ;;
           waitForButtonPress
       | ASKUSER_SIGN_TRANSACTION =>
           w <- get_world ;;
           r <- userDenied_for (Z.to_nat (list_index (stage w))) 0 true ;;
           w <- get_world ;;
           if negb r && transaction_fee_set (stage w) then
             clearLcd ;;
             waitForNoButtonPress ;;
             gotoStartOfLine 0 ;;
             writeString str_fee_part0 true ;;
             gotoStartOfLine 1 ;;
             w <- get_world ;;
             writeString (transaction_fee_amount (stage w)) false ;;
             writeString str_fee_part1 true ;;
             waitForButtonPress
           else ret r
       | ASKUSER_FORMAT =>
           waitForNoButtonPress ;;
           gotoStartOfLine 0 ;;
           writeString str_format_line0 true ;;
           gotoStartOfLine 1 ;;
           writeString str_format_line1 true ;;
           waitForButtonPress
       | ASKUSER_CHANGE_NAME =>
           waitForNoButtonPress ;;
           gotoStartOfLine 0 ;;
           writeString str_change_name_line0 true ;;
           gotoStartOfLine 1 ;;
           writeString str_change_name_line1 true ;;
           waitForButtonPress
       | ASKUSER_BACKUP_WALLET =>
           waitForNoButtonPress ;;
           gotoStartOfLine 0 ;;
           writeString str_backup_line0 true ;;
           gotoStartOfLine 1 ;;
           writeString str_backup_line1 true ;;
           waitForButtonPress
       | ASKUSER_RESTORE_WALLET =>
           waitForNoButtonPress ;;
           gotoStartOfLine 0 ;;
           writeString str_restore_line0 true ;;
           gotoStartOfLine 1 ;;
           writeString str_restore_line1 true ;;
           waitForButtonPress
       | ASKUSER_CHANGE_KEY =>
           waitForNoButtonPress ;;
           gotoStartOfLine 0 ;;
           writeString str_change_key_line0 true ;;
           gotoStartOfLine 1 ;;
           writeString str_change_key_line1 true ;;
           waitForButtonPress
       | ASKUSER_GET_MASTER_KEY =>
           waitForNoButtonPress ;;
           gotoStartOfLine 0 ;;
           writeString str_get_master_key_line0 true ;;
           gotoStartOfLine 1 ;;
           writeString str_get_master_key_line1 true ;;
           waitForButtonPress
       | ASKUSER_UNRECOGNISED =>
           waitForNoButtonPress ;;
           gotoStartOfLine 0 ;;
           writeString str_unknown_line0 true ;;
           gotoStartOfLine 1 ;;
           writeString str_unknown_line1 true ;;
           waitForButtonPress ;;
           ret true
       end ;;
  clearLcd ;;
  ret r.

(** ** Seed backup presenter *)

Definition char_of (x : Z) : ascii := ascii_of_N (Z.to_N (u8 x)).

Definition nibbleToHex (nibble : Z) : ascii :=
  let temp := u8 (Z.land nibble 15) in
  if temp <? 10 then char_of (48 + temp)
  else char_of (97 + (temp - 10)).

Definition str_seed_encrypted_or_not_line0 := literal "Backup is".
Definition str_seed_encrypted_line1 := literal "encrypted".
Definition str_seed_not_encrypted_line1 := literal "not encrypted".

(** The [for] loop of [writeBackupSeed] together with the statements that
    follow it, entered with [n] bytes to go ([SEED_LENGTH - i]). A [return]
    inside the loop ends the function. *)
Fixpoint writeBackupSeed_for (n : nat) (seed : list Z) (i byte_counter : Z)
    : M bool :=
  match n with
  | O =>
      waitForNoButtonPress ;;
      r <- waitForButtonPress ;;
      if r then clearLcd ;; ret true
      else clearLcd ;; ret false
  | S n' =>
      let one_byte := default 0 (seed !! Z.to_nat i) in
      let str := [" "%char; nibbleToHex (u8 (Z.shiftr one_byte 4));
                  nibbleToHex one_byte; NUL] in
      let body (byte_counter : Z) : M bool :=
        (if byte_counter =? 0 then gotoStartOfLine 0
         else if byte_counter =? 6 then gotoStartOfLine 1
         else ret tt) ;;
        (if Z.land byte_counter 1 =? 0 then writeString str false
         else writeString (tail str) false) ;;
        writeBackupSeed_for n' seed (u8 (i + 1)) (u8 (byte_counter + 1)) in
      if byte_counter =? 12 then
        waitForNoButtonPress ;;
        r <- waitForButtonPress ;;
        if r then clearLcd ;; ret true
        else clearLcd ;; body 0
      else body byte_counter
  end.

Section Backup.

(** [SEED_LENGTH] comes from a header that is not among the sources: it
    is a parameter (below 256, [i] being a [uint8_t]). *)
Variable SEED_LENGTH : nat.

Definition writeBackupSeed (seed : list Z) (is_encrypted : bool)
    (destination_device : Z) : M bool :=
  if negb (destination_device =? 0) then ret true
  else
    clearLcd ;;
    waitForNoButtonPress ;;
    gotoStartOfLine 0 ;;
    writeString str_seed_encrypted_or_not_line0 true ;;
    gotoStartOfLine 1 ;;
    (if is_encrypted then writeString str_seed_encrypted_line1 true
     else writeString str_seed_not_encrypted_line1 true) ;;
    r <- waitForButtonPress ;;
    if r then clearLcd ;; ret true
    else
      waitForNoButtonPress ;;
      writeBackupSeed_for SEED_LENGTH seed 0 0.

End Backup.

(** ** Vocabulary of the properties *)

(** State of the buttons after [initLcdAndInput] (lines 342-345). *)
Definition initial_buttons : buttons := mkButtons false false 0 0.

(** The two button channels of the interrupt. *)
Inductive channel : Type := AcceptChannel | CancelChannel.

Definition button_of (ch : channel) (w : world) : bool :=
  match ch with
  | AcceptChannel => accept_button (btn w)
  | CancelChannel => cancel_button (btn w)
  end.

Definition debounce_of (ch : channel) (w : world) : Z :=
  match ch with
  | AcceptChannel => accept_debounce (btn w)
  | CancelChannel => cancel_debounce (btn w)
  end.

(** The raw sample of a channel in one tick: the value the interrupt gives
    to [temp], true when the pin reads high. The buttons pull the pin low,
    so a high pin is a released button. *)
Definition temp_of (ch : channel) (p : pin_reads) : bool :=
  match ch with
  | AcceptChannel => negb (sampleArduinoPin ACCEPT_PIN (PIND_accept p) 0 =? 0)
  | CancelChannel => negb (sampleArduinoPin CANCEL_PIN (PIND_cancel p) 0 =? 0)
  end.

(** The interrupt's test for "mismatching state". *)
Definition disagrees (ch : channel) (p : pin_reads) (state : bool) : bool :=
  (state && temp_of ch p) || (negb state && negb (temp_of ch p)).

(** Operations on the display state, as the scheduler and the foreground
    interleave them. *)
Inductive lcd_op : Type :=
  | OpTick (p : pin_reads)
  | OpClearLcd
  | OpGotoStartOfLine (line : Z)
  | OpWriteString (str : list ascii) (is_progmem : bool).

Definition run_op (o : lcd_op) (w : world) : world :=
  match o with
  | OpTick p => ISR p w
  | OpClearLcd => with_disp (clearLcd_disp (disp w)) w
  | OpGotoStartOfLine line => with_disp (gotoStartOfLine_disp line (disp w)) w
  | OpWriteString str is_progmem =>
      with_disp (writeString_disp str is_progmem (disp w)) w
  end.

Definition run_ops (ops : list lcd_op) (w : world) : world :=
  fold_left (fun w o => run_op o w) ops w.

(** The machine once [clearLcd] has run. *)
Definition cleared (m : machine) : machine :=
  mkMachine (with_disp (clearLcd_disp (disp (hw m))) (hw m)) (irq m).

(** The text a buffer holds when read as a C string. *)
Fixpoint c_str (buf : list ascii) : list ascii :=
  match buf with
  | [] => []
  | c :: buf' => if is_NUL c then [] else c :: c_str buf'
  end.

(** One iteration of the polling loop of [waitForButtonPress]: the two
    copies it takes and the machine it leaves. *)
Definition snapshot (m : machine) : option (bool * bool * machine) :=
  match irq m with
  | b1 :: b2 :: tl2 =>
      let w1 := run_ticks b1 (hw m) in
      let w2 := run_ticks b2 w1 in
      Some (accept_button (btn w1), cancel_button (btn w2), mkMachine w2 tl2)
  | _ => None
  end.

(** [polled m a c m']: polling from [m], every snapshot shows both flags
    false until one shows [(a, c)] with at least one flag true, leaving
    [m']. *)
Inductive polled : machine -> bool -> bool -> machine -> Prop :=
  | polled_seen m a c m' :
      snapshot m = Some (a, c, m') -> a || c = true -> polled m a c m'
  | polled_again m m1 a c m' :
      snapshot m = Some (false, false, m1) -> polled m1 a c m' ->
      polled m a c m'.

(** The screen of staged output [i] and the press that answers it. *)
Definition output_screen (i : Z) : M bool :=
  clearLcd ;;
  waitForNoButtonPress ;;
  gotoStartOfLine 0 ;;
  writeString str_sign_part0 true ;;
  w <- get_world ;;
  writeString (row (list_amount (stage w)) i) false ;;
  writeString str_sign_part1 true ;;
  gotoStartOfLine 1 ;;
  writeString (row (list_address (stage w)) i) false ;;
  waitForButtonPress.

(** The fee screen and the press that answers it. *)
Definition fee_screen : M bool :=
  clearLcd ;;
  waitForNoButtonPress ;;
  gotoStartOfLine 0 ;;
  writeString str_fee_part0 true ;;
  gotoStartOfLine 1 ;;
  w <- get_world ;;
  writeString (transaction_fee_amount (stage w)) false ;;
  writeString str_fee_part1 true ;;
  waitForButtonPress.

(** [approved_upto k m m']: from [m], the screens of outputs [0 .. k-1] were
    shown in staging order and each was answered with the accept button,
    leaving [m']. *)
Inductive approved_upto : nat -> machine -> machine -> Prop :=
  | approved_none m : approved_upto 0 m m
  | approved_next k m m1 m2 :
      approved_upto k m m1 ->
      output_screen (Z.of_nat k) m1 = Some (false, m2) ->
      approved_upto (S k) m m2.

(** Hexadecimal digits and the layout of a line of the seed dump:
    groups of two octets, each group preceded by a space. *)
Definition hex_digit (n : Z) : ascii :=
  nth (Z.to_nat n) (list_ascii_of_string "0123456789abcdef") NUL.

Definition hex_pair (b : Z) : list ascii :=
  [hex_digit ((b / 16) mod 16); hex_digit (b mod 16)].

Fixpoint hex_line (bytes : list Z) : list ascii :=
  match bytes with
  | [] => []
  | [b] => " "%char :: hex_pair b
  | b1 :: b2 :: rest => " "%char :: hex_pair b1 ++ hex_pair b2 ++ hex_line rest
  end.

(** The characters sent to the display as data, in order. *)
Definition shown (bus : list lcd_write) : list ascii :=
  map (fun e => ascii_of_N (Z.to_N (bus_byte e)))
    (filter (fun e => bus_rs e = true) bus).

(** Pin levels: a pressed button pulls its pin low. *)
Definition pins_released : pin_reads := mkPins 192 192.
Definition pins_accept : pin_reads := mkPins 128 128.
Definition pins_cancel : pin_reads := mkPins 64 64.
Definition pins_both : pin_reads := mkPins 0 0.

(** What one iteration of the seed loop sends to the display, and what a
    run of [k] iterations without a pause sends: used to relate the loop to
    [hex_page]. *)
Definition seed_text (byte_counter one_byte : Z) : list ascii :=
  let str := [" "%char; nibbleToHex (u8 (Z.shiftr one_byte 4));
              nibbleToHex one_byte; NUL] in
  if Z.land byte_counter 1 =? 0 then str else tail str.

Definition seed_byte (byte_counter one_byte : Z) (d : display) : display :=
  let d := if byte_counter =? 0 then gotoStartOfLine_disp 0 d
           else if byte_counter =? 6 then gotoStartOfLine_disp 1 d
           else d in
  writeString_disp (seed_text byte_counter one_byte) false d.

Fixpoint seed_run (k : nat) (seed : list Z) (i byte_counter : Z)
    (d : display) : display :=
  match k with
  | O => d
  | S k' =>
      seed_run k' seed (i + 1) (byte_counter + 1)
        (seed_byte byte_counter (default 0 (seed !! Z.to_nat i)) d)
  end.

(** Well-formedness of the display state: column and line size within the
    40 characters of a DDRAM line, scroll position at 0 or within the
    overflow of the longest line. *)
Definition display_ok (d : display) : Prop :=
  0 <= current_column d <= 40 /\
  0 <= max_line_size d <= 40 /\
  0 <= scroll_pos d /\
  (scroll_pos d = 0 \/ scroll_pos d + NUM_COLUMNS <= max_line_size d).

(** Well-formedness of the staging store for row sizes [LA] and [LD]: the
    tables have MAX_OUTPUTS rows of the declared sizes and the index is
    within the tables. *)
Definition staging_ok (LA LD : nat) (s : staging) : Prop :=
  length (list_amount s) = Z.to_nat MAX_OUTPUTS /\
  length (list_address s) = Z.to_nat MAX_OUTPUTS /\
  Forall (fun r => length r = LA) (list_amount s) /\
  Forall (fun r => length r = LD) (list_address s) /\
  0 <= list_index s <= MAX_OUTPUTS.

(** ** Sample states and timelines *)

(** The display right after [clearLcd], with nothing on the bus yet. *)
Definition blank_display : display :=
  mkDisplay 0 0 0 false SCROLL_SPEED false [].

(** An empty staging store whose rows hold 22 and 36 characters. *)
Definition empty_staging : staging :=
  mkStaging (replicate 2 (replicate 22 NUL)) (replicate 2 (replicate 36 NUL))
    0 false (replicate 22 NUL).

Definition power_on : world :=
  mkWorld blank_display initial_buttons empty_staging.

(** A 22-character line is written and left alone for 1349 ticks: the
    scroll has reached the right boundary and the countdown is about to
    expire. *)
Definition scroll_demo_ops : list lcd_op :=
  [OpGotoStartOfLine 0; OpWriteString str_delete_line0 true]
  ++ replicate 1349 (OpTick pins_released).

(** A line that fits the display, left alone for 449 ticks. *)
Definition fitting_demo_ops : list lcd_op :=
  [OpGotoStartOfLine 0; OpWriteString str_new_line0 true]
  ++ replicate 449 (OpTick pins_released).

(** Both buttons are held down for eight ticks before the foreground reads
    the accept flag; nothing happens before it reads the cancel flag. *)
Definition both_pressed : machine :=
  mkMachine power_on [replicate 8 pins_both; []].

(** The machine a foreground computation leaves (the machine itself when
    the timeline runs out). *)
Definition after {A : Type} (c : M A) (m : machine) : machine :=
  match c m with
  | Some (_, m') => m'
  | None => m
  end.

(** What the interrupts see while the user lets go of both buttons, pushes
    the accept button, pushes the cancel button: nine ticks before the read
    of the accept flag, none before the read of the cancel flag. *)
Definition user_releases : timeline := [replicate 9 pins_released; []].
Definition user_accepts : timeline := [replicate 9 pins_accept; []].
Definition user_cancels : timeline := [replicate 9 pins_cancel; []].

(** Two staged outputs and a fee. *)
Definition two_outputs_and_fee : staging :=
  setTransactionFee 22 (literal "0.0005")
    (snd (newOutputSeen 22 36 (literal "2.5") (literal "1Xyz")
       (snd (newOutputSeen 22 36 (literal "0.01") (literal "1Abc")
          empty_staging)))).

(** No output staged, a fee set, and a user who would accept. *)
Definition fee_without_outputs : machine :=
  mkMachine
    (with_stage (setTransactionFee 22 (literal "0.0005") empty_staging)
       power_on)
    (user_releases ++ user_accepts).

(** First output approved, second denied. *)
Definition second_output_denied : machine :=
  mkMachine (with_stage two_outputs_and_fee power_on)
    (user_releases ++ user_accepts ++ user_releases ++ user_cancels).

(** Both outputs approved, fee denied. *)
Definition fee_denied : machine :=
  mkMachine (with_stage two_outputs_and_fee power_on)
    (user_releases ++ user_accepts ++ user_releases ++ user_accepts
     ++ user_releases ++ user_cancels).

(** A store with rows of 5 and 6 characters, to watch texts being cut. *)
Definition small_staging : staging :=
  mkStaging (replicate 2 (replicate 5 NUL)) (replicate 2 (replicate 6 NUL))
    0 false [].

(** A sixteen-byte seed, and a user who approves the notice and then
    cancels at the first page, or approves everything. *)
Definition demo_seed : list Z :=
  [0; 1; 2; 3; 4; 5; 6; 7; 8; 9; 10; 11; 252; 253; 254; 255].

Definition user_idle : timeline := [[]; []].

Definition backup_approved : machine :=
  mkMachine power_on
    (user_releases ++ user_accepts ++ user_releases
     ++ user_idle ++ user_accepts ++ user_releases ++ user_accepts).

(** ** Vocabulary of the further properties *)

(** The display's own shift offset, as the bus traffic determines it: a
    clear command resets it, 0x18 shifts the text one column to the left,
    0x1c one column to the right; data bytes and other commands leave it. *)
Definition shift_after (offset : Z) (e : lcd_write) : Z :=
  if bus_rs e then offset
  else if bus_byte e =? 1 then 0
  else if bus_byte e =? 24 then offset + 1
  else if bus_byte e =? 28 then offset - 1
  else offset.

Definition display_shift (bus : list lcd_write) : Z :=
  fold_left shift_after bus 0.

(** A shift command: 0x18 or 0x1c with RS low. *)
Definition is_shift_command (e : lcd_write) : bool :=
  negb (bus_rs e) && ((bus_byte e =? 24) || (bus_byte e =? 28)).

(** A character as [write8] sends it. *)
Definition data_write (c : ascii) : lcd_write :=
  LcdWrite true (Z.of_N (N_of_ascii c)).

(** The body of the loop of [writeString] for one character [c]. *)
Definition write_char (c : ascii) (d : display) : display :=
  let d := write8 (Z.of_N (N_of_ascii c)) d in
  let d := set_current_column (u8 (current_column d + 1)) d in
  if current_column d >? max_line_size d
  then set_max_line_size (current_column d) d else d.

(** The cursor stays on the line: the column is at most the longest line
    size, which is at most the 40 characters of a DDRAM line. *)
Definition cursor_ok (d : display) : Prop :=
  0 <= current_column d <= max_line_size d /\ max_line_size d <= 40.

(** One tick on one channel, as both blocks of the interrupt compute it:
    [temp] is the raw sample, the state is the debounced flag and its
    counter. *)
Definition debounce_step (temp : bool) (st : bool * Z) : bool * Z :=
  let (button, count) := st in
  if (button && temp) || (negb button && negb temp) then
    let count := u8 (count + 1) in
    (if count =? DEBOUNCE_COUNT then negb button else button, count)
  else (button, 0).

(** All the channel states with a counter below [n], for an exhaustive
    check. *)
Definition channel_states (n : nat) : list (bool * Z) :=
  flat_map (fun k => [(false, Z.of_nat k); (true, Z.of_nat k)]) (seq 0 n).

Definition settles_within (n : nat) (temp : bool) (st : bool * Z) : bool :=
  let (button, count) := Nat.iter n (debounce_step temp) st in
  eqb button (negb temp) && (count =? 0).

(** [ticked m m']: the foreground only waited between [m] and [m']; the
    bursts it consumed from the timeline ran as interrupts and nothing else
    happened. *)
Definition ticked (m m' : machine) : Prop :=
  exists consumed : timeline,
    irq m = consumed ++ irq m' /\
    hw m' = run_ticks (concat consumed) (hw m).


(** A foreground computation that leaves the staging store as it found
    it. *)
Definition keeps_stage {A : Type} (c : M A) : Prop :=
  forall (m m' : machine) (a : A),
    c m = Some (a, m') -> stage (hw m') = stage (hw m).

(** The value of a hexadecimal digit, lower case as the presenter writes
    them; [None] for any other character. *)
Definition hex_value (c : ascii) : option Z :=
  let n := Z.of_N (N_of_ascii c) in
  if (48 <=? n) && (n <=? 57) then Some (n - 48)
  else if (97 <=? n) && (n <=? 102) then Some (n - 97 + 10)
  else None.

(** What the seed loop sends for a list of bytes, from byte counter
    [byte_counter] on. *)
Fixpoint seed_bytes (bytes : list Z) (byte_counter : Z) (d : display)
    : display :=
  match bytes with
  | [] => d
  | b :: bytes' => seed_bytes bytes' (byte_counter + 1) (seed_byte byte_counter b d)
  end.

(** What [hex_page] does to the display. *)
Definition page_disp (bytes : list Z) (d : display) : display :=
  let d := writeString_disp (hex_line (take 6 bytes) ++ [NUL]) false
             (gotoStartOfLine_disp 0 d) in
  if (6 <? length bytes)%nat
  then writeString_disp (hex_line (drop 6 bytes) ++ [NUL]) false
         (gotoStartOfLine_disp 1 d)
  else d.

(** A 64-byte seed and a user who approves the notice and five pages, and
    cancels at the sixth. *)
Definition long_seed : list Z := map Z.of_nat (seq 0 64).

(** ** The pins and the 4-bit transport (lines 88-175)

    The I/O registers are [volatile]: every store is an event the outside
    sees. [io_log] records the registers after each store, in program
    order; delays change nothing of the state. *)

Module Pins.

Definition RS_PIN : Z := 12.
Definition E_PIN : Z := 11.
Definition D4_PIN : Z := 5.
Definition D5_PIN : Z := 4.
Definition D6_PIN : Z := 3.
Definition D7_PIN : Z := 2.

Record ports := mkPorts { DDRB : Z; DDRD : Z; PORTB : Z; PORTD : Z }.

Record mcu := mkMcu { io : ports; io_log : list ports }.

Definition set_DDRB (v : Z) (r : ports) : ports :=
  mkPorts v (DDRD r) (PORTB r) (PORTD r).
Definition set_DDRD (v : Z) (r : ports) : ports :=
  mkPorts (DDRB r) v (PORTB r) (PORTD r).
Definition set_PORTB (v : Z) (r : ports) : ports :=
  mkPorts (DDRB r) (DDRD r) v (PORTD r).
Definition set_PORTD (v : Z) (r : ports) : ports :=
  mkPorts (DDRB r) (DDRD r) (PORTB r) v.

(** A store to an I/O register. *)
Definition store (r : ports) (c : mcu) : mcu := mkMcu r (io_log c ++ [r]).

Definition writeArduinoPin (pin value : Z) (c : mcu) : mcu :=
  let bit := 1 in
  if pin <? 8 then
    let bit := u8 (Z.shiftl bit pin) in
    let c := store (set_DDRD (u8 (Z.lor (DDRD (io c)) bit)) (io c)) c in
    if negb (value =? 0)
    then store (set_PORTD (u8 (Z.lor (PORTD (io c)) bit)) (io c)) c
    else store (set_PORTD (u8 (Z.land (PORTD (io c)) (Z.lnot bit))) (io c)) c
  else
    let bit := u8 (Z.shiftl bit (pin - 8)) in
    let c := store (set_DDRB (u8 (Z.lor (DDRB (io c)) bit)) (io c)) c in
    if negb (value =? 0)
    then store (set_PORTB (u8 (Z.lor (PORTB (io c)) bit)) (io c)) c
    else store (set_PORTB (u8 (Z.land (PORTB (io c)) (Z.lnot bit))) (io c)) c.

Definition write4 (value : Z) (c : mcu) : mcu :=
  let c := writeArduinoPin D4_PIN (u8 (Z.land value 1)) c in
  let c := writeArduinoPin D5_PIN (u8 (Z.land value 2)) c in
  let c := writeArduinoPin D6_PIN (u8 (Z.land value 4)) c in
  let c := writeArduinoPin D7_PIN (u8 (Z.land value 8)) c in
  let c := writeArduinoPin E_PIN 0 c in
  let c := writeArduinoPin E_PIN 1 c in
  writeArduinoPin E_PIN 0 c.

Definition write8 (value : Z) (c : mcu) : mcu :=
  let c := write4 (u8 (Z.shiftr value 4)) c in
  write4 value c.

Definition setArduinoPinInput (pin : Z) (c : mcu) : mcu :=
  let bit := 1 in
  if pin <? 8 then
    let bit := u8 (Z.shiftl bit pin) in
    let c := store (set_DDRD (u8 (Z.land (DDRD (io c)) (Z.lnot bit))) (io c)) c in
    store (set_PORTD (u8 (Z.lor (PORTD (io c)) bit)) (io c)) c
  else
    let bit := u8 (Z.shiftl bit (pin - 8)) in
    let c := store (set_DDRB (u8 (Z.land (DDRB (io c)) (Z.lnot bit))) (io c)) c in
    store (set_PORTB (u8 (Z.lor (PORTB (io c)) bit)) (io c)) c.

End Pins.

(** The bit of the output register that belongs to an Arduino pin: the
    level the pin drives when it is an output, its pull-up when it is an
    input. *)
Definition port_bit (r : Pins.ports) (pin : Z) : bool :=
  if pin <? 8 then Z.testbit (Pins.PORTD r) pin
  else Z.testbit (Pins.PORTB r) (pin - 8).

(** The bit of the direction register that belongs to an Arduino pin: set
    for an output. *)
Definition direction_bit (r : Pins.ports) (pin : Z) : bool :=
  if pin <? 8 then Z.testbit (Pins.DDRD r) pin
  else Z.testbit (Pins.DDRB r) (pin - 8).

(** The nibble on the four data lines, D7 the most significant. *)
Definition data_lines (r : Pins.ports) : Z :=
  8 * Z.b2z (port_bit r Pins.D7_PIN) + 4 * Z.b2z (port_bit r Pins.D6_PIN)
  + 2 * Z.b2z (port_bit r Pins.D5_PIN) + Z.b2z (port_bit r Pins.D4_PIN).

(** What the HD44780 takes from a run of stores: at every falling edge of
    E, the level of RS and the nibble on the data lines. [prev] is the
    state of the registers before the first store. *)
Fixpoint latched (prev : Pins.ports) (log : list Pins.ports)
    : list (bool * Z) :=
  match log with
  | [] => []
  | r :: log' =>
      (if port_bit prev Pins.E_PIN && negb (port_bit r Pins.E_PIN)
       then [(port_bit r Pins.RS_PIN, data_lines r)]
       else [])
      ++ latched r log'
  end.

(** In 4-bit mode two nibbles make one transfer, the high nibble first. *)
Fixpoint transfers (nibbles : list (bool * Z)) : list lcd_write :=
  match nibbles with
  | (rs, high) :: (_, low) :: rest =>
      LcdWrite rs (16 * high + low) :: transfers rest
  | _ => []
  end.

(** The stores of a computation that takes [c] to [c'], and what the
    display latches from them. *)
Definition sends (c c' : Pins.mcu) (out : list (bool * Z)) : Prop :=
  exists new,
    Pins.io_log c' = Pins.io_log c ++ new /\
    latched (Pins.io c) new = out /\
    default (Pins.io c) (last new) = Pins.io c'.

(** Registers after reset, nothing stored yet. *)
Definition reset_pins : Pins.mcu := Pins.mkMcu (Pins.mkPorts 0 0 0 0) [].

(** A character sent with RS low: the display takes it for a command. *)
Definition command_write (c : ascii) : lcd_write :=
  LcdWrite false (Z.of_N (N_of_ascii c)).

(** A prompt with a first line of 22 characters is being written on a
    cleared display whose countdown is about to expire: the state of the
    display after the first 17 characters. *)
Definition seventeen_written : display :=
  writeString_loop (list_ascii_of_string "Delete existing w" ++ [NUL])
    (writeArduinoPin_RS 1 (set_scroll_counter 1 (clearLcd_disp blank_display))).

(** ** The foreground, with its settle delay and a log of the flag reads

    The embedding above takes timer interrupts at the reads of the button
    flags only, and keeps no record of when, between the writes to the
    display, a flag was read. [Traced] embeds the foreground functions a
    second time, on a finer state:
    - the state holds a log of the reads of the [volatile] button flags,
      in program order, each with the flag, the value read and the number
      of bus entries sent to the display before the read; together with
      [lcd_bus] the log fixes the order of the reads and the writes;
    - the 10 ms delay at the end of [clearLcd] (line 323) is a point where
      timer interrupts fire: it takes the next burst of the timeline, as a
      read of a flag does.
    The writes of one call of [gotoStartOfLine] or [writeString] are taken
    as one step, as above; the timer is not modelled inside them. *)

(** A read of a button flag. *)
Record flag_read := FlagRead {
  read_flag : channel;
  read_value : bool;
  read_after : nat
}.

Record run := mkRun { mach : machine; reads : list flag_read }.

Definition T (A : Type) : Type := run -> option (A * run).

Definition t_ret {A : Type} (a : A) : T A := fun t => Some (a, t).

Definition t_bind {A B : Type} (c : T A) (k : A -> T B) : T B :=
  fun t => match c t with
           | Some (a, t') => k a t'
           | None => None
           end.

Declare Scope tr_scope.
Delimit Scope tr_scope with tr.
Notation "x <- c ;; k" := (t_bind c (fun x => k))
  (at level 100, c at next level, right associativity) : tr_scope.
Notation "c ;; k" := (t_bind c (fun _ => k))
  (at level 100, right associativity) : tr_scope.

(** The read of the flag of [ch] in world [w]. *)
Definition read_of (ch : channel) (w : world) : flag_read :=
  FlagRead ch (button_of ch w) (length (lcd_bus (disp w))).

Module Traced.

Local Open Scope tr_scope.

Definition get_world : T world := fun t => Some (hw (mach t), t).

Definition on_disp (f : display -> display) : T unit :=
  fun t =>
    Some (tt,
          mkRun (mkMachine (with_disp (f (disp (hw (mach t)))) (hw (mach t)))
                   (irq (mach t)))
            (reads t)).

(** [_delay_ms]: the interrupts that fire during the delay are the next
    burst of the timeline. *)
Definition delay_ms (ms : Z) : T unit :=
  fun t =>
    match irq (mach t) with
    | [] => None
    | b :: tl =>
        Some (tt, mkRun (mkMachine (run_ticks b (hw (mach t))) tl) (reads t))
    end.

Definition clearLcd : T unit :=
  on_disp clearLcd_disp ;;
  delay_ms 10.

Definition gotoStartOfLine (line : Z) : T unit :=
  on_disp (gotoStartOfLine_disp line).

Definition writeString (str : list ascii) (is_progmem : bool) : T unit :=
  on_disp (writeString_disp str is_progmem).

(** [waitForNoButtonPress]: the condition [accept_button || cancel_button]
    reads the accept flag and, only when that is false, the cancel flag. *)
Fixpoint waitForNoButtonPress_loop (tl : timeline) (w : world)
    (log : list flag_read) : option (unit * run) :=
  match tl with
  | [] => None
  | b1 :: tl1 =>
      let w1 := run_ticks b1 w in
      let log := log ++ [read_of AcceptChannel w1] in
      if accept_button (btn w1) then waitForNoButtonPress_loop tl1 w1 log
      else
        match tl1 with
        | [] => None
        | b2 :: tl2 =>
            let w2 := run_ticks b2 w1 in
            let log := log ++ [read_of CancelChannel w2] in
            if cancel_button (btn w2)
            then waitForNoButtonPress_loop tl2 w2 log
            else Some (tt, mkRun (mkMachine w2 tl2) log)
        end
  end.

Definition waitForNoButtonPress : T unit :=
  fun t => waitForNoButtonPress_loop (irq (mach t)) (hw (mach t)) (reads t).

(** The do-while loop of [waitForButtonPress]; it yields the two copies
    [current_accept_button] and [current_cancel_button] it exits with. *)
Fixpoint waitForButtonPress_loop (tl : timeline) (w : world)
    (log : list flag_read) : option (bool * bool * run) :=
  match tl with
  | b1 :: b2 :: tl2 =>
      let w1 := run_ticks b1 w in
      let current_accept_button := accept_button (btn w1) in
      let log := log ++ [read_of AcceptChannel w1] in
      let w2 := run_ticks b2 w1 in
      let current_cancel_button := cancel_button (btn w2) in
      let log := log ++ [read_of CancelChannel w2] in
      if negb current_accept_button && negb current_cancel_button
      then waitForButtonPress_loop tl2 w2 log
      else Some (current_accept_button, current_cancel_button,
                 mkRun (mkMachine w2 tl2) log)
  | _ => None
  end.

Definition waitForButtonPress : T bool :=
  fun t =>
    match waitForButtonPress_loop (irq (mach t)) (hw (mach t)) (reads t) with
    | Some (current_accept_button, current_cancel_button, t') =>
        if current_accept_button then Some (false, t') else Some (true, t')
    | None => None
    end.

Fixpoint userDenied_for (n : nat) (i : Z) (r : bool) : T bool :=
  match n with
  | O => t_ret r
  | S n' =>
      clearLcd ;;
      waitForNoButtonPress ;;
      gotoStartOfLine 0 ;;
      writeString str_sign_part0 true ;;
      w <- get_world ;;
      writeString (row (list_amount (stage w)) i) false ;;
      writeString str_sign_part1 true ;;
      gotoStartOfLine 1 ;;
      writeString (row (list_address (stage w)) i) false ;;
      r <- waitForButtonPress ;;
      if r then t_ret r
      else userDenied_for n' (u8 (i + 1)) r
  end.

Definition userDenied (command : AskUserCommand) : T bool :=
  clearLcd ;;
  r <- match command with
       | ASKUSER_NUKE_WALLET =>
           waitForNoButtonPress ;;
           gotoStartOfLine 0 ;;
           writeString str_delete_line0 true ;;
           gotoStartOfLine 1 ;;
           writeString str_delete_line1 true ;;
           waitForButtonPress
       | ASKUSER_NEW_ADDRESS =>
           waitForNoButtonPress ;;
           gotoStartOfLine 0 ;;
           writeString str_new_line0 true ;;
           gotoStartOfLine 1 ;;
           writeString str_new_line1 true ;;
           waitForButtonPress
       | ASKUSER_SIGN_TRANSACTION =>
           w <- get_world ;;
           r <- userDenied_for (Z.to_nat (list_index (stage w))) 0 true ;;
           w <- get_world ;;
           if negb r && transaction_fee_set (stage w) then
             clearLcd ;;
             waitForNoButtonPress ;;
             gotoStartOfLine 0 ;;
             writeString str_fee_part0 true ;;
             gotoStartOfLine 1 ;;
             w <- get_world ;;
             writeString (transaction_fee_amount (stage w)) false ;;
             writeString str_fee_part1 true ;;
             waitForButtonPress
           else t_ret r
       | ASKUSER_FORMAT =>
           waitForNoButtonPress ;;
           gotoStartOfLine 0 ;;
           writeString str_format_line0 true ;;
           gotoStartOfLine 1 ;;
           writeString str_format_line1 true ;;
           waitForButtonPress
       | ASKUSER_CHANGE_NAME =>
           waitForNoButtonPress ;;
           gotoStartOfLine 0 ;;
           writeString str_change_name_line0 true ;;
           gotoStartOfLine 1 ;;
           writeString str_change_name_line1 true ;;
           waitForButtonPress
       | ASKUSER_BACKUP_WALLET =>
           waitForNoButtonPress ;;
           gotoStartOfLine 0 ;;
           writeString str_backup_line0 true ;;
           gotoStartOfLine 1 ;;
           writeString str_backup_line1 true ;;
           waitForButtonPress
       | ASKUSER_RESTORE_WALLET =>
           waitForNoButtonPress ;;
           gotoStartOfLine 0 ;;
           writeString str_restore_line0 true ;;
           gotoStartOfLine 1 ;;
           writeString str_restore_line1 true ;;
           waitForButtonPress
       | ASKUSER_CHANGE_KEY =>
           waitForNoButtonPress ;;
           gotoStartOfLine 0 ;;
           writeString str_change_key_line0 true ;;
           gotoStartOfLine 1 ;;
           writeString str_change_key_line1 true ;;
           waitForButtonPress
       | ASKUSER_GET_MASTER_KEY =>
           waitForNoButtonPress ;;
           gotoStartOfLine 0 ;;
           writeString str_get_master_key_line0 true ;;
           gotoStartOfLine 1 ;;
           writeString str_get_master_key_line1 true ;;
           waitForButtonPress
       | ASKUSER_UNRECOGNISED =>
           waitForNoButtonPress ;;
           gotoStartOfLine 0 ;;
           writeString str_unknown_line0 true ;;
           gotoStartOfLine 1 ;;
           writeString str_unknown_line1 true ;;
           waitForButtonPress ;;
           t_ret true
       end ;;
  clearLcd ;;
  t_ret r.

Fixpoint writeBackupSeed_for (n : nat) (seed : list Z) (i byte_counter : Z)
    : T bool :=
  match n with
  | O =>
      waitForNoButtonPress ;;
      r <- waitForButtonPress ;;
      if r then clearLcd ;; t_ret true
      else clearLcd ;; t_ret false
  | S n' =>
      let one_byte := default 0 (seed !! Z.to_nat i) in
      let str := [" "%char; nibbleToHex (u8 (Z.shiftr one_byte 4));
                  nibbleToHex one_byte; NUL] in
      let body (byte_counter : Z) : T bool :=
        (if byte_counter =? 0 then gotoStartOfLine 0
         else if byte_counter =? 6 then gotoStartOfLine 1
         else t_ret tt) ;;
        (if Z.land byte_counter 1 =? 0 then writeString str false
         else writeString (tail str) false) ;;
        writeBackupSeed_for n' seed (u8 (i + 1)) (u8 (byte_counter + 1)) in
      if byte_counter =? 12 then
        waitForNoButtonPress ;;
        r <- waitForButtonPress ;;
        if r then clearLcd ;; t_ret true
        else clearLcd ;; body 0
      else body byte_counter
  end.

Section Backup.

(** [SEED_LENGTH], as above. *)
Variable SEED_LENGTH : nat.

Definition writeBackupSeed (seed : list Z) (is_encrypted : bool)
    (destination_device : Z) : T bool :=
  if negb (destination_device =? 0) then t_ret true
  else
    clearLcd ;;
    waitForNoButtonPress ;;
    gotoStartOfLine 0 ;;
    writeString str_seed_encrypted_or_not_line0 true ;;
    gotoStartOfLine 1 ;;
    (if is_encrypted then writeString str_seed_encrypted_line1 true
     else writeString str_seed_not_encrypted_line1 true) ;;
    r <- waitForButtonPress ;;
    if r then clearLcd ;; t_ret true
    else
      waitForNoButtonPress ;;
      writeBackupSeed_for SEED_LENGTH seed 0 0.

End Backup.

Definition streamError : T unit :=
  clearLcd ;;
  gotoStartOfLine 0 ;;
  writeString str_stream_error true.

(** *** Vocabulary *)

(** The notice telling whether the backup is encrypted, and its press. *)
Definition notice_screen (is_encrypted : bool) : T bool :=
  clearLcd ;;
  waitForNoButtonPress ;;
  gotoStartOfLine 0 ;;
  writeString (literal "Backup is") true ;;
  gotoStartOfLine 1 ;;
  writeString (literal (if is_encrypted then "encrypted" else "not encrypted"))
    true ;;
  waitForButtonPress.

(** A confirmation checkpoint: both buttons released, then one press. *)
Definition checkpoint : T bool :=
  waitForNoButtonPress ;;
  waitForButtonPress.

(** A page of the seed dump: up to six octets on the first line, the
    following ones (up to six) on the second. *)
Definition hex_page (bytes : list Z) : T unit :=
  gotoStartOfLine 0 ;;
  writeString (hex_line (take 6 bytes) ++ [NUL]) false ;;
  if (6 <? length bytes)%nat then
    gotoStartOfLine 1 ;;
    writeString (hex_line (drop 6 bytes) ++ [NUL]) false
  else t_ret tt.

(** The seed dump as pages: twelve bytes at most on a page, a checkpoint
    after every page; a cancel ends the dump, an accept clears the display
    and goes on to the next page, if bytes remain. [pages] bounds the
    number of pages. *)
Fixpoint seed_pages (pages : nat) (bytes : list Z) : T bool :=
  match pages with
  | O => t_ret true
  | S pages' =>
      hex_page (take 12 bytes) ;;
      r <- checkpoint ;;
      if r then clearLcd ;; t_ret true
      else
        clearLcd ;;
        if (length bytes <=? 12)%nat then t_ret false
        else seed_pages pages' (drop 12 bytes)
  end.

End Traced.

(** The run a foreground computation leaves (the run itself when it does
    not return). *)
Definition t_after {A : Type} (c : T A) (t : run) : run :=
  match c t with
  | Some (_, t') => t'
  | None => t
  end.

(** The run that starts in world [w] with timeline [tl] and an empty log. *)
Definition run_from (w : world) (tl : timeline) : run :=
  mkRun (mkMachine w tl) [].

(** Two ticks fire during the 10 ms of a settle delay. *)
Definition settle_ticks : timeline := [replicate 2 pins_released].

(** An address prompt answered with the accept button. *)
Definition new_address_accepted : run :=
  run_from power_on
    (settle_ticks ++ user_releases ++ user_accepts ++ settle_ticks).

(** A user who approves the notice of the seed presenter and then cancels
    at the first page, or approves everything. *)
Definition seed_cancelled_at_first_page : run :=
  run_from power_on
    (settle_ticks ++ user_releases ++ user_accepts ++ user_releases
     ++ user_idle ++ user_cancels ++ settle_ticks).

Definition seed_approved : run :=
  run_from power_on
    (settle_ticks ++ user_releases ++ user_accepts ++ user_releases
     ++ user_idle ++ user_accepts ++ settle_ticks
     ++ user_releases ++ user_accepts ++ settle_ticks).

(** The two-page script with the checkpoint of the second page taken
    before the page is rendered. *)
Definition press_before_second_page (seed : list Z) (is_encrypted : bool)
    : T bool :=
  (r0 <- Traced.notice_screen is_encrypted ;;
   if r0 then Traced.clearLcd ;; t_ret true
   else
     Traced.waitForNoButtonPress ;;
     Traced.hex_page (take 12 seed) ;;
     r1 <- Traced.checkpoint ;;
     if r1 then Traced.clearLcd ;; t_ret true
     else
       Traced.clearLcd ;;
       r2 <- Traced.checkpoint ;;
       Traced.hex_page (drop 12 seed) ;;
       Traced.clearLcd ;;
       t_ret r2)%tr.

(** A 64-byte seed and a user who approves the notice and five pages, and
    cancels at the sixth. *)
Definition seed_cancelled_at_last_page : run :=
  run_from power_on
    (settle_ticks ++ user_releases ++ user_accepts ++ user_releases
     ++ user_idle ++ user_accepts ++ settle_ticks
     ++ user_releases ++ user_accepts ++ settle_ticks
     ++ user_releases ++ user_accepts ++ settle_ticks
     ++ user_releases ++ user_accepts ++ settle_ticks
     ++ user_releases ++ user_accepts ++ settle_ticks
     ++ user_releases ++ user_cancels ++ settle_ticks).



(** * Properties *)

(** ** Debouncing *)

Lemma run_ticks_app (ps qs : list pin_reads) (w : world) :
  run_ticks (ps ++ qs) w = run_ticks qs (run_ticks ps w).
Proof. unfold run_ticks. apply fold_left_app. Qed.

Lemma run_ticks_snoc (ps : list pin_reads) (p : pin_reads) (w : world) :
  run_ticks (ps ++ [p]) w = ISR p (run_ticks ps w).
Proof. rewrite run_ticks_app. reflexivity. Qed.

(** What one tick does to one channel: both blocks of the interrupt are the
    same step. *)
Lemma ISR_channel (ch : channel) (p : pin_reads) (w : world) :
  (button_of ch (ISR p w), debounce_of ch (ISR p w)) =
  if disagrees ch p (button_of ch w) then
    (if u8 (debounce_of ch w + 1) =? DEBOUNCE_COUNT
     then negb (button_of ch w) else button_of ch w,
     u8 (debounce_of ch w + 1))
  else (button_of ch w, 0).
Proof.
  destruct w as [d [ab cb ad cd] s].
  unfold ISR, ISR_buttons, disagrees, button_of, debounce_of, temp_of.
  destruct ch;
    cbn [btn with_btn with_disp accept_button cancel_button accept_debounce
         cancel_debounce];
  destruct (negb (sampleArduinoPin ACCEPT_PIN (PIND_accept p) 0 =? 0));
    destruct (negb (sampleArduinoPin CANCEL_PIN (PIND_cancel p) 0 =? 0));
    destruct ab, cb;
    cbn [andb orb negb accept_button cancel_button accept_debounce
         cancel_debounce];
    destruct (u8 (ad + 1) =? DEBOUNCE_COUNT) eqn:Ea;
    cbn [andb orb negb accept_button cancel_button accept_debounce
         cancel_debounce];
    destruct (u8 (cd + 1) =? DEBOUNCE_COUNT) eqn:Ec;
    cbn [andb orb negb accept_button cancel_button accept_debounce
         cancel_debounce];
    reflexivity.
Qed.

Lemma ISR_button (ch : channel) (p : pin_reads) (w : world) :
  button_of ch (ISR p w) =
  if disagrees ch p (button_of ch w)
     && (u8 (debounce_of ch w + 1) =? DEBOUNCE_COUNT)
  then negb (button_of ch w) else button_of ch w.
Proof.
  pose proof (ISR_channel ch p w) as H.
  destruct (disagrees ch p (button_of ch w));
    destruct (u8 (debounce_of ch w + 1) =? DEBOUNCE_COUNT);
    inversion H; reflexivity.
Qed.

Lemma ISR_debounce (ch : channel) (p : pin_reads) (w : world) :
  debounce_of ch (ISR p w) =
  if disagrees ch p (button_of ch w) then u8 (debounce_of ch w + 1) else 0.
Proof.
  pose proof (ISR_channel ch p w) as H.
  destruct (disagrees ch p (button_of ch w)); inversion H; reflexivity.
Qed.

(** A sample disagrees with the debounced state exactly when "pin low"
    (button held down) differs from it. *)
Lemma disagrees_pressed (ch : channel) (p : pin_reads) (state : bool) :
  disagrees ch p state = negb (eqb (negb (temp_of ch p)) state).
Proof. unfold disagrees. destruct state, (temp_of ch p); reflexivity. Qed.

Lemma debounce_range (ch : channel) (ps : list pin_reads) (w0 : world) :
  0 <= debounce_of ch w0 < 256 ->
  0 <= debounce_of ch (run_ticks ps w0) < 256.
Proof.
  intros H0. induction ps as [|p ps IH] using rev_ind; [exact H0|].
  rewrite run_ticks_snoc, ISR_debounce.
  destruct (disagrees ch p _); unfold u8; [|lia].
  apply Z.mod_pos_bound. lia.
Qed.

(** While the counter is below the threshold it counts the ticks, all
    disagreeing with an unchanged debounced state, that ended the run. *)
Lemma debounce_history (ch : channel) (w0 : world) (ps : list pin_reads) :
  debounce_of ch w0 = 0 ->
  let w := run_ticks ps w0 in
  debounce_of ch w < DEBOUNCE_COUNT ->
  exists before recent,
    ps = before ++ recent /\
    Z.of_nat (length recent) = debounce_of ch w /\
    forall (k : nat) (q : pin_reads),
      recent !! k = Some q ->
      button_of ch (run_ticks (before ++ take k recent) w0) = button_of ch w /\
      disagrees ch q (button_of ch w) = true.
Proof.
  intros H0. induction ps as [|p ps IH] using rev_ind; cbn zeta.
  - intros _. exists [], []. cbn. split; [reflexivity|]. split; [lia|].
    intros k q Hk. destruct k; discriminate.
  - cbn zeta in IH. rewrite run_ticks_snoc.
    pose proof (debounce_range ch ps w0 ltac:(lia)) as Hr.
    set (w := run_ticks ps w0) in *.
    rewrite ISR_debounce, ISR_button.
    destruct (disagrees ch p (button_of ch w)) eqn:Hd; cbn [andb].
    + intros Hlt.
      destruct (Z.eq_dec (debounce_of ch w) 255) as [E|NE].
      * rewrite E. cbn. exists (ps ++ [p]), [].
        rewrite app_nil_r. split; [reflexivity|]. split; [reflexivity|].
        intros k q Hk. destruct k; discriminate.
      * unfold u8 in *. rewrite Z.mod_small in * by lia.
        unfold DEBOUNCE_COUNT in *.
        destruct (debounce_of ch w + 1 =? 8) eqn:E8; [lia|].
        destruct IH as (before & recent & -> & Hlen & Hall); [lia|].
        exists before, (recent ++ [p]). split; [symmetry; apply app_assoc|].
        split; [rewrite length_app; cbn; lia|].
        intros k q Hk.
        destruct (decide (k < length recent)%nat) as [Hlt'|Hge].
        -- rewrite lookup_app_l in Hk by exact Hlt'.
           rewrite take_app_le by lia. apply Hall. exact Hk.
        -- rewrite lookup_app_r in Hk by lia.
           destruct (k - length recent)%nat eqn:Ek; [|destruct n; discriminate].
           inversion Hk; subst q.
           assert (k = length recent) by lia. subst k.
           rewrite take_app_le by lia. rewrite firstn_all.
           split; [reflexivity|exact Hd].
    + intros _. exists (ps ++ [p]), [].
      rewrite app_nil_r. split; [reflexivity|]. split; [reflexivity|].
      intros k q Hk. destruct k; discriminate.
Qed.

(** Conversely, short of the threshold a run of disagreeing ticks only
    counts, and the tick that completes DEBOUNCE_COUNT of them flips the
    debounced state. *)
Lemma disagreeing_ticks_count (ch : channel) (w : world)
    (ps : list pin_reads) :
  debounce_of ch w = 0 ->
  Z.of_nat (length ps) < DEBOUNCE_COUNT ->
  Forall (fun p => disagrees ch p (button_of ch w) = true) ps ->
  button_of ch (run_ticks ps w) = button_of ch w /\
  debounce_of ch (run_ticks ps w) = Z.of_nat (length ps).
Proof.
  intros H0. unfold DEBOUNCE_COUNT.
  induction ps as [|p ps IH] using rev_ind; intros Hlen Hall.
  - split; [reflexivity|exact H0].
  - rewrite length_app in *. cbn [length] in *.
    apply Forall_app in Hall. destruct Hall as [Hps Hp].
    inversion Hp as [|? ? Hd _]; subst.
    destruct IH as [Hb Hc]; [lia|exact Hps|].
    rewrite run_ticks_snoc, ISR_button, ISR_debounce, Hb, Hd, Hc.
    unfold u8, DEBOUNCE_COUNT. rewrite Z.mod_small by lia.
    cbn [andb].
    destruct (Z.of_nat (length ps) + 1 =? 8) eqn:E; [lia|].
    split; [reflexivity|lia].
Qed.

Lemma eight_disagreeing_ticks_flip (ch : channel) (w : world)
    (ps : list pin_reads) :
  debounce_of ch w = 0 ->
  Z.of_nat (length ps) = DEBOUNCE_COUNT ->
  Forall (fun p => disagrees ch p (button_of ch w) = true) ps ->
  button_of ch (run_ticks ps w) = negb (button_of ch w).
Proof.
  intros H0 Hlen Hall. unfold DEBOUNCE_COUNT in Hlen.
  destruct ps as [|p ps _] using rev_ind; [discriminate|].
  rewrite length_app in Hlen. cbn [length] in Hlen.
  apply Forall_app in Hall. destruct Hall as [Hps Hp].
  inversion Hp as [|? ? Hd _]; subst.
  destruct (disagreeing_ticks_count ch w ps H0) as [Hb Hc];
    [unfold DEBOUNCE_COUNT; lia|exact Hps|].
  rewrite run_ticks_snoc, ISR_button, Hb, Hd, Hc.
  unfold u8, DEBOUNCE_COUNT. rewrite Z.mod_small by lia.
  replace (Z.of_nat (length ps) + 1) with 8 by lia. reflexivity.
Qed.

(** C2 (evaluation at the failing input). From the state after
    initialisation, eight ticks with a button held down flip its debounced
    state and leave its counter at the threshold: it is not reset. A ninth
    tick with the button released then raises the counter above
    DEBOUNCE_COUNT, and after eight consistent released samples the
    debounced state still reads "pressed". The accept and the cancel
    channel behave alike. *)
Theorem debounce_counter_passes_threshold :
  let run := fold_left (fun b p => ISR_buttons p b) in
  let a8 := run (replicate 8 pins_accept) initial_buttons in
  let c8 := run (replicate 8 pins_cancel) initial_buttons in
  (accept_button a8 = true /\
   accept_debounce a8 = DEBOUNCE_COUNT /\
   accept_debounce (ISR_buttons pins_released a8) = DEBOUNCE_COUNT + 1 /\
   accept_button (run (replicate 8 pins_released) a8) = true)
  /\
  (cancel_button c8 = true /\
   cancel_debounce c8 = DEBOUNCE_COUNT /\
   cancel_debounce (ISR_buttons pins_released c8) = DEBOUNCE_COUNT + 1 /\
   cancel_button (run (replicate 8 pins_released) c8) = true).
Proof. vm_compute. repeat split. Qed.

(** C3. Fed any sequence of raw samples tick by tick, from a state whose
    debounce counter is 0, a channel's debounced state changes at a tick
    only if that tick is the last of DEBOUNCE_COUNT = 8 consecutive ticks
    during which the debounced state stayed the same and every raw sample
    disagreed with it. And a disagreeing sample that does not complete such
    a run (the counter is not at 7), followed by an agreeing sample, flips
    nothing and leaves the counter at 0. *)
Theorem debounced_state_flips_after_8_disagreeing_ticks
    (ch : channel) (w0 : world) (ps : list pin_reads) (p : pin_reads) :
  debounce_of ch w0 = 0 ->
  let w := run_ticks ps w0 in
  (button_of ch (ISR p w) <> button_of ch w ->
   exists before last8,
     ps ++ [p] = before ++ last8 /\
     Z.of_nat (length last8) = DEBOUNCE_COUNT /\
     forall (k : nat) (q : pin_reads),
       last8 !! k = Some q ->
       button_of ch (run_ticks (before ++ take k last8) w0) = button_of ch w /\
       disagrees ch q (button_of ch w) = true)
  /\
  (forall p1 p2 : pin_reads,
     debounce_of ch w <> DEBOUNCE_COUNT - 1 ->
     disagrees ch p1 (button_of ch w) = true ->
     disagrees ch p2 (button_of ch w) = false ->
     button_of ch (ISR p1 w) = button_of ch w /\
     button_of ch (ISR p2 (ISR p1 w)) = button_of ch w /\
     debounce_of ch (ISR p2 (ISR p1 w)) = 0).
Proof.
  intros H0 w.
  pose proof (debounce_range ch ps w0 ltac:(lia)) as Hr. fold w in Hr.
  split.
  - intros Hflip. rewrite ISR_button in Hflip.
    destruct (disagrees ch p (button_of ch w)) eqn:Hd; cbn [andb] in Hflip;
      [|congruence].
    destruct (u8 (debounce_of ch w + 1) =? DEBOUNCE_COUNT) eqn:E8;
      [|congruence].
    apply Z.eqb_eq in E8. unfold u8, DEBOUNCE_COUNT in E8.
    assert (E7 : debounce_of ch w = 7).
    { destruct (Z.eq_dec (debounce_of ch w) 255) as [E|NE].
      - rewrite E in E8. discriminate.
      - rewrite Z.mod_small in E8 by lia. lia. }
    destruct (debounce_history ch w0 ps H0) as (before & recent & Hps & Hlen & Hall).
    { fold w. rewrite E7. reflexivity. }
    fold w in Hlen, Hall.
    exists before, (recent ++ [p]). split; [rewrite Hps; symmetry; apply app_assoc|].
    split; [rewrite length_app; cbn; unfold DEBOUNCE_COUNT; lia|].
    intros k q Hk.
    destruct (decide (k < length recent)%nat) as [Hlt|Hge].
    + rewrite lookup_app_l in Hk by exact Hlt.
      rewrite take_app_le by lia. apply Hall. exact Hk.
    + rewrite lookup_app_r in Hk by lia.
      destruct (k - length recent)%nat eqn:Ek; [|destruct n; discriminate].
      inversion Hk; subst q.
      assert (k = length recent) by lia. subst k.
      rewrite take_app_le by lia. rewrite firstn_all, <- Hps.
      split; [reflexivity|exact Hd].
  - intros p1 p2 Hne Hd1 Hd2.
    assert (E8 : (u8 (debounce_of ch w + 1) =? DEBOUNCE_COUNT) = false).
    { apply Z.eqb_neq. unfold u8, DEBOUNCE_COUNT in *.
      destruct (Z.eq_dec (debounce_of ch w) 255) as [E|NE].
      - rewrite E. discriminate.
      - rewrite Z.mod_small by lia. lia. }
    assert (Hb1 : button_of ch (ISR p1 w) = button_of ch w).
    { rewrite ISR_button, Hd1, E8. reflexivity. }
    split; [exact Hb1|].
    split.
    + rewrite ISR_button, Hb1, Hd2. reflexivity.
    + rewrite (ISR_debounce ch p2), Hb1, Hd2. reflexivity.
Qed.

(** At power-on: eight ticks with the accept button held down flip its
    state on the eighth, and one such tick followed by a released tick
    changes nothing. *)
Lemma debounced_state_flips_after_8_disagreeing_ticks_witness :
  (exists before last8,
     replicate 7 pins_accept ++ [pins_accept] = before ++ last8 /\
     Z.of_nat (length last8) = DEBOUNCE_COUNT /\
     forall (k : nat) (q : pin_reads),
       last8 !! k = Some q ->
       button_of AcceptChannel (run_ticks (before ++ take k last8) power_on)
       = false /\
       disagrees AcceptChannel q false = true)
  /\
  (button_of AcceptChannel
     (ISR pins_accept (run_ticks (replicate 7 pins_released) power_on)) = false /\
   button_of AcceptChannel
     (ISR pins_released
        (ISR pins_accept (run_ticks (replicate 7 pins_released) power_on)))
   = false /\
   debounce_of AcceptChannel
     (ISR pins_released
        (ISR pins_accept (run_ticks (replicate 7 pins_released) power_on)))
   = 0).
Proof.
  split.
  - apply (debounced_state_flips_after_8_disagreeing_ticks AcceptChannel
             power_on (replicate 7 pins_accept) pins_accept eq_refl).
    vm_compute. discriminate.
  - apply (debounced_state_flips_after_8_disagreeing_ticks AcceptChannel
             power_on (replicate 7 pins_released) pins_released eq_refl).
    + vm_compute. discriminate.
    + reflexivity.
    + reflexivity.
Defined.

(** ** Autoscroll *)

Lemma disp_ISR (p : pin_reads) (w : world) :
  disp (ISR p w) = ISR_scroll (disp w).
Proof. reflexivity. Qed.

Lemma clearLcd_disp_ok (d : display) : display_ok (clearLcd_disp d).
Proof. unfold display_ok, NUM_COLUMNS. cbn. lia. Qed.

Lemma gotoStartOfLine_disp_ok (line : Z) (d : display) :
  display_ok d -> display_ok (gotoStartOfLine_disp line d).
Proof.
  unfold display_ok, gotoStartOfLine_disp.
  destruct (line =? 0); cbn; lia.
Qed.

Lemma writeString_loop_ok (str : list ascii) (d : display) :
  display_ok d -> display_ok (writeString_loop str d).
Proof.
  revert d. induction str as [|c str IH]; intros d Hd; [exact Hd|].
  cbn [writeString_loop].
  destruct (negb (is_NUL c) && (current_column d <? 40)) eqn:E; [|exact Hd].
  apply andb_prop in E. destruct E as [_ E]. apply Z.ltb_lt in E.
  apply IH. unfold display_ok, NUM_COLUMNS, u8 in *. cbn.
  rewrite Z.mod_small by lia.
  destruct (current_column d + 1 >? max_line_size d) eqn:G; cbn; lia.
Qed.

Lemma writeString_disp_ok (str : list ascii) (is_progmem : bool)
    (d : display) :
  display_ok d -> display_ok (writeString_disp str is_progmem d).
Proof.
  intros Hd. unfold writeString_disp.
  assert (H : display_ok (writeString_loop str (writeArduinoPin_RS 1 d))).
  { apply writeString_loop_ok. exact Hd. }
  exact H.
Qed.

Lemma ISR_scroll_ok (d : display) : display_ok d -> display_ok (ISR_scroll d).
Proof.
  unfold display_ok, ISR_scroll, NUM_COLUMNS, u8.
  intros (Hc & Hm & Hp & Hs). cbn.
  destruct (u16 (scroll_counter d - 1) =? 0); [|cbn; lia].
  destruct (max_line_size d >? 16) eqn:G; [|cbn; lia].
  apply Z.gtb_lt in G.
  destruct (scroll_to_left d).
  - destruct (scroll_pos d =? 0) eqn:E0; cbn; [lia|].
    apply Z.eqb_neq in E0. rewrite Z.mod_small by lia. lia.
  - destruct (scroll_pos d =? max_line_size d - 16) eqn:E1; cbn; [lia|].
    apply Z.eqb_neq in E1. rewrite Z.mod_small by lia. lia.
Qed.

Lemma run_ops_ok (ops : list lcd_op) (w : world) :
  display_ok (disp w) -> display_ok (disp (run_ops ops w)).
Proof.
  revert w. induction ops as [|o ops IH]; intros w Hw; [exact Hw|].
  cbn [run_ops fold_left]. apply IH.
  destruct o; cbn [run_op].
  - rewrite disp_ISR. apply ISR_scroll_ok. exact Hw.
  - apply clearLcd_disp_ok.
  - apply gotoStartOfLine_disp_ok. exact Hw.
  - apply writeString_disp_ok. exact Hw.
Qed.

(** C6. After any sequence of timer ticks, [clearLcd], [gotoStartOfLine]
    and [writeString] operations that starts from a cleared display:
    the scroll position lies in [0, max_line_size - NUM_COLUMNS] whenever
    the longest line exceeds the NUM_COLUMNS = 16 visible columns; a tick
    leaves it unchanged when the longest line fits; and the tick on which
    the countdown expires, with the position at the boundary the scroll is
    heading to, reverses the direction and does not move (away from that
    boundary it moves by one column in the current direction). *)
Theorem scroll_position_within_bounds (w0 : world) (ops : list lcd_op) :
  let w := run_ops ops (with_disp (clearLcd_disp (disp w0)) w0) in
  let d := disp w in
  (NUM_COLUMNS < max_line_size d ->
   0 <= scroll_pos d <= max_line_size d - NUM_COLUMNS) /\
  (forall p : pin_reads,
     max_line_size d <= NUM_COLUMNS ->
     scroll_pos (disp (ISR p w)) = scroll_pos d) /\
  (forall p : pin_reads,
     NUM_COLUMNS < max_line_size d -> scroll_counter d = 1 ->
     (scroll_to_left d = true -> scroll_pos d = 0 ->
      scroll_pos (disp (ISR p w)) = scroll_pos d /\
      scroll_to_left (disp (ISR p w)) = false) /\
     (scroll_to_left d = false ->
      scroll_pos d = max_line_size d - NUM_COLUMNS ->
      scroll_pos (disp (ISR p w)) = scroll_pos d /\
      scroll_to_left (disp (ISR p w)) = true) /\
     (scroll_to_left d = true -> scroll_pos d <> 0 ->
      scroll_pos (disp (ISR p w)) = scroll_pos d - 1 /\
      scroll_to_left (disp (ISR p w)) = true) /\
     (scroll_to_left d = false ->
      scroll_pos d <> max_line_size d - NUM_COLUMNS ->
      scroll_pos (disp (ISR p w)) = scroll_pos d + 1 /\
      scroll_to_left (disp (ISR p w)) = false)).
Proof.
  intros w d.
  assert (Hok : display_ok d).
  { apply run_ops_ok. apply clearLcd_disp_ok. }
  destruct Hok as (Hc & Hm & Hp & Hs). unfold NUM_COLUMNS in *.
  split; [lia|]. split.
  - intros p Hfit. rewrite disp_ISR. fold d. unfold ISR_scroll. cbn.
    destruct (u16 (scroll_counter d - 1) =? 0); [|reflexivity].
    unfold NUM_COLUMNS.
    destruct (max_line_size d >? 16) eqn:G; [|reflexivity].
    apply Z.gtb_lt in G. lia.
  - intros p Hlong Hfire. rewrite disp_ISR. fold d. unfold ISR_scroll. cbn.
    rewrite Hfire. change (u16 (1 - 1) =? 0) with true. cbv iota.
    unfold NUM_COLUMNS.
    assert (G : (max_line_size d >? 16) = true) by (apply Z.gtb_lt; lia).
    rewrite G. unfold u8.
    split; [|split; [|split]]; intros Hdir Hpos; rewrite Hdir.
    + rewrite Hpos. cbn. split; [lia|reflexivity].
    + rewrite Hpos, Z.eqb_refl. cbn. split; [lia|reflexivity].
    + apply Z.eqb_neq in Hpos. rewrite Hpos. cbn.
      apply Z.eqb_neq in Hpos. rewrite Z.mod_small by lia.
      split; [reflexivity|exact Hdir].
    + apply Z.eqb_neq in Hpos. rewrite Hpos. cbn.
      apply Z.eqb_neq in Hpos. rewrite Z.mod_small by lia.
      split; [reflexivity|exact Hdir].
Qed.

(** On a 22-character line scrolled to its right end, and on a line that
    fits. *)
Lemma scroll_position_within_bounds_witness :
  let start := with_disp (clearLcd_disp (disp power_on)) power_on in
  let w := run_ops scroll_demo_ops start in
  let v := run_ops fitting_demo_ops start in
  (0 <= scroll_pos (disp w) <= max_line_size (disp w) - NUM_COLUMNS) /\
  (scroll_pos (disp (ISR pins_released v)) = scroll_pos (disp v)) /\
  (scroll_pos (disp (ISR pins_released w)) = scroll_pos (disp w) /\
   scroll_to_left (disp (ISR pins_released w)) = true).
Proof.
  intros start w v.
  destruct (scroll_position_within_bounds power_on scroll_demo_ops)
    as (Hbound & _ & Hfire).
  destruct (scroll_position_within_bounds power_on fitting_demo_ops)
    as (_ & Hfit & _).
  split; [|split].
  - apply Hbound. vm_compute. reflexivity.
  - apply Hfit. vm_compute. discriminate.
  - destruct (Hfire pins_released) as (_ & Hright & _).
    + vm_compute. reflexivity.
    + vm_compute. reflexivity.
    + apply Hright; vm_compute; reflexivity.
Defined.

(** ** Waiting for a press *)

Lemma waitForButtonPress_loop_snapshot (tl : timeline) (w : world) :
  waitForButtonPress_loop tl w =
  match snapshot (mkMachine w tl) with
  | Some (a, c, m1) =>
      if negb a && negb c then waitForButtonPress_loop (irq m1) (hw m1)
      else Some (a, c, m1)
  | None => None
  end.
Proof. destruct tl as [|b1 [|b2 tl2]]; reflexivity. Qed.

Lemma snapshot_shorter (m m1 : machine) (a c : bool) :
  snapshot m = Some (a, c, m1) -> (length (irq m1) < length (irq m))%nat.
Proof.
  unfold snapshot. destruct (irq m) as [|b1 [|b2 tl2]]; try discriminate.
  intros H. inversion H. cbn. lia.
Qed.

Lemma waitForButtonPress_loop_polled (m m' : machine) (a c : bool) :
  waitForButtonPress_loop (irq m) (hw m) = Some (a, c, m') <-> polled m a c m'.
Proof.
  split.
  - remember (length (irq m)) as n eqn:Hn. revert m Hn.
    induction n as [n IH] using lt_wf_ind. intros m Hn.
    rewrite waitForButtonPress_loop_snapshot.
    replace (mkMachine (hw m) (irq m)) with m by (destruct m; reflexivity).
    destruct (snapshot m) as [[[a1 c1] m1]|] eqn:Hs; [|discriminate].
    destruct (negb a1 && negb c1) eqn:Hb.
    + intros H. apply andb_prop in Hb. destruct Hb as [Ha Hc].
      apply negb_true_iff in Ha, Hc. subst a1 c1.
      apply polled_again with m1; [exact Hs|].
      apply (IH (length (irq m1))); [|reflexivity|exact H].
      subst n. eapply snapshot_shorter. exact Hs.
    + intros H. inversion H; subst. apply polled_seen; [exact Hs|].
      destruct a, c; try reflexivity; discriminate.
  - induction 1 as [m a c m' Hs Hac|m m1 a c m' Hs _ IH];
      rewrite waitForButtonPress_loop_snapshot;
      replace (mkMachine (hw m) (irq m)) with m by (destruct m; reflexivity);
      rewrite Hs.
    + destruct a, c; try reflexivity; discriminate.
    + exact IH.
Qed.

(** C7 (counterexample). With both buttons held down, the loop of
    [waitForButtonPress] exits on a snapshot in which both flags are true,
    not exactly one, and the function returns false (approve) although the
    copied cancel flag is true. *)
Lemma waitForButtonPress_both_flags_set :
  exists m' : machine,
    waitForButtonPress_loop (irq both_pressed) (hw both_pressed)
      = Some (true, true, m') /\
    waitForButtonPress both_pressed = Some (false, m').
Proof. eexists. split; vm_compute; reflexivity. Qed.

(** C7 (amended). [waitForButtonPress] polls, copying both flags in each
    iteration, until a snapshot shows at least one of them true; it returns
    exactly when such a snapshot is seen, and its result is false (approve)
    when the copied accept flag is true, whatever the cancel flag, and true
    (deny) when only the copied cancel flag is true. *)
Theorem waitForButtonPress_returns_on_first_press
    (m m' : machine) (r : bool) :
  waitForButtonPress m = Some (r, m') <->
  exists a c : bool, polled m a c m' /\ a || c = true /\ r = negb a.
Proof.
  unfold waitForButtonPress. split.
  - destruct (waitForButtonPress_loop (irq m) (hw m)) as [[[a c] m1]|] eqn:Hl;
      [|discriminate].
    apply waitForButtonPress_loop_polled in Hl.
    assert (Hac : a || c = true).
    { clear -Hl. induction Hl; assumption. }
    intros H. exists a, c.
    destruct a; inversion H; subst; repeat split; assumption.
  - intros (a & c & Hp & _ & ->).
    apply waitForButtonPress_loop_polled in Hp. rewrite Hp.
    destruct a; reflexivity.
Qed.

(** ** The confirmation workflow *)

Lemma clearLcd_cleared (m : machine) : clearLcd m = Some (tt, cleared m).
Proof. reflexivity. Qed.

Lemma bind_assoc {A B C : Type} (c : M A) (f : A -> M B) (g : B -> M C)
    (m : machine) :
  bind (bind c f) g m = bind c (fun a => bind (f a) g) m.
Proof.
  unfold bind. destruct (c m) as [[a m1]|]; reflexivity.
Qed.

Lemma bind_Some {A B : Type} (c : M A) (k : A -> M B) (m m1 : machine)
    (a : A) :
  c m = Some (a, m1) -> bind c k m = k a m1.
Proof. intros H. unfold bind. rewrite H. reflexivity. Qed.

(** One iteration of the sign-transaction loop is the screen of output
    [i]; a denial leaves the loop. *)
Lemma userDenied_for_step (n : nat) (i : Z) (r : bool) (m : machine) :
  userDenied_for (S n) i r m =
  match output_screen i m with
  | Some (true, m') => Some (true, m')
  | Some (false, m') => userDenied_for n (u8 (i + 1)) false m'
  | None => None
  end.
Proof.
  cbn [userDenied_for]. unfold output_screen, bind.
  cbn [clearLcd gotoStartOfLine writeString on_disp get_world].
  destruct (waitForNoButtonPress _) as [[[] m1]|]; [|reflexivity].
  destruct (waitForButtonPress _) as [[[|] m2]|]; reflexivity.
Qed.

Lemma approved_upto_for (k : nat) (m0 m1 : machine) :
  approved_upto k m0 m1 ->
  forall (n : nat) (r : bool),
    (k + n < 256)%nat ->
    userDenied_for (k + n) 0 r m0 =
    userDenied_for n (Z.of_nat k) (if Nat.eqb k 0 then r else false) m1.
Proof.
  induction 1 as [m|k m m1 m2 _ IH Hscreen]; intros n r Hn.
  - reflexivity.
  - replace (S k + n)%nat with (k + S n)%nat by lia.
    rewrite IH by lia. rewrite userDenied_for_step, Hscreen.
    unfold u8. rewrite Z.mod_small by lia.
    replace (Z.of_nat k + 1) with (Z.of_nat (S k)) by lia.
    reflexivity.
Qed.

(** The staging store is not touched by interrupts or by waiting. *)
Lemma stage_run_ticks (ps : list pin_reads) (w : world) :
  stage (run_ticks ps w) = stage w.
Proof.
  revert w. induction ps as [|p ps IH]; intros w; [reflexivity|].
  cbn [run_ticks fold_left]. fold (run_ticks ps (ISR p w)). rewrite IH.
  reflexivity.
Qed.

Lemma stage_waitForNoButtonPress (m m' : machine) (u : unit) :
  waitForNoButtonPress m = Some (u, m') -> stage (hw m') = stage (hw m).
Proof.
  unfold waitForNoButtonPress. destruct m as [w tl]. cbn [hw irq].
  remember (length tl) as n eqn:Hn. revert w tl Hn.
  induction n as [n IH] using lt_wf_ind. intros w tl Hn.
  destruct tl as [|b1 tl1]; [discriminate|]. cbn [waitForNoButtonPress_loop].
  destruct (accept_button (btn (run_ticks b1 w))).
  - intros H. erewrite (IH (length tl1)); [|subst n; cbn; lia|reflexivity|exact H].
    apply stage_run_ticks.
  - destruct tl1 as [|b2 tl2]; [discriminate|].
    destruct (cancel_button (btn (run_ticks b2 (run_ticks b1 w)))).
    + intros H.
      erewrite (IH (length tl2)); [|subst n; cbn; lia|reflexivity|exact H].
      rewrite !stage_run_ticks. reflexivity.
    + intros H. inversion H. cbn. rewrite !stage_run_ticks. reflexivity.
Qed.

Lemma stage_polled (m m' : machine) (a c : bool) :
  polled m a c m' -> stage (hw m') = stage (hw m).
Proof.
  assert (Hsnap : forall m m1 a c, snapshot m = Some (a, c, m1) ->
                                   stage (hw m1) = stage (hw m)).
  { clear. intros m m1 a c. unfold snapshot.
    destruct (irq m) as [|b1 [|b2 tl2]]; try discriminate.
    intros H. inversion H. cbn. rewrite !stage_run_ticks. reflexivity. }
  induction 1 as [m a c m' Hs _|m m1 a c m' Hs _ IH].
  - eapply Hsnap. exact Hs.
  - rewrite IH. eapply Hsnap. exact Hs.
Qed.

Lemma stage_waitForButtonPress (m m' : machine) (r : bool) :
  waitForButtonPress m = Some (r, m') -> stage (hw m') = stage (hw m).
Proof.
  unfold waitForButtonPress.
  destruct (waitForButtonPress_loop (irq m) (hw m)) as [[[a c] m1]|] eqn:Hl;
    [|discriminate].
  apply waitForButtonPress_loop_polled in Hl. apply stage_polled in Hl.
  destruct a; intros H; inversion H; subst; exact Hl.
Qed.

Lemma stage_output_screen (i : Z) (m m' : machine) (r : bool) :
  output_screen i m = Some (r, m') -> stage (hw m') = stage (hw m).
Proof.
  unfold output_screen, bind.
  cbn [clearLcd gotoStartOfLine writeString on_disp get_world].
  destruct (waitForNoButtonPress _) as [[[] m1]|] eqn:H1; [|discriminate].
  apply stage_waitForNoButtonPress in H1. cbn in H1.
  intros H2. apply stage_waitForButtonPress in H2. cbn in H2. congruence.
Qed.

Lemma stage_approved_upto (k : nat) (m m' : machine) :
  approved_upto k m m' -> stage (hw m') = stage (hw m).
Proof.
  induction 1 as [m|k m m1 m2 _ IH Hscreen]; [reflexivity|].
  apply stage_output_screen in Hscreen. congruence.
Qed.

(** The sign-transaction branch, from the loop on. *)
Lemma userDenied_sign_unfold (m : machine) :
  userDenied ASKUSER_SIGN_TRANSACTION m =
  match userDenied_for (Z.to_nat (list_index (stage (hw m)))) 0 true
          (cleared m) with
  | Some (r, m1) =>
      if negb r && transaction_fee_set (stage (hw m1)) then
        match fee_screen m1 with
        | Some (r', m2) => Some (r', cleared m2)
        | None => None
        end
      else Some (r, cleared m1)
  | None => None
  end.
Proof.
  unfold userDenied. rewrite (bind_Some _ _ _ _ _ (clearLcd_cleared m)).
  rewrite bind_assoc. unfold get_world at 1.
  unfold bind at 1. cbn [hw cleared stage with_disp].
  rewrite bind_assoc. unfold bind at 1.
  destruct (userDenied_for _ 0 true (cleared m)) as [[r m1]|]; [|reflexivity].
  rewrite bind_assoc. unfold get_world at 1. unfold bind at 1.
  destruct (negb r && transaction_fee_set (stage (hw m1))).
  - unfold fee_screen, bind.
    cbn [clearLcd gotoStartOfLine writeString on_disp get_world].
    destruct (waitForNoButtonPress _) as [[[] m2]|]; [|reflexivity].
    cbn [hw irq stage disp btn with_disp].
    destruct (waitForButtonPress _) as [[r' m3]|]; reflexivity.
  - reflexivity.
Qed.

(** C4. In the sign-transaction flow with outputs staged, the outputs are
    shown in staging order. If outputs [0 .. k-1] are approved and output
    [k] is denied, [userDenied] returns true (denied) straight after that
    press: the machine it leaves is the one of the denial press with the
    display cleared, so no later output and no fee screen is shown, whether
    or not a fee is set. If every staged output is approved and a fee is
    set, the fee screen is shown once and its press is the result; with no
    fee set the result is false (approved). *)
Theorem sign_transaction_review (m : machine) :
  let n := Z.to_nat (list_index (stage (hw m))) in
  0 <= list_index (stage (hw m)) <= MAX_OUTPUTS ->
  (forall (k : nat) (m1 m2 : machine),
     (k < n)%nat ->
     approved_upto k (cleared m) m1 ->
     output_screen (Z.of_nat k) m1 = Some (true, m2) ->
     userDenied ASKUSER_SIGN_TRANSACTION m = Some (true, cleared m2))
  /\
  (forall m1 : machine,
     (0 < n)%nat ->
     approved_upto n (cleared m) m1 ->
     if transaction_fee_set (stage (hw m)) then
       forall (r : bool) (m2 : machine),
         fee_screen m1 = Some (r, m2) ->
         userDenied ASKUSER_SIGN_TRANSACTION m = Some (r, cleared m2)
     else userDenied ASKUSER_SIGN_TRANSACTION m = Some (false, cleared m1)).
Proof.
  intros n Hrange. unfold MAX_OUTPUTS in Hrange. split.
  - intros k m1 m2 Hk Happ Hdeny.
    rewrite userDenied_sign_unfold. fold n.
    replace n with (k + S (n - S k))%nat by lia.
    rewrite (approved_upto_for k _ _ Happ) by lia.
    rewrite userDenied_for_step, Hdeny. reflexivity.
  - intros m1 Hn Happ.
    pose proof (stage_approved_upto _ _ _ Happ) as Hstage.
    cbn [cleared hw stage with_disp] in Hstage.
    assert (Hloop : userDenied_for n 0 true (cleared m) = Some (false, m1)).
    { replace n with (n + 0)%nat at 1 by lia.
      rewrite (approved_upto_for n _ _ Happ) by lia.
      destruct n; [lia|reflexivity]. }
    destruct (transaction_fee_set (stage (hw m))) eqn:Hfee.
    + intros r m2 Hscreen. rewrite userDenied_sign_unfold. fold n.
      rewrite Hloop, Hstage, Hfee. cbn [negb andb]. rewrite Hscreen.
      reflexivity.
    + rewrite userDenied_sign_unfold. fold n.
      rewrite Hloop, Hstage, Hfee. reflexivity.
Qed.

(** C1 (amended). With the sign-transaction command and no output staged,
    the loop is skipped and [userDenied] returns true (denied) at once: it
    polls no button and sends nothing but its two clear commands, so the fee
    screen is not shown, whether or not a fee is set. *)
Theorem sign_transaction_no_outputs (m : machine) :
  list_index (stage (hw m)) = 0 ->
  userDenied ASKUSER_SIGN_TRANSACTION m = Some (true, cleared (cleared m)) /\
  irq (cleared (cleared m)) = irq m /\
  lcd_bus (disp (hw (cleared (cleared m)))) =
  lcd_bus (disp (hw m)) ++ [LcdWrite false 1; LcdWrite false 1].
Proof.
  intros H0. split; [|split].
  - rewrite userDenied_sign_unfold, H0. reflexivity.
  - reflexivity.
  - cbn. rewrite <- app_assoc. reflexivity.
Qed.

(** Two outputs and a fee: the first output approved and the second
    denied, then both outputs approved and the fee denied. *)
Lemma sign_transaction_review_witness :
  (exists m2 : machine,
     userDenied ASKUSER_SIGN_TRANSACTION second_output_denied
     = Some (true, cleared m2) /\
     irq m2 = [] /\
     shown (lcd_bus (disp (hw m2)))
     = list_ascii_of_string "Sending 0.01 BTC to1AbcSending 2.5 BTC to1Xyz")
  /\
  (exists m2 : machine,
     userDenied ASKUSER_SIGN_TRANSACTION fee_denied = Some (true, cleared m2) /\
     shown (lcd_bus (disp (hw m2)))
     = list_ascii_of_string
         "Sending 0.01 BTC to1AbcSending 2.5 BTC to1XyzTransaction fee:0.0005 BTC").
Proof.
  split.
  - destruct (sign_transaction_review second_output_denied) as [Hdeny _].
    { vm_compute. split; discriminate. }
    set (m1 := after (output_screen 0) (cleared second_output_denied)).
    exists (after (output_screen 1) m1). split; [|split].
    + apply (Hdeny 1%nat m1).
      * vm_compute. lia.
      * apply (approved_next 0 _ (cleared second_output_denied)).
        -- apply approved_none.
        -- vm_compute. reflexivity.
      * vm_compute. reflexivity.
    + vm_compute. reflexivity.
    + vm_compute. reflexivity.
  - destruct (sign_transaction_review fee_denied) as [_ Hfee].
    { vm_compute. split; discriminate. }
    set (m1 := after (output_screen 0) (cleared fee_denied)).
    set (m2 := after (output_screen 1) m1).
    exists (after fee_screen m2). split.
    + specialize (Hfee m2).
      change (transaction_fee_set (stage (hw fee_denied))) with true in Hfee.
      apply Hfee.
      * vm_compute. lia.
      * apply (approved_next 1 _ m1).
        -- apply (approved_next 0 _ (cleared fee_denied)).
           ++ apply approved_none.
           ++ vm_compute. reflexivity.
        -- vm_compute. reflexivity.
      * vm_compute. reflexivity.
    + vm_compute. reflexivity.
Defined.

(** C1 (counterexample). No output is staged, a fee is set and the user
    would push the accept button at the first prompt: [userDenied] returns
    true (denied), shows no character at all, hence no fee screen, and
    consumes none of the button activity. *)
Lemma sign_transaction_fee_screen_not_shown :
  list_index (stage (hw fee_without_outputs)) = 0 /\
  transaction_fee_set (stage (hw fee_without_outputs)) = true /\
  exists m' : machine,
    userDenied ASKUSER_SIGN_TRANSACTION fee_without_outputs = Some (true, m') /\
    shown (lcd_bus (disp (hw m'))) = [] /\
    irq m' = irq fee_without_outputs.
Proof.
  split; [reflexivity|]. split; [reflexivity|].
  eexists. split; [vm_compute; reflexivity|]. split; reflexivity.
Qed.

(** The same run, through the theorem. *)
Lemma sign_transaction_no_outputs_witness :
  userDenied ASKUSER_SIGN_TRANSACTION fee_without_outputs
  = Some (true, cleared (cleared fee_without_outputs)) /\
  irq (cleared (cleared fee_without_outputs)) = irq fee_without_outputs /\
  lcd_bus (disp (hw (cleared (cleared fee_without_outputs)))) =
  lcd_bus (disp (hw fee_without_outputs))
  ++ [LcdWrite false 1; LcdWrite false 1].
Proof. apply sign_transaction_no_outputs. reflexivity. Defined.

(** ** The staging store *)

Lemma length_strncpy_chars (src : list ascii) (n : nat) :
  length (strncpy_chars src n) = n.
Proof.
  revert src. induction n as [|n IH]; intros src; [reflexivity|].
  cbn [strncpy_chars]. destruct src as [|c src].
  - apply length_replicate.
  - destruct (is_NUL c); [apply length_replicate|]. cbn. rewrite IH.
    reflexivity.
Qed.

(** Copying at most [S n] characters and forcing the terminator at index
    [n] stores the first [n] characters of the source text. *)
Lemma c_str_strncpy (n : nat) (src rest : list ascii) :
  c_str (<[n := NUL]> (strncpy_chars src (S n) ++ rest)) = take n (c_str src).
Proof.
  revert src. induction n as [|n IH]; intros src.
  - cbn [strncpy_chars]. destruct src as [|c src]; [reflexivity|].
    destruct (is_NUL c); reflexivity.
  - destruct src as [|c src]; [reflexivity|].
    cbn [strncpy_chars c_str]. destruct (is_NUL c) eqn:E; [reflexivity|].
    change (c_str (c :: <[n := NUL]> (strncpy_chars src (S n) ++ rest))
            = c :: take n (c_str src)).
    cbn [c_str]. rewrite E, IH. reflexivity.
Qed.

Lemma terminated_strncpy (n : nat) (src rest : list ascii) :
  <[n := NUL]> (strncpy_chars src (S n) ++ rest) !! n = Some NUL.
Proof.
  apply list_lookup_insert_eq. rewrite length_app, length_strncpy_chars. lia.
Qed.

Lemma length_strncpy_row (n : nat) (dest src : list ascii) :
  length dest = S n ->
  length (<[n := NUL]> (strncpy dest src (S n))) = S n.
Proof.
  intros H. unfold strncpy.
  rewrite length_insert, length_app, length_strncpy_chars, length_drop. lia.
Qed.

Lemma row_insert_eq (table : list (list ascii)) (i : Z) (r : list ascii) :
  0 <= i -> (Z.to_nat i < length table)%nat ->
  row (<[Z.to_nat i := r]> table) i = r.
Proof.
  intros _ H. unfold row. rewrite list_lookup_insert_eq by exact H.
  reflexivity.
Qed.

Lemma row_insert_ne (table : list (list ascii)) (i j : Z) (r : list ascii) :
  0 <= i -> 0 <= j -> i <> j ->
  row (<[Z.to_nat i := r]> table) j = row table j.
Proof.
  intros Hi Hj Hne. unfold row. rewrite list_lookup_insert_ne by lia.
  reflexivity.
Qed.

Lemma row_length (L : nat) (table : list (list ascii)) (i : Z) :
  Forall (fun r => length r = L) table ->
  (Z.to_nat i < length table)%nat -> length (row table i) = L.
Proof.
  intros Hall Hi. unfold row.
  destruct (table !! Z.to_nat i) as [r|] eqn:E.
  - cbn. eapply (proj1 (Forall_lookup _ _) Hall). exact E.
  - apply lookup_ge_None in E. lia.
Qed.

(** A call at capacity. *)
Lemma newOutputSeen_full (LA LD : nat) (a d : list ascii) (s : staging) :
  MAX_OUTPUTS <= list_index s -> newOutputSeen LA LD a d s = (true, s).
Proof.
  intros H. unfold newOutputSeen.
  destruct (list_index s >=? MAX_OUTPUTS) eqn:E; [reflexivity|].
  rewrite Z.geb_leb in E. apply Z.leb_gt in E. lia.
Qed.

(** A call below capacity. *)
Lemma newOutputSeen_room (LA LD : nat) (a d : list ascii) (s : staging) :
  staging_ok (S LA) (S LD) s -> list_index s < MAX_OUTPUTS ->
  let s' := snd (newOutputSeen (S LA) (S LD) a d s) in
  fst (newOutputSeen (S LA) (S LD) a d s) = false /\
  staging_ok (S LA) (S LD) s' /\
  list_index s' = list_index s + 1 /\
  c_str (row (list_amount s') (list_index s)) = take LA (c_str a) /\
  c_str (row (list_address s') (list_index s)) = take LD (c_str d) /\
  row (list_amount s') (list_index s) !! LA = Some NUL /\
  row (list_address s') (list_index s) !! LD = Some NUL /\
  (forall j : Z, 0 <= j -> j <> list_index s ->
     row (list_amount s') j = row (list_amount s) j /\
     row (list_address s') j = row (list_address s) j) /\
  transaction_fee_set s' = transaction_fee_set s /\
  transaction_fee_amount s' = transaction_fee_amount s.
Proof.
  intros (Hla & Hld & Hra & Hrd & Hi) Hroom. unfold MAX_OUTPUTS in *.
  unfold newOutputSeen.
  destruct (list_index s >=? MAX_OUTPUTS) eqn:E.
  { rewrite Z.geb_leb in E. apply Z.leb_le in E. unfold MAX_OUTPUTS in E. lia. }
  cbn [fst snd list_amount list_address list_index transaction_fee_set
       transaction_fee_amount].
  replace (S LA - 1)%nat with LA by lia. replace (S LD - 1)%nat with LD by lia.
  fold (row (list_amount s) (list_index s)).
  fold (row (list_address s) (list_index s)).
  assert (Hia : (Z.to_nat (list_index s) < length (list_amount s))%nat) by lia.
  assert (Hid : (Z.to_nat (list_index s) < length (list_address s))%nat) by lia.
  split; [reflexivity|]. split.
  { unfold staging_ok. cbn [list_amount list_address list_index].
    rewrite !length_insert. unfold MAX_OUTPUTS, u8.
    rewrite Z.mod_small by lia.
    repeat split; try assumption; try lia.
    - apply Forall_insert; [exact Hra|].
      apply length_strncpy_row. apply row_length; assumption.
    - apply Forall_insert; [exact Hrd|].
      apply length_strncpy_row. apply row_length; assumption. }
  split; [unfold u8; apply Z.mod_small; lia|].
  rewrite !row_insert_eq by lia. unfold strncpy.
  split; [apply c_str_strncpy|]. split; [apply c_str_strncpy|].
  split; [apply terminated_strncpy|]. split; [apply terminated_strncpy|].
  split; [|split; reflexivity].
  intros j Hj Hne. rewrite !row_insert_ne by lia. split; reflexivity.
Qed.

Lemma clearOutputsSeen_ok (LA LD : nat) (s : staging) :
  staging_ok LA LD s -> staging_ok LA LD (clearOutputsSeen s).
Proof.
  intros (Hla & Hld & Hra & Hrd & Hi). unfold staging_ok, MAX_OUTPUTS in *.
  cbn. repeat split; try assumption; lia.
Qed.

(** C5. For positive row sizes and a well-formed store: a call of
    [newOutputSeen] at capacity (MAX_OUTPUTS = 2 records) returns true and
    leaves the whole store as it was; a call below capacity returns false,
    advances the count by one and stores in the next row the two texts, cut
    to one character less than the row size and followed by a terminator in
    the last cell, leaving the other rows and the fee alone; hence of
    MAX_OUTPUTS + 1 calls on a cleared store the first two succeed, the
    third fails, and the store holds the first two inputs. *)
Theorem newOutputSeen_respects_capacity
    (TEXT_AMOUNT_LENGTH TEXT_ADDRESS_LENGTH : nat) (s : staging) :
  (0 < TEXT_AMOUNT_LENGTH)%nat -> (0 < TEXT_ADDRESS_LENGTH)%nat ->
  staging_ok TEXT_AMOUNT_LENGTH TEXT_ADDRESS_LENGTH s ->
  let newOutput := newOutputSeen TEXT_AMOUNT_LENGTH TEXT_ADDRESS_LENGTH in
  let cut_amount (a : list ascii) :=
    take (TEXT_AMOUNT_LENGTH - 1) (c_str a) in
  let cut_address (d : list ascii) :=
    take (TEXT_ADDRESS_LENGTH - 1) (c_str d) in
  (forall a d : list ascii,
     MAX_OUTPUTS <= list_index s -> newOutput a d s = (true, s))
  /\
  (forall a d : list ascii,
     list_index s < MAX_OUTPUTS ->
     let s' := snd (newOutput a d s) in
     fst (newOutput a d s) = false /\
     list_index s' = list_index s + 1 /\
     c_str (row (list_amount s') (list_index s)) = cut_amount a /\
     c_str (row (list_address s') (list_index s)) = cut_address d /\
     row (list_amount s') (list_index s) !! (TEXT_AMOUNT_LENGTH - 1)%nat
     = Some NUL /\
     row (list_address s') (list_index s) !! (TEXT_ADDRESS_LENGTH - 1)%nat
     = Some NUL /\
     (forall j : Z, 0 <= j -> j <> list_index s ->
        row (list_amount s') j = row (list_amount s) j /\
        row (list_address s') j = row (list_address s) j) /\
     transaction_fee_set s' = transaction_fee_set s /\
     transaction_fee_amount s' = transaction_fee_amount s)
  /\
  (forall a1 d1 a2 d2 a3 d3 : list ascii,
     let s1 := snd (newOutput a1 d1 (clearOutputsSeen s)) in
     let s2 := snd (newOutput a2 d2 s1) in
     fst (newOutput a1 d1 (clearOutputsSeen s)) = false /\
     fst (newOutput a2 d2 s1) = false /\
     newOutput a3 d3 s2 = (true, s2) /\
     list_index s2 = MAX_OUTPUTS /\
     c_str (row (list_amount s2) 0) = cut_amount a1 /\
     c_str (row (list_address s2) 0) = cut_address d1 /\
     c_str (row (list_amount s2) 1) = cut_amount a2 /\
     c_str (row (list_address s2) 1) = cut_address d2).
Proof.
  intros HA HD Hok newOutput cut_amount cut_address.
  subst newOutput cut_amount cut_address.
  destruct TEXT_AMOUNT_LENGTH as [|LA]; [lia|].
  destruct TEXT_ADDRESS_LENGTH as [|LD]; [lia|].
  replace (S LA - 1)%nat with LA by lia. replace (S LD - 1)%nat with LD by lia.
  split; [|split].
  - intros a d Hfull. apply newOutputSeen_full. exact Hfull.
  - intros a d Hroom.
    destruct (newOutputSeen_room LA LD a d s Hok Hroom)
      as (H1 & _ & H3 & H4 & H5 & H6 & H7 & H8 & H9 & H10).
    repeat (split; [assumption|]). exact H10.
  - intros a1 d1 a2 d2 a3 d3. cbv zeta.
    set (s0 := clearOutputsSeen s).
    assert (I0 : list_index s0 = 0) by reflexivity.
    assert (Hok0 : staging_ok (S LA) (S LD) s0)
      by (apply clearOutputsSeen_ok; exact Hok).
    assert (Hroom0 : list_index s0 < MAX_OUTPUTS)
      by (rewrite I0; unfold MAX_OUTPUTS; lia).
    destruct (newOutputSeen_room LA LD a1 d1 s0 Hok0 Hroom0)
      as (F1 & Hok1 & I1 & A1 & D1 & _).
    set (s1 := snd (newOutputSeen (S LA) (S LD) a1 d1 s0)) in *.
    rewrite I0 in I1, A1, D1. change (0 + 1) with 1 in I1.
    assert (Hroom1 : list_index s1 < MAX_OUTPUTS)
      by (rewrite I1; unfold MAX_OUTPUTS; lia).
    destruct (newOutputSeen_room LA LD a2 d2 s1 Hok1 Hroom1)
      as (F2 & Hok2 & I2 & A2 & D2 & _ & _ & Hother & _).
    set (s2 := snd (newOutputSeen (S LA) (S LD) a2 d2 s1)) in *.
    rewrite I1 in I2, A2, D2. change (1 + 1) with 2 in I2.
    destruct (Hother 0) as [Ha0 Hd0]; [lia|rewrite I1; lia|].
    split; [exact F1|]. split; [exact F2|].
    split; [apply newOutputSeen_full; rewrite I2; unfold MAX_OUTPUTS; lia|].
    split; [exact I2|].
    split; [rewrite Ha0; exact A1|]. split; [rewrite Hd0; exact D1|].
    split; [exact A2|exact D2].
Qed.

(** Three calls on a store with rows of 5 and 6 characters. *)
Lemma newOutputSeen_respects_capacity_witness :
  let newOutput := newOutputSeen 5 6 in
  let s1 := snd (newOutput (literal "123456789") (literal "abc")
                   (clearOutputsSeen small_staging)) in
  let s2 := snd (newOutput (literal "0.5") (literal "1Addressee") s1) in
  newOutput (literal "7") (literal "1Late") s2 = (true, s2) /\
  list_index s2 = MAX_OUTPUTS /\
  c_str (row (list_amount s2) 0) = list_ascii_of_string "1234" /\
  c_str (row (list_address s2) 0) = list_ascii_of_string "abc" /\
  c_str (row (list_amount s2) 1) = list_ascii_of_string "0.5" /\
  c_str (row (list_address s2) 1) = list_ascii_of_string "1Addr".
Proof.
  assert (Hok : staging_ok 5 6 small_staging).
  { unfold staging_ok, MAX_OUTPUTS. cbn.
    repeat split; try lia; repeat constructor. }
  destruct (newOutputSeen_respects_capacity 5 6 small_staging
              ltac:(lia) ltac:(lia) Hok)
    as (_ & _ & H3).
  destruct (H3 (literal "123456789") (literal "abc") (literal "0.5")
              (literal "1Addressee") (literal "7") (literal "1Late"))
    as (_ & _ & H).
  exact H.
Defined.

(** ** The seed presenter *)

(** C9. Called with any destination other than 0, [writeBackupSeed]
    returns true (failure) at once and leaves the machine as it was: display
    state, bus traffic and pending button activity are untouched. *)
Theorem writeBackupSeed_unsupported_destination
    (SEED_LENGTH : nat) (seed : list Z) (is_encrypted : bool)
    (destination_device : Z) (m : machine) :
  destination_device <> 0 ->
  writeBackupSeed SEED_LENGTH seed is_encrypted destination_device m
  = Some (true, m).
Proof.
  intros H. unfold writeBackupSeed.
  destruct (destination_device =? 0) eqn:E; [|reflexivity].
  apply Z.eqb_eq in E. contradiction.
Qed.

(** Destination 1. *)
Lemma writeBackupSeed_unsupported_destination_witness :
  writeBackupSeed 16 (replicate 16 255) true 1 fee_denied
  = Some (true, fee_denied).
Proof.
  apply writeBackupSeed_unsupported_destination. discriminate.
Defined.

Lemma nibbleToHex_hex_digit (x : Z) : nibbleToHex x = hex_digit (x mod 16).
Proof.
  unfold nibbleToHex. change 15 with (Z.ones 4). rewrite Z.land_ones by lia.
  change (2 ^ 4) with 16.
  pose proof (Z.mod_pos_bound x 16 ltac:(lia)) as Hr.
  unfold u8. rewrite (Z.mod_small (x mod 16) 256) by lia.
  set (t := x mod 16) in *.
  assert (Hcases : t = 0 \/ t = 1 \/ t = 2 \/ t = 3 \/ t = 4 \/ t = 5 \/ t = 6
                   \/ t = 7 \/ t = 8 \/ t = 9 \/ t = 10 \/ t = 11 \/ t = 12
                   \/ t = 13 \/ t = 14 \/ t = 15) by lia.
  clearbody t.
  repeat (destruct Hcases as [->|Hcases]; [reflexivity|]).
  subst t. reflexivity.
Qed.

Lemma is_NUL_nibbleToHex (x : Z) : is_NUL (nibbleToHex x) = false.
Proof.
  rewrite nibbleToHex_hex_digit.
  pose proof (Z.mod_pos_bound x 16 ltac:(lia)) as Hr.
  set (t := x mod 16) in *.
  assert (Hcases : t = 0 \/ t = 1 \/ t = 2 \/ t = 3 \/ t = 4 \/ t = 5 \/ t = 6
                   \/ t = 7 \/ t = 8 \/ t = 9 \/ t = 10 \/ t = 11 \/ t = 12
                   \/ t = 13 \/ t = 14 \/ t = 15) by lia.
  clearbody t.
  repeat (destruct Hcases as [->|Hcases]; [reflexivity|]).
  subst t. reflexivity.
Qed.

Lemma hex_pair_nibbles (b : Z) :
  hex_pair b = [nibbleToHex (u8 (Z.shiftr b 4)); nibbleToHex b].
Proof.
  unfold hex_pair. rewrite !nibbleToHex_hex_digit.
  rewrite Z.shiftr_div_pow2 by lia. change (2 ^ 4) with 16.
  unfold u8. rewrite (Z.mod_mod_divide (b / 16) 256 16).
  - reflexivity.
  - exists 16. reflexivity.
Qed.

(** Writing a text in pieces, as the seed loop does, is writing it whole. *)
Lemma writeString_loop_full (str : list ascii) (d : display) :
  (current_column d <? 40) = false -> writeString_loop str d = d.
Proof.
  intros H. destruct str as [|c str]; [reflexivity|].
  cbn [writeString_loop]. rewrite H, andb_false_r. reflexivity.
Qed.

Lemma writeString_loop_app (t rest : list ascii) (d : display) :
  Forall (fun c => is_NUL c = false) t ->
  writeString_loop (t ++ rest) d
  = writeString_loop rest (writeString_loop (t ++ [NUL]) d).
Proof.
  intros Ht. revert d. induction Ht as [|c t Hc _ IH]; intros d.
  - reflexivity.
  - cbn [app writeString_loop]. rewrite Hc. cbn [negb andb].
    destruct (current_column d <? 40) eqn:E.
    + apply IH.
    + symmetry. apply writeString_loop_full. exact E.
Qed.

Lemma writeString_loop_scroll_counter (str : list ascii) (v : Z)
    (d : display) :
  writeString_loop str (set_scroll_counter v d)
  = set_scroll_counter v (writeString_loop str d).
Proof.
  revert d. induction str as [|c str IH]; intros d; [reflexivity|].
  cbn [writeString_loop].
  change (current_column (set_scroll_counter v d)) with (current_column d).
  destruct (negb (is_NUL c) && (current_column d <? 40)); [|reflexivity].
  rewrite <- IH. f_equal.
  cbn. destruct (u8 (current_column d + 1) >? max_line_size d); reflexivity.
Qed.

Lemma rs_pin_writeString_loop (str : list ascii) (d : display) :
  rs_pin (writeString_loop str d) = rs_pin d.
Proof.
  revert d. induction str as [|c str IH]; intros d; [reflexivity|].
  cbn [writeString_loop].
  destruct (negb (is_NUL c) && (current_column d <? 40)); [|reflexivity].
  rewrite IH. cbn.
  destruct (u8 (current_column d + 1) >? max_line_size d); reflexivity.
Qed.

Lemma writeArduinoPin_RS_high (d : display) :
  rs_pin d = true -> writeArduinoPin_RS 1 d = d.
Proof. destruct d. cbn. intros ->. reflexivity. Qed.

Lemma writeString_disp_app (t rest : list ascii) (p : bool) (d : display) :
  Forall (fun c => is_NUL c = false) t ->
  writeString_disp (t ++ rest) p d
  = writeString_disp rest p (writeString_disp (t ++ [NUL]) p d).
Proof.
  intros Ht. unfold writeString_disp.
  change (writeArduinoPin_RS 1
            (set_scroll_counter SCROLL_PAUSE
               (writeString_loop (t ++ [NUL]) (writeArduinoPin_RS 1 d))))
    with (set_scroll_counter SCROLL_PAUSE
            (writeArduinoPin_RS 1
               (writeString_loop (t ++ [NUL]) (writeArduinoPin_RS 1 d)))).
  rewrite (writeArduinoPin_RS_high (writeString_loop _ _))
    by (rewrite rs_pin_writeString_loop; reflexivity).
  rewrite writeString_loop_scroll_counter.
  rewrite <- writeString_loop_app by exact Ht.
  reflexivity.
Qed.

Lemma writeString_disp_3 (c1 c2 c3 : ascii) (rest : list ascii) (p : bool) (d : display) :
  is_NUL c1 = false -> is_NUL c2 = false -> is_NUL c3 = false ->
  writeString_disp (c1 :: c2 :: c3 :: rest) p d =
  writeString_disp rest p (writeString_disp [c1; c2; c3; NUL] p d).
Proof.
  intros H1 H2 H3. apply (writeString_disp_app [c1; c2; c3] rest).
  repeat constructor; assumption.
Qed.

Lemma writeString_disp_2 (c1 c2 : ascii) (rest : list ascii) (p : bool) (d : display) :
  is_NUL c1 = false -> is_NUL c2 = false ->
  writeString_disp (c1 :: c2 :: rest) p d =
  writeString_disp rest p (writeString_disp [c1; c2; NUL] p d).
Proof.
  intros H1 H2. apply (writeString_disp_app [c1; c2] rest).
  repeat constructor; assumption.
Qed.

(** A group of two octets, written as the loop does. *)
Lemma write_group (b1 b2 : Z) (rest : list ascii) (d : display) :
  writeString_disp (" "%char :: hex_pair b1 ++ hex_pair b2 ++ rest) false d =
  writeString_disp rest false
    (writeString_disp (seed_text 1 b2) false
       (writeString_disp (seed_text 0 b1) false d)).
Proof.
  rewrite !hex_pair_nibbles. cbn [app].
  rewrite writeString_disp_3
    by first [apply is_NUL_nibbleToHex | reflexivity].
  rewrite writeString_disp_2 by apply is_NUL_nibbleToHex.
  reflexivity.
Qed.

Lemma hex_line_cons2 (b1 b2 : Z) (rest : list Z) (tail : list ascii) :
  hex_line (b1 :: b2 :: rest) ++ tail =
  " "%char :: hex_pair b1 ++ hex_pair b2 ++ (hex_line rest ++ tail).
Proof. reflexivity. Qed.

Lemma writeString_disp_nothing (s : list ascii) (p : bool) (d : display) :
  writeString_disp [NUL] p (writeString_disp s p d) = writeString_disp s p d.
Proof.
  unfold writeString_disp. cbn [writeString_loop]. change (is_NUL NUL) with true.
  cbn [negb andb].
  change (writeArduinoPin_RS 1
            (set_scroll_counter SCROLL_PAUSE
               (writeString_loop s (writeArduinoPin_RS 1 d))))
    with (set_scroll_counter SCROLL_PAUSE
            (writeArduinoPin_RS 1
               (writeString_loop s (writeArduinoPin_RS 1 d)))).
  rewrite (writeArduinoPin_RS_high (writeString_loop _ _))
    by (rewrite rs_pin_writeString_loop; reflexivity).
  reflexivity.
Qed.

Lemma write_line_groups (b1 b2 : Z) (rest : list Z) (d : display) :
  writeString_disp (hex_line (b1 :: b2 :: rest) ++ [NUL]) false d =
  writeString_disp (hex_line rest ++ [NUL]) false
    (writeString_disp (seed_text 1 b2) false
       (writeString_disp (seed_text 0 b1) false d)).
Proof. rewrite hex_line_cons2. apply write_group. Qed.

(** * Further properties *)

(** ** Pin sampling *)

Lemma land_pow2 (x k : Z) :
  0 <= k -> Z.land x (2 ^ k) = if Z.testbit x k then 2 ^ k else 0.
Proof.
  intros Hk. apply Z.bits_inj'. intros n Hn.
  rewrite Z.land_spec, Z.pow2_bits_eqb by exact Hk.
  destruct (Z.eqb_spec k n) as [->|Hne].
  - destruct (Z.testbit x n); [rewrite Z.pow2_bits_true by lia; reflexivity|].
    rewrite Z.bits_0. reflexivity.
  - rewrite andb_false_r.
    destruct (Z.testbit x k); [|rewrite Z.bits_0; reflexivity].
    rewrite Z.pow2_bits_false by lia. reflexivity.
Qed.

(** X1. [sampleArduinoPin] answers non-zero exactly when the bit of the
    pin is set in its input register: bit [pin] of PIND for pins 0 to 7,
    bit [pin - 8] of PINB for pins 8 to 15; no other bit matters. *)
Theorem sampleArduinoPin_reads_the_pin_bit (pin PIND PINB : Z) :
  0 <= pin < 16 ->
  negb (sampleArduinoPin pin PIND PINB =? 0) =
  if pin <? 8 then Z.testbit PIND pin else Z.testbit PINB (pin - 8).
Proof.
  intros Hpin. unfold sampleArduinoPin, u8.
  destruct (pin <? 8) eqn:E.
  - apply Z.ltb_lt in E. rewrite Z.shiftl_1_l.
    assert (Hp : 0 < 2 ^ pin < 256).
    { split; [apply Z.pow_pos_nonneg; lia|].
      change 256 with (2 ^ 8). apply Z.pow_lt_mono_r; lia. }
    rewrite (Z.mod_small (2 ^ pin)) by lia.
    rewrite land_pow2 by lia.
    destruct (Z.testbit PIND pin).
    + rewrite Z.mod_small by lia.
      destruct (2 ^ pin =? 0) eqn:E0; [apply Z.eqb_eq in E0; lia|reflexivity].
    + reflexivity.
  - apply Z.ltb_ge in E. rewrite Z.shiftl_1_l.
    assert (Hp : 0 < 2 ^ (pin - 8) < 256).
    { split; [apply Z.pow_pos_nonneg; lia|].
      change 256 with (2 ^ 8). apply Z.pow_lt_mono_r; lia. }
    rewrite (Z.mod_small (2 ^ (pin - 8))) by lia.
    rewrite land_pow2 by lia.
    destruct (Z.testbit PINB (pin - 8)).
    + rewrite Z.mod_small by lia.
      destruct (2 ^ (pin - 8) =? 0) eqn:E0;
        [apply Z.eqb_eq in E0; lia|reflexivity].
    + reflexivity.
Qed.

Lemma sampleArduinoPin_reads_the_pin_bit_witness :
  negb (sampleArduinoPin ACCEPT_PIN 128 0 =? 0) = false /\
  negb (sampleArduinoPin CANCEL_PIN 128 0 =? 0) = true.
Proof.
  split.
  - rewrite (sampleArduinoPin_reads_the_pin_bit ACCEPT_PIN 128 0)
      by (unfold ACCEPT_PIN; lia).
    reflexivity.
  - rewrite (sampleArduinoPin_reads_the_pin_bit CANCEL_PIN 128 0)
      by (unfold CANCEL_PIN; lia).
    reflexivity.
Defined.

(** ** What the interrupt does to the display *)

Lemma display_shift_snoc (bus : list lcd_write) (e : lcd_write) :
  display_shift (bus ++ [e]) = shift_after (display_shift bus) e.
Proof. unfold display_shift. rewrite fold_left_app. reflexivity. Qed.

Lemma shown_snoc_command (bus : list lcd_write) (v : Z) :
  shown (bus ++ [LcdWrite false v]) = shown bus.
Proof.
  unfold shown. rewrite filter_app. cbn. rewrite app_nil_r. reflexivity.
Qed.

Lemma shown_snoc_data (bus : list lcd_write) (v : Z) :
  shown (bus ++ [LcdWrite true v])
  = shown bus ++ [ascii_of_N (Z.to_N v)].
Proof.
  unfold shown. rewrite filter_app. cbn. rewrite map_app. reflexivity.
Qed.

(** One tick: the cursor bookkeeping is untouched, and the bus grows by
    nothing or by one shift command. *)
Lemma ISR_scroll_frame (d : display) :
  current_column (ISR_scroll d) = current_column d /\
  max_line_size (ISR_scroll d) = max_line_size d /\
  exists sent,
    lcd_bus (ISR_scroll d) = lcd_bus d ++ sent /\
    Forall (fun e => is_shift_command e = true) sent /\
    shown (lcd_bus (ISR_scroll d)) = shown (lcd_bus d).
Proof.
  unfold ISR_scroll. cbn.
  destruct (u16 (scroll_counter d - 1) =? 0).
  - destruct (max_line_size d >? NUM_COLUMNS).
    + destruct (scroll_to_left d).
      * destruct (scroll_pos d =? 0); cbn.
        -- repeat split. exists []. rewrite app_nil_r. repeat split. constructor.
        -- repeat split. eexists. split; [reflexivity|].
           split; [repeat constructor|]. apply shown_snoc_command.
      * destruct (scroll_pos d =? max_line_size d - NUM_COLUMNS); cbn.
        -- repeat split. exists []. rewrite app_nil_r. repeat split. constructor.
        -- repeat split. eexists. split; [reflexivity|].
           split; [repeat constructor|]. apply shown_snoc_command.
    + cbn. repeat split. exists []. rewrite app_nil_r. repeat split. constructor.
  - cbn. repeat split. exists []. rewrite app_nil_r. repeat split. constructor.
Qed.

Lemma run_ticks_frame (ps : list pin_reads) (w : world) :
  current_column (disp (run_ticks ps w)) = current_column (disp w) /\
  max_line_size (disp (run_ticks ps w)) = max_line_size (disp w) /\
  stage (run_ticks ps w) = stage w /\
  exists sent,
    lcd_bus (disp (run_ticks ps w)) = lcd_bus (disp w) ++ sent /\
    Forall (fun e => is_shift_command e = true) sent /\
    (length sent <= length ps)%nat /\
    shown (lcd_bus (disp (run_ticks ps w))) = shown (lcd_bus (disp w)).
Proof.
  induction ps as [|p ps IH] using rev_ind.
  - repeat split. exists []. rewrite app_nil_r. repeat split; [constructor|cbn; lia].
  - rewrite run_ticks_snoc, disp_ISR.
    destruct IH as (Hc & Hm & Hs & sent & Hbus & Hall & Hlen & Hshown).
    destruct (ISR_scroll_frame (disp (run_ticks ps w)))
      as (Hc1 & Hm1 & sent1 & Hbus1 & Hall1 & Hshown1).
    split; [congruence|]. split; [congruence|].
    split; [cbn; exact Hs|].
    exists (sent ++ sent1).
    split; [rewrite Hbus1, Hbus, app_assoc; reflexivity|].
    split; [apply Forall_app; split; assumption|].
    split; [|congruence].
    rewrite !length_app. cbn.
    assert (length sent1 <= 1)%nat; [|lia].
    clear -Hbus1. unfold ISR_scroll in Hbus1. revert Hbus1.
    set (d := disp (run_ticks ps w)). cbn.
    destruct (u16 (scroll_counter d - 1) =? 0);
      [destruct (max_line_size d >? NUM_COLUMNS);
       [destruct (scroll_to_left d);
        [destruct (scroll_pos d =? 0)
        |destruct (scroll_pos d =? max_line_size d - NUM_COLUMNS)]|]|];
      cbn; intros H.
    all: try (apply (f_equal (@length _)) in H; rewrite !length_app in H;
              cbn in H; lia).
Qed.

(** X2. Whatever [n] ticks do, they leave the cursor column, the longest
    line size and the staging store alone, and all they send to the display
    is at most [n] shift commands (0x18 or 0x1c with RS low): the
    characters shown are unchanged. *)
Theorem interrupt_sends_only_shift_commands
    (ps : list pin_reads) (w : world) :
  current_column (disp (run_ticks ps w)) = current_column (disp w) /\
  max_line_size (disp (run_ticks ps w)) = max_line_size (disp w) /\
  stage (run_ticks ps w) = stage w /\
  exists sent,
    lcd_bus (disp (run_ticks ps w)) = lcd_bus (disp w) ++ sent /\
    Forall (fun e => is_shift_command e = true) sent /\
    (length sent <= length ps)%nat /\
    shown (lcd_bus (disp (run_ticks ps w))) = shown (lcd_bus (disp w)).
Proof. apply run_ticks_frame. Qed.

(** The scroll position is the display's shift offset. *)
Lemma shift_ok_clearLcd (d : display) :
  scroll_pos (clearLcd_disp d) = display_shift (lcd_bus (clearLcd_disp d)).
Proof.
  change (lcd_bus (clearLcd_disp d)) with (lcd_bus d ++ [LcdWrite false 1]).
  rewrite display_shift_snoc. reflexivity.
Qed.

Lemma shift_ok_gotoStartOfLine (line : Z) (d : display) :
  scroll_pos d = display_shift (lcd_bus d) ->
  scroll_pos (gotoStartOfLine_disp line d)
  = display_shift (lcd_bus (gotoStartOfLine_disp line d)).
Proof.
  intros H. unfold gotoStartOfLine_disp.
  destruct (line =? 0).
  - change (lcd_bus _) with (lcd_bus d ++ [LcdWrite false 128]).
    rewrite display_shift_snoc. exact H.
  - change (lcd_bus _) with (lcd_bus d ++ [LcdWrite false 192]).
    rewrite display_shift_snoc. exact H.
Qed.

Lemma writeString_loop_cons (c : ascii) (str : list ascii) (d : display) :
  writeString_loop (c :: str) d =
  if negb (is_NUL c) && (current_column d <? 40)
  then writeString_loop str (write_char c d) else d.
Proof. reflexivity. Qed.

Lemma write_char_fields (c : ascii) (d : display) :
  lcd_bus (write_char c d)
  = lcd_bus d ++ [LcdWrite (rs_pin d) (Z.of_N (N_of_ascii c))] /\
  current_column (write_char c d) = u8 (current_column d + 1) /\
  max_line_size (write_char c d)
  = Z.max (max_line_size d) (u8 (current_column d + 1)) /\
  scroll_pos (write_char c d) = scroll_pos d /\
  scroll_to_left (write_char c d) = scroll_to_left d /\
  scroll_counter (write_char c d) = scroll_counter d /\
  rs_pin (write_char c d) = rs_pin d.
Proof.
  assert (Hbyte : u8 (Z.of_N (N_of_ascii c)) = Z.of_N (N_of_ascii c)).
  { unfold u8. apply Z.mod_small. pose proof (N_ascii_bounded c). lia. }
  unfold write_char. cbn [current_column max_line_size set_current_column write8].
  destruct (u8 (current_column d + 1) >? max_line_size d) eqn:G; cbn;
    rewrite Hbyte; repeat split; try reflexivity.
  - apply Z.gtb_lt in G. lia.
  - rewrite Z.gtb_ltb in G. apply Z.ltb_ge in G. lia.
Qed.

Lemma shift_ok_writeString_loop (str : list ascii) (d : display) :
  rs_pin d = true ->
  scroll_pos d = display_shift (lcd_bus d) ->
  scroll_pos (writeString_loop str d)
  = display_shift (lcd_bus (writeString_loop str d)).
Proof.
  revert d. induction str as [|c str IH]; intros d Hrs H; [exact H|].
  rewrite writeString_loop_cons.
  destruct (negb (is_NUL c) && (current_column d <? 40)); [|exact H].
  destruct (write_char_fields c d) as (Hb & _ & _ & Hp & _ & _ & Hr).
  apply IH; [congruence|].
  rewrite Hb, Hp, display_shift_snoc, Hrs. exact H.
Qed.

Lemma shift_ok_writeString (str : list ascii) (p : bool) (d : display) :
  scroll_pos d = display_shift (lcd_bus d) ->
  scroll_pos (writeString_disp str p d)
  = display_shift (lcd_bus (writeString_disp str p d)).
Proof.
  intros H. unfold writeString_disp.
  apply (shift_ok_writeString_loop str (writeArduinoPin_RS 1 d));
    [reflexivity|exact H].
Qed.

Lemma shift_ok_ISR_scroll (d : display) :
  display_ok d ->
  scroll_pos d = display_shift (lcd_bus d) ->
  scroll_pos (ISR_scroll d) = display_shift (lcd_bus (ISR_scroll d)).
Proof.
  unfold display_ok, ISR_scroll, NUM_COLUMNS.
  intros (Hc & Hm & Hp & Hs) H.
  cbn [scroll_counter max_line_size scroll_to_left scroll_pos
       set_scroll_counter].
  destruct (u16 (scroll_counter d - 1) =? 0); [|exact H].
  destruct (max_line_size d >? 16) eqn:G; [|exact H].
  apply Z.gtb_lt in G.
  destruct (scroll_to_left d).
  - destruct (scroll_pos d =? 0) eqn:E0; [exact H|].
    apply Z.eqb_neq in E0.
    cbn [scroll_pos lcd_bus set_scroll_counter set_scroll_pos write8
         writeArduinoPin_RS rs_pin].
    change (negb (0 =? 0)) with false. change (u8 28) with 28.
    rewrite display_shift_snoc. unfold shift_after, u8.
    cbn [bus_rs bus_byte]. change (28 =? 1) with false.
    change (28 =? 24) with false. change (28 =? 28) with true. cbv iota.
    rewrite Z.mod_small by lia. lia.
  - destruct (scroll_pos d =? max_line_size d - 16) eqn:E1; [exact H|].
    apply Z.eqb_neq in E1.
    cbn [scroll_pos lcd_bus set_scroll_counter set_scroll_pos write8
         writeArduinoPin_RS rs_pin].
    change (negb (0 =? 0)) with false. change (u8 24) with 24.
    rewrite display_shift_snoc. unfold shift_after, u8.
    cbn [bus_rs bus_byte]. change (24 =? 1) with false.
    change (24 =? 24) with true. cbv iota.
    rewrite Z.mod_small by lia. lia.
Qed.

Lemma run_ops_shift_ok (ops : list lcd_op) (w : world) :
  display_ok (disp w) ->
  scroll_pos (disp w) = display_shift (lcd_bus (disp w)) ->
  scroll_pos (disp (run_ops ops w))
  = display_shift (lcd_bus (disp (run_ops ops w))).
Proof.
  revert w. induction ops as [|o ops IH]; intros w Hok H; [exact H|].
  cbn [run_ops fold_left]. fold (run_ops ops (run_op o w)).
  apply IH.
  - apply (run_ops_ok [o]). exact Hok.
  - destruct o; cbn [run_op].
    + rewrite disp_ISR. apply shift_ok_ISR_scroll; assumption.
    + apply shift_ok_clearLcd.
    + apply shift_ok_gotoStartOfLine. exact H.
    + apply shift_ok_writeString. exact H.
Qed.

(** X3. After any sequence of ticks, [clearLcd], [gotoStartOfLine] and
    [writeString] operations that starts from a cleared display, the scroll
    position the driver keeps equals the shift the display has been told:
    the number of 0x18 commands less the number of 0x1c commands sent since
    the last clear command. *)
Theorem scroll_position_matches_display_shift
    (w0 : world) (ops : list lcd_op) :
  let w := run_ops ops (with_disp (clearLcd_disp (disp w0)) w0) in
  scroll_pos (disp w) = display_shift (lcd_bus (disp w)).
Proof.
  cbv zeta. apply run_ops_shift_ok.
  - apply clearLcd_disp_ok.
  - apply shift_ok_clearLcd.
Qed.

(** ** The scroll countdown *)

Lemma ISR_scroll_counts_down (d : display) :
  1 < scroll_counter d <= 65535 ->
  ISR_scroll d = set_scroll_counter (scroll_counter d - 1) d.
Proof.
  intros H. unfold ISR_scroll. cbn [scroll_counter set_scroll_counter].
  unfold u16. rewrite Z.mod_small by lia.
  destruct (scroll_counter d - 1 =? 0) eqn:E; [|reflexivity].
  apply Z.eqb_eq in E. lia.
Qed.

(** X4. While the countdown has not expired the scroll stands still: from
    a countdown of [c] (within [uint16_t], not 0), fewer than [c] ticks
    change nothing of the display state but the countdown, which they
    lower by one each; nothing is sent to the display. [writeString] sets
    the countdown to SCROLL_PAUSE = 450 and [clearLcd] to SCROLL_SPEED =
    150. *)
Theorem scroll_stands_still_until_countdown_expires
    (ps : list pin_reads) (w : world) :
  0 < scroll_counter (disp w) <= 65535 ->
  Z.of_nat (length ps) < scroll_counter (disp w) ->
  disp (run_ticks ps w)
  = set_scroll_counter (scroll_counter (disp w) - Z.of_nat (length ps))
      (disp w).
Proof.
  intros Hc. induction ps as [|p ps IH] using rev_ind; intros Hlen.
  - cbn. rewrite Z.sub_0_r. destruct (disp w). reflexivity.
  - rewrite length_app in *. cbn [length] in *.
    rewrite run_ticks_snoc, disp_ISR. rewrite IH by lia.
    rewrite ISR_scroll_counts_down; [|cbn; lia].
    replace (scroll_counter (disp w) - Z.of_nat (length ps + 1))
      with (scroll_counter (disp w) - Z.of_nat (length ps) - 1) by lia.
    reflexivity.
Qed.

(** ** What [writeString] sends *)

Lemma shown_app_data (bus : list lcd_write) (text : list ascii) :
  shown (bus ++ map data_write text) = shown bus ++ text.
Proof.
  induction text as [|c text IH] using rev_ind.
  - cbn. rewrite !app_nil_r. reflexivity.
  - rewrite map_app, app_assoc. cbn [map]. unfold data_write at 2.
    rewrite shown_snoc_data, IH, <- app_assoc.
    rewrite N2Z.id, ascii_N_embedding. reflexivity.
Qed.

Lemma writeString_loop_sends (str : list ascii) (d : display) :
  0 <= current_column d <= 40 ->
  current_column d <= max_line_size d ->
  rs_pin d = true ->
  let sent := take (Z.to_nat (40 - current_column d)) (c_str str) in
  lcd_bus (writeString_loop str d) = lcd_bus d ++ map data_write sent /\
  current_column (writeString_loop str d)
  = current_column d + Z.of_nat (length sent) /\
  max_line_size (writeString_loop str d)
  = Z.max (max_line_size d) (current_column d + Z.of_nat (length sent)) /\
  scroll_pos (writeString_loop str d) = scroll_pos d /\
  scroll_to_left (writeString_loop str d) = scroll_to_left d /\
  scroll_counter (writeString_loop str d) = scroll_counter d.
Proof.
  revert d. induction str as [|c str IH]; intros d Hc Hm Hrs; cbv zeta.
  - cbn [c_str writeString_loop]. rewrite take_nil. cbn.
    rewrite app_nil_r, Z.add_0_r. repeat split. lia.
  - rewrite writeString_loop_cons. cbn [c_str].
    destruct (is_NUL c) eqn:En; cbn [negb andb].
    { rewrite take_nil. cbn. rewrite app_nil_r, Z.add_0_r. repeat split. lia. }
    destruct (current_column d <? 40) eqn:E40.
    + apply Z.ltb_lt in E40.
      destruct (write_char_fields c d)
        as (Hb & Hcol & Hmax & Hp & Hdir & Hcnt & Hr).
      unfold u8 in Hcol, Hmax. rewrite Z.mod_small in Hcol, Hmax by lia.
      destruct (IH (write_char c d)) as (B & C & Mx & P & Dr & Cn);
        [lia|lia|congruence|].
      rewrite Hcol in B, C, Mx.
      replace (Z.to_nat (40 - current_column d))
        with (S (Z.to_nat (40 - (current_column d + 1)))) by lia.
      cbn [take length map].
      set (rest := take (Z.to_nat (40 - (current_column d + 1))) (c_str str))
        in *.
      rewrite B, C, Mx, P, Dr, Cn, Hb, Hmax, Hp, Hdir, Hcnt, Hrs.
      rewrite <- app_assoc. cbn [app]. repeat split; try reflexivity; lia.
    + apply Z.ltb_ge in E40.
      replace (Z.to_nat (40 - current_column d)) with 0%nat by lia.
      cbn. rewrite app_nil_r, Z.add_0_r. repeat split. lia.
Qed.

Lemma writeString_disp_facts
    (str : list ascii) (is_progmem : bool) (d : display) :
  0 <= current_column d <= 40 ->
  current_column d <= max_line_size d ->
  let sent := take (Z.to_nat (40 - current_column d)) (c_str str) in
  let d' := writeString_disp str is_progmem d in
  lcd_bus d' = lcd_bus d ++ map data_write sent /\
  shown (lcd_bus d') = shown (lcd_bus d) ++ sent /\
  current_column d' = current_column d + Z.of_nat (length sent) /\
  max_line_size d'
  = Z.max (max_line_size d) (current_column d + Z.of_nat (length sent)) /\
  scroll_pos d' = scroll_pos d /\
  scroll_to_left d' = scroll_to_left d /\
  scroll_counter d' = SCROLL_PAUSE.
Proof.
  intros Hc Hm. cbv zeta. unfold writeString_disp.
  destruct (writeString_loop_sends str (writeArduinoPin_RS 1 d))
    as (B & C & Mx & P & Dr & _); [exact Hc|exact Hm|reflexivity|].
  cbn [current_column max_line_size scroll_pos scroll_to_left lcd_bus
       writeArduinoPin_RS] in B, C, Mx, P, Dr.
  cbn [lcd_bus current_column max_line_size scroll_pos scroll_to_left
       scroll_counter set_scroll_counter].
  rewrite B, C, Mx, P, Dr, shown_app_data. repeat split; reflexivity.
Qed.

(** X5. With the column within the 40 characters of a line and not
    beyond the longest line size, [writeString] sends as data exactly the characters of the text that
    fit, the first [40 - current_column] of them, and drops the others; the
    column advances by the number sent, the longest line size becomes the
    larger of its old value and the new column, the scroll position and
    direction are kept and the countdown is SCROLL_PAUSE. *)
Theorem writeString_sends_the_text_that_fits
    (str : list ascii) (is_progmem : bool) (d : display) :
  0 <= current_column d <= 40 ->
  current_column d <= max_line_size d ->
  let sent := take (Z.to_nat (40 - current_column d)) (c_str str) in
  let d' := writeString_disp str is_progmem d in
  lcd_bus d' = lcd_bus d ++ map data_write sent /\
  shown (lcd_bus d') = shown (lcd_bus d) ++ sent /\
  current_column d' = current_column d + Z.of_nat (length sent) /\
  max_line_size d'
  = Z.max (max_line_size d) (current_column d + Z.of_nat (length sent)) /\
  scroll_pos d' = scroll_pos d /\
  scroll_to_left d' = scroll_to_left d /\
  scroll_counter d' = SCROLL_PAUSE.
Proof. apply writeString_disp_facts. Qed.

Lemma writeString_sends_the_text_that_fits_witness :
  let d := writeString_disp str_unknown_line0 true
             (set_max_line_size 30 (set_current_column 30 blank_display)) in
  shown (lcd_bus d) = list_ascii_of_string "Unknown co" /\
  current_column d = 40 /\ max_line_size d = 40.
Proof.
  destruct (writeString_sends_the_text_that_fits str_unknown_line0 true
              (set_max_line_size 30 (set_current_column 30 blank_display)))
    as (_ & S & C & M & _); [cbn; lia|cbn; lia|].
  split; [exact S|]. split; [exact C|exact M].
Defined.

Lemma scroll_stands_still_until_countdown_expires_witness :
  let w := with_disp (writeString_disp str_delete_line0 true blank_display)
             power_on in
  disp (run_ticks (replicate 449 pins_released) w)
  = set_scroll_counter 1 (disp w).
Proof.
  apply (scroll_stands_still_until_countdown_expires
           (replicate 449 pins_released)
           (with_disp (writeString_disp str_delete_line0 true blank_display)
              power_on)).
  - vm_compute. split; [reflexivity|discriminate].
  - vm_compute. reflexivity.
Defined.

(** ** The cursor *)

Lemma cursor_ok_writeString (str : list ascii) (p : bool) (d : display) :
  cursor_ok d -> cursor_ok (writeString_disp str p d).
Proof.
  intros ((Hc0 & Hcm) & Hm). unfold writeString_disp.
  destruct (writeString_loop_sends str (writeArduinoPin_RS 1 d))
    as (_ & C & Mx & _); [cbn; lia|exact Hcm|reflexivity|].
  cbn [current_column max_line_size writeArduinoPin_RS] in C, Mx.
  unfold cursor_ok.
  cbn [current_column max_line_size set_scroll_counter].
  rewrite C, Mx.
  pose proof (length_take_le_bound := length_take (c_str str)
                (Z.to_nat (40 - current_column d))).
  lia.
Qed.

Lemma cursor_ok_run_ops (ops : list lcd_op) (w : world) :
  cursor_ok (disp w) -> cursor_ok (disp (run_ops ops w)).
Proof.
  revert w. induction ops as [|o ops IH]; intros w Hw; [exact Hw|].
  cbn [run_ops fold_left]. fold (run_ops ops (run_op o w)). apply IH.
  destruct o; cbn [run_op].
  - rewrite disp_ISR. destruct (ISR_scroll_frame (disp w)) as (Hc & Hm & _).
    unfold cursor_ok. rewrite Hc, Hm. exact Hw.
  - unfold cursor_ok. cbn. lia.
  - destruct Hw as ((Hc0 & Hcm) & Hm). unfold cursor_ok, gotoStartOfLine_disp.
    destruct (line =? 0); cbn; lia.
  - apply cursor_ok_writeString. exact Hw.
Qed.

(** X6. After any sequence of ticks, [clearLcd], [gotoStartOfLine] and
    [writeString] operations that starts from a cleared display, the
    column is between 0 and the longest line size, and the longest line
    size is at most 40: no character is ever written past the end of a
    display line and neither [uint8_t] wraps. *)
Theorem cursor_stays_on_the_line (w0 : world) (ops : list lcd_op) :
  let d := disp (run_ops ops (with_disp (clearLcd_disp (disp w0)) w0)) in
  0 <= current_column d <= max_line_size d /\ max_line_size d <= 40.
Proof.
  cbv zeta. apply cursor_ok_run_ops. unfold cursor_ok. cbn. lia.
Qed.

(** ** Debouncing, continued *)

Lemma ISR_debounce_step (ch : channel) (p : pin_reads) (w : world) :
  (button_of ch (ISR p w), debounce_of ch (ISR p w))
  = debounce_step (temp_of ch p) (button_of ch w, debounce_of ch w).
Proof. rewrite ISR_channel. reflexivity. Qed.

Lemma run_ticks_constant (ch : channel) (level : bool)
    (ps : list pin_reads) (w : world) :
  Forall (fun p => temp_of ch p = level) ps ->
  (button_of ch (run_ticks ps w), debounce_of ch (run_ticks ps w))
  = Nat.iter (length ps) (debounce_step level)
      (button_of ch w, debounce_of ch w).
Proof.
  induction ps as [|p ps IH] using rev_ind; intros Hall; [reflexivity|].
  apply Forall_app in Hall. destruct Hall as [Hps Hp].
  inversion Hp as [|? ? Hl _]; subst.
  rewrite run_ticks_snoc, ISR_debounce_step, IH by exact Hps.
  rewrite length_app. cbn [length]. rewrite Nat.add_1_r. reflexivity.
Qed.

Lemma settles_within_257 :
  forallb (fun st => settles_within 257 false st && settles_within 257 true st)
    (channel_states 256) = true.
Proof. vm_compute. reflexivity. Qed.

Lemma channel_state_listed (button : bool) (count : Z) :
  0 <= count < 256 -> In (button, count) (channel_states 256).
Proof.
  intros H. unfold channel_states. apply in_flat_map.
  exists (Z.to_nat count). split; [apply in_seq; lia|].
  rewrite Z2Nat.id by lia. destruct button; cbn; auto.
Qed.

Lemma settled_is_fixed (level : bool) (n : nat) :
  Nat.iter n (debounce_step level) (negb level, 0) = (negb level, 0).
Proof.
  induction n as [|n IH]; [reflexivity|].
  rewrite Nat.iter_succ, IH. destruct level; reflexivity.
Qed.

Lemma constant_level_settles (level button : bool) (count : Z) (n : nat) :
  0 <= count < 256 -> (257 <= n)%nat ->
  Nat.iter n (debounce_step level) (button, count) = (negb level, 0).
Proof.
  intros Hc Hn.
  replace n with ((n - 257) + 257)%nat by lia.
  rewrite Nat.iter_add.
  pose proof settles_within_257 as H.
  rewrite forallb_forall in H.
  specialize (H (button, count) (channel_state_listed button count Hc)).
  apply andb_prop in H. destruct H as [Hf Ht].
  assert (Hs : settles_within 257 level (button, count) = true)
    by (destruct level; assumption).
  unfold settles_within in Hs.
  destruct (Nat.iter 257 (debounce_step level) (button, count)) as [b c].
  apply andb_prop in Hs. destruct Hs as [Hb Hz].
  apply eqb_prop in Hb. apply Z.eqb_eq in Hz. subst b c.
  apply settled_is_fixed.
Qed.

(** X7. A press registers: from a counter of 0, up to seven ticks that
    disagree with the debounced state leave it unchanged and count in the
    counter, and the eighth consecutive one flips it, for either
    channel. *)
Theorem eighth_disagreeing_tick_flips_the_state
    (ch : channel) (w : world) (ps : list pin_reads) :
  debounce_of ch w = 0 ->
  Forall (fun p => disagrees ch p (button_of ch w) = true) ps ->
  (Z.of_nat (length ps) < DEBOUNCE_COUNT ->
   button_of ch (run_ticks ps w) = button_of ch w /\
   debounce_of ch (run_ticks ps w) = Z.of_nat (length ps))
  /\
  (Z.of_nat (length ps) = DEBOUNCE_COUNT ->
   button_of ch (run_ticks ps w) = negb (button_of ch w)).
Proof.
  intros H0 Hall. split; intros Hlen.
  - apply disagreeing_ticks_count; assumption.
  - apply eight_disagreeing_ticks_flip; assumption.
Qed.

Lemma eighth_disagreeing_tick_flips_the_state_witness :
  (button_of CancelChannel (run_ticks (replicate 7 pins_cancel) power_on)
   = false /\
   debounce_of CancelChannel (run_ticks (replicate 7 pins_cancel) power_on)
   = 7) /\
  button_of CancelChannel (run_ticks (replicate 8 pins_cancel) power_on)
  = true.
Proof.
  split.
  - apply (eighth_disagreeing_tick_flips_the_state CancelChannel power_on
             (replicate 7 pins_cancel) eq_refl).
    + repeat constructor.
    + vm_compute. reflexivity.
  - apply (eighth_disagreeing_tick_flips_the_state CancelChannel power_on
             (replicate 8 pins_cancel) eq_refl).
    + repeat constructor.
    + reflexivity.
Defined.

(** X8. The debounced state always catches up with a steady pin: whatever
    the flag and the counter (within [uint8_t]) are, once the raw sample of
    a channel has stayed at the same level for 257 ticks or more, the flag
    says "pressed" exactly when the pin is low and the counter is 0. (257
    ticks, not 8: the counter that is not reset at a flip may have to wrap
    around.) *)
Theorem steady_pin_settles_the_debounced_state
    (ch : channel) (level : bool) (ps : list pin_reads) (w : world) :
  0 <= debounce_of ch w < 256 ->
  Forall (fun p => temp_of ch p = level) ps ->
  (257 <= length ps)%nat ->
  button_of ch (run_ticks ps w) = negb level /\
  debounce_of ch (run_ticks ps w) = 0.
Proof.
  intros Hc Hall Hn.
  pose proof (run_ticks_constant ch level ps w Hall) as H.
  rewrite constant_level_settles in H by assumption.
  inversion H. split; reflexivity.
Qed.

Lemma steady_pin_settles_the_debounced_state_witness :
  let stuck := run_ticks (replicate 8 pins_accept ++ [pins_released])
                 power_on in
  debounce_of AcceptChannel stuck = 9 /\
  button_of AcceptChannel (run_ticks (replicate 257 pins_released) stuck)
  = false /\
  debounce_of AcceptChannel (run_ticks (replicate 257 pins_released) stuck)
  = 0.
Proof.
  split; [reflexivity|].
  apply (steady_pin_settles_the_debounced_state AcceptChannel true
           (replicate 257 pins_released)).
  - vm_compute. split; [discriminate|reflexivity].
  - apply Forall_replicate. reflexivity.
  - vm_compute. lia.
Defined.

(** ** Waiting *)

Lemma ticked_refl (m : machine) : ticked m m.
Proof. exists []. split; reflexivity. Qed.









(** A held button keeps its flag. *)
Lemma held_button_stays (ch : channel) (ps : list pin_reads) (w : world) :
  button_of ch w = true ->
  Forall (fun p => temp_of ch p = false) ps ->
  button_of ch (run_ticks ps w) = true.
Proof.
  intros Hb. induction ps as [|p ps IH] using rev_ind; intros Hall;
    [exact Hb|].
  apply Forall_app in Hall. destruct Hall as [Hps Hp].
  inversion Hp as [|? ? Hl _]; subst.
  rewrite run_ticks_snoc, ISR_button, IH by exact Hps.
  unfold disagrees. rewrite Hl. reflexivity.
Qed.

Lemma held_button_blocks_loop (ch : channel) (tl : timeline) (w : world) :
  button_of ch w = true ->
  Forall (Forall (fun p => temp_of ch p = false)) tl ->
  waitForNoButtonPress_loop tl w = None.
Proof.
  remember (length tl) as n eqn:Hn. revert w tl Hn.
  induction n as [n IH] using lt_wf_ind. intros w tl Hn Hb Hall.
  destruct tl as [|b1 tl1]; [reflexivity|]. cbn [waitForNoButtonPress_loop].
  inversion Hall as [|? ? H1 Hall1]; subst.
  pose proof (held_button_stays ch b1 w Hb H1) as Hb1.
  destruct (accept_button (btn (run_ticks b1 w))) eqn:Ea.
  - apply (IH (length tl1)); [cbn; lia|reflexivity|exact Hb1|exact Hall1].
  - destruct tl1 as [|b2 tl2]; [reflexivity|].
    inversion Hall1 as [|? ? H2 Hall2]; subst.
    pose proof (held_button_stays ch b2 _ Hb1 H2) as Hb2.
    destruct ch; cbn [button_of] in *; [congruence|].
    rewrite Hb2.
    apply (IH (length tl2)); [cbn; lia|reflexivity|exact Hb2|exact Hall2].
Qed.

(** X9. A button that is held down never passes for a release: if the
    debounced flag of a button is set and its pin reads low in every tick
    of the timeline, [waitForNoButtonPress] does not return, however long
    the timeline; so neither does any prompt of [userDenied] other than
    the sign-transaction review, and a press that answered one screen
    cannot answer the next one too. *)
Theorem held_button_never_passes_for_a_release
    (ch : channel) (tl : timeline) (w : world) :
  button_of ch w = true ->
  Forall (Forall (fun p => temp_of ch p = false)) tl ->
  waitForNoButtonPress (mkMachine w tl) = None /\
  forall command : AskUserCommand,
    command <> ASKUSER_SIGN_TRANSACTION ->
    userDenied command (mkMachine w tl) = None.
Proof.
  intros Hb Hall.
  assert (Hwait : forall d, waitForNoButtonPress
                              (mkMachine (with_disp d w) tl) = None).
  { intros d. unfold waitForNoButtonPress. cbn [hw irq].
    apply (held_button_blocks_loop ch); [|exact Hall].
    destruct ch; exact Hb. }
  split.
  - unfold waitForNoButtonPress. cbn [hw irq].
    apply (held_button_blocks_loop ch); assumption.
  - intros command Hne. unfold userDenied.
    rewrite (bind_Some _ _ _ _ _ (clearLcd_cleared _)).
    unfold cleared. cbn [hw irq].
    destruct command; try contradiction;
      unfold bind at 1; unfold bind at 1; rewrite Hwait; reflexivity.
Qed.

Lemma held_button_never_passes_for_a_release_witness :
  let held := run_ticks (replicate 8 pins_accept) power_on in
  waitForNoButtonPress (mkMachine held (replicate 50 (replicate 20 pins_accept)))
  = None /\
  userDenied ASKUSER_NEW_ADDRESS
    (mkMachine held (replicate 50 (replicate 20 pins_accept))) = None.
Proof.
  destruct (held_button_never_passes_for_a_release AcceptChannel
              (replicate 50 (replicate 20 pins_accept))
              (run_ticks (replicate 8 pins_accept) power_on))
    as [Hwait Hask].
  - reflexivity.
  - apply Forall_replicate. apply Forall_replicate. reflexivity.
  - split; [exact Hwait|]. apply Hask. discriminate.
Defined.

(** ** The staging store is only read *)

Lemma keeps_stage_ret {A : Type} (a : A) : keeps_stage (ret a).
Proof. intros m m' a' H. inversion H. reflexivity. Qed.

Lemma keeps_stage_bind {A B : Type} (c : M A) (k : A -> M B) :
  keeps_stage c -> (forall a, keeps_stage (k a)) -> keeps_stage (bind c k).
Proof.
  intros Hc Hk m m' b. unfold bind.
  destruct (c m) as [[a m1]|] eqn:E; [|discriminate].
  intros H. rewrite (Hk a _ _ _ H). exact (Hc _ _ _ E).
Qed.

Lemma keeps_stage_on_disp (f : display -> display) : keeps_stage (on_disp f).
Proof. intros m m' a H. inversion H. reflexivity. Qed.

Lemma keeps_stage_get_world : keeps_stage get_world.
Proof. intros m m' a H. inversion H. reflexivity. Qed.

Lemma keeps_stage_waitForNoButtonPress : keeps_stage waitForNoButtonPress.
Proof. intros m m' a H. eapply stage_waitForNoButtonPress. exact H. Qed.

Lemma keeps_stage_waitForButtonPress : keeps_stage waitForButtonPress.
Proof. intros m m' a H. eapply stage_waitForButtonPress. exact H. Qed.

Ltac keeps_stage_steps :=
  repeat first
    [ apply keeps_stage_waitForNoButtonPress
    | apply keeps_stage_waitForButtonPress
    | apply keeps_stage_get_world
    | apply keeps_stage_ret
    | apply keeps_stage_on_disp
    | apply keeps_stage_bind; [|intros ?]
    | match goal with
      | |- keeps_stage (if ?b then _ else _) => destruct b
      end ].

Lemma keeps_stage_userDenied_for (n : nat) (i : Z) (r : bool) :
  keeps_stage (userDenied_for n i r).
Proof.
  revert i r. induction n as [|n IH]; intros i r; cbn [userDenied_for].
  - apply keeps_stage_ret.
  - unfold clearLcd, gotoStartOfLine, writeString.
    keeps_stage_steps. apply IH.
Qed.

Lemma keeps_stage_userDenied (command : AskUserCommand) :
  keeps_stage (userDenied command).
Proof.
  unfold userDenied, clearLcd, gotoStartOfLine, writeString.
  destruct command; keeps_stage_steps.
  apply keeps_stage_userDenied_for.
Qed.

Lemma keeps_stage_writeBackupSeed_for (n : nat) (seed : list Z)
    (i byte_counter : Z) :
  keeps_stage (writeBackupSeed_for n seed i byte_counter).
Proof.
  revert i byte_counter. induction n as [|n IH]; intros i bc;
    cbn [writeBackupSeed_for]; unfold clearLcd, gotoStartOfLine, writeString.
  - keeps_stage_steps.
  - keeps_stage_steps; apply IH.
Qed.

Lemma keeps_stage_writeBackupSeed (n : nat) (seed : list Z) (enc : bool)
    (dest : Z) :
  keeps_stage (writeBackupSeed n seed enc dest).
Proof.
  unfold writeBackupSeed, clearLcd, gotoStartOfLine, writeString.
  keeps_stage_steps. apply keeps_stage_writeBackupSeed_for.
Qed.

(** X10. The confirmation workflow and the seed presenter only read the
    staging store: when [userDenied], for any command, or
    [writeBackupSeed] returns, the staged amounts and addresses, their
    count and the fee are what they were at the call. *)
Theorem workflows_leave_the_staging_store_alone :
  (forall (command : AskUserCommand) (m m' : machine) (r : bool),
     userDenied command m = Some (r, m') -> stage (hw m') = stage (hw m))
  /\
  (forall (SEED_LENGTH : nat) (seed : list Z) (is_encrypted : bool)
          (destination_device : Z) (m m' : machine) (r : bool),
     writeBackupSeed SEED_LENGTH seed is_encrypted destination_device m
     = Some (r, m') ->
     stage (hw m') = stage (hw m)).
Proof.
  split.
  - intros command m m' r H. eapply keeps_stage_userDenied. exact H.
  - intros n seed enc dest m m' r H. eapply keeps_stage_writeBackupSeed.
    exact H.
Qed.

Lemma workflows_leave_the_staging_store_alone_witness :
  stage (hw (after (userDenied ASKUSER_SIGN_TRANSACTION) fee_denied))
  = two_outputs_and_fee /\
  stage (hw (after (writeBackupSeed 16 demo_seed true 0) backup_approved))
  = empty_staging.
Proof.
  destruct workflows_leave_the_staging_store_alone as [Hask Hseed].
  split.
  - apply (Hask ASKUSER_SIGN_TRANSACTION fee_denied _ true).
    vm_compute. reflexivity.
  - apply (Hseed 16%nat demo_seed true 0 backup_approved _ false).
    vm_compute. reflexivity.
Defined.

(** ** The sign-transaction screens *)









(** ** The fee *)

(** X13. [setTransactionFee] stores the fee text cut to
    TEXT_AMOUNT_LENGTH - 1 characters with a terminator in the last cell
    and marks the fee as set, leaving the staged outputs and their count
    alone; [clearOutputsSeen] afterwards unsets the fee and empties the
    store, so that a fee never outlives the transaction it was staged
    for. *)
Theorem setTransactionFee_stores_the_fee
    (TEXT_AMOUNT_LENGTH : nat) (text_amount : list ascii) (s : staging) :
  (0 < TEXT_AMOUNT_LENGTH)%nat ->
  let s' := setTransactionFee TEXT_AMOUNT_LENGTH text_amount s in
  transaction_fee_set s' = true /\
  c_str (transaction_fee_amount s')
  = take (TEXT_AMOUNT_LENGTH - 1) (c_str text_amount) /\
  transaction_fee_amount s' !! (TEXT_AMOUNT_LENGTH - 1)%nat = Some NUL /\
  list_amount s' = list_amount s /\
  list_address s' = list_address s /\
  list_index s' = list_index s /\
  transaction_fee_set (clearOutputsSeen s') = false /\
  list_index (clearOutputsSeen s') = 0.
Proof.
  intros H. destruct TEXT_AMOUNT_LENGTH as [|LA]; [lia|].
  replace (S LA - 1)%nat with LA by lia.
  cbv zeta. unfold setTransactionFee, strncpy.
  replace (S LA - 1)%nat with LA by lia.
  cbn [transaction_fee_set transaction_fee_amount list_amount list_address
       list_index clearOutputsSeen].
  split; [reflexivity|]. split; [apply c_str_strncpy|].
  split; [apply terminated_strncpy|]. repeat split.
Qed.

Lemma setTransactionFee_stores_the_fee_witness :
  let s' := setTransactionFee 5 (literal "0.00051") small_staging in
  transaction_fee_set s' = true /\
  c_str (transaction_fee_amount s') = list_ascii_of_string "0.00" /\
  transaction_fee_set (clearOutputsSeen s') = false.
Proof.
  destruct (setTransactionFee_stores_the_fee 5 (literal "0.00051")
              small_staging ltac:(lia))
    as (H1 & H2 & _ & _ & _ & _ & H7 & _).
  split; [exact H1|]. split; [exact H2|exact H7].
Defined.

(** ** Hexadecimal digits *)

Lemma hex_value_hex_digit (t : Z) :
  0 <= t < 16 -> hex_value (hex_digit t) = Some t.
Proof.
  intros Ht.
  assert (Hcases : t = 0 \/ t = 1 \/ t = 2 \/ t = 3 \/ t = 4 \/ t = 5 \/ t = 6
                   \/ t = 7 \/ t = 8 \/ t = 9 \/ t = 10 \/ t = 11 \/ t = 12
                   \/ t = 13 \/ t = 14 \/ t = 15) by lia.
  repeat (destruct Hcases as [->|Hcases]; [reflexivity|]).
  subst t. reflexivity.
Qed.

(** X14. [nibbleToHex] looks at the low four bits of its argument only and
    answers the lower-case hexadecimal digit of their value; the two digits
    the seed presenter writes for a byte determine the byte:
    16 * (first digit) + (second digit). *)
Theorem nibbleToHex_digits_give_back_the_byte :
  (forall nibble : Z,
     hex_value (nibbleToHex nibble) = Some (nibble mod 16)) /\
  (forall one_byte : Z,
     0 <= one_byte < 256 ->
     exists hi lo : Z,
       hex_value (nibbleToHex (u8 (Z.shiftr one_byte 4))) = Some hi /\
       hex_value (nibbleToHex one_byte) = Some lo /\
       16 * hi + lo = one_byte).
Proof.
  assert (H1 : forall nibble : Z,
             hex_value (nibbleToHex nibble) = Some (nibble mod 16)).
  { intros x. rewrite nibbleToHex_hex_digit. apply hex_value_hex_digit.
    apply Z.mod_pos_bound. lia. }
  split; [exact H1|].
  intros b Hb. exists (b / 16), (b mod 16).
  rewrite !H1. split; [|split; [reflexivity|]].
  - f_equal. rewrite Z.shiftr_div_pow2 by lia. change (2 ^ 4) with 16.
    unfold u8. rewrite (Z.mod_small (b / 16) 256).
    + apply Z.mod_small. split; [apply Z.div_pos; lia|].
      apply Z.div_lt_upper_bound; lia.
    + split; [apply Z.div_pos; lia|]. apply Z.div_lt_upper_bound; lia.
  - pose proof (Z.div_mod b 16 ltac:(lia)). lia.
Qed.

Lemma nibbleToHex_digits_give_back_the_byte_witness :
  exists hi lo : Z,
    hex_value (nibbleToHex (u8 (Z.shiftr 175 4))) = Some hi /\
    hex_value (nibbleToHex 175) = Some lo /\
    16 * hi + lo = 175.
Proof.
  apply (proj2 nibbleToHex_digits_give_back_the_byte 175). lia.
Defined.

(** ** The seed presenter, any length *)

Lemma seed_run_bytes (k : nat) : forall (seed : list Z) (i bc : Z) (d : display),
  0 <= i -> (Z.to_nat i + k <= length seed)%nat ->
  seed_run k seed i bc d
  = seed_bytes (take k (drop (Z.to_nat i) seed)) bc d.
Proof.
  induction k as [|k IH]; intros seed i bc d Hi Hlen; [reflexivity|].
  cbn [seed_run].
  destruct (drop (Z.to_nat i) seed) as [|b rest] eqn:E.
  { apply (f_equal (@length _)) in E. rewrite length_drop in E. cbn in E. lia. }
  assert (Hb : seed !! Z.to_nat i = Some b).
  { rewrite <- (Nat.add_0_r (Z.to_nat i)), <- lookup_drop, E. reflexivity. }
  assert (Hrest : drop (Z.to_nat (i + 1)) seed = rest).
  { replace (Z.to_nat (i + 1)) with (Z.to_nat i + 1)%nat by lia.
    rewrite <- drop_drop, E. reflexivity. }
  rewrite Hb. cbn [default from_option take seed_bytes]. cbv beta.
  rewrite IH by lia. rewrite Hrest. reflexivity.
Qed.

Lemma write_line_single (b : Z) (d : display) :
  writeString_disp (hex_line [b] ++ [NUL]) false d
  = writeString_disp (seed_text 0 b) false d.
Proof. cbn [hex_line app]. rewrite hex_pair_nibbles. reflexivity. Qed.

Ltac page_script :=
  unfold page_disp; cbn [take drop length Nat.ltb Nat.leb];
  rewrite ?write_line_groups, ?write_line_single;
  cbn [hex_line app]; rewrite ?writeString_disp_nothing;
  reflexivity.

Lemma seed_bytes_page (bytes : list Z) (d : display) :
  (1 <= length bytes <= 12)%nat ->
  seed_bytes bytes 0 d = page_disp bytes d.
Proof.
  intros H.
  destruct bytes as [|b0 bytes]; [cbn in H; lia|].
  destruct bytes as [|b1 bytes]; [page_script|].
  destruct bytes as [|b2 bytes]; [page_script|].
  destruct bytes as [|b3 bytes]; [page_script|].
  destruct bytes as [|b4 bytes]; [page_script|].
  destruct bytes as [|b5 bytes]; [page_script|].
  destruct bytes as [|b6 bytes]; [page_script|].
  destruct bytes as [|b7 bytes]; [page_script|].
  destruct bytes as [|b8 bytes]; [page_script|].
  destruct bytes as [|b9 bytes]; [page_script|].
  destruct bytes as [|b10 bytes]; [page_script|].
  destruct bytes as [|b11 bytes]; [page_script|].
  destruct bytes as [|b12 bytes]; [page_script|].
  cbn in H. lia.
Qed.

(** ** Lines that fit *)

Lemma ISR_scroll_fitting (d : display) :
  max_line_size d <= NUM_COLUMNS ->
  exists c, ISR_scroll d = set_scroll_counter c d.
Proof.
  intros H. unfold ISR_scroll.
  cbn [scroll_counter max_line_size set_scroll_counter].
  replace (max_line_size d >? NUM_COLUMNS) with false
    by (symmetry; rewrite Z.gtb_ltb; apply Z.ltb_ge; exact H).
  destruct (u16 (scroll_counter d - 1) =? 0); eexists; reflexivity.
Qed.

Lemma run_ticks_fitting (ps : list pin_reads) (w : world) :
  max_line_size (disp w) <= NUM_COLUMNS ->
  exists c, disp (run_ticks ps w) = set_scroll_counter c (disp w).
Proof.
  intros H. induction ps as [|p ps IH] using rev_ind.
  - exists (scroll_counter (disp w)). cbn. destruct (disp w). reflexivity.
  - rewrite run_ticks_snoc, disp_ISR. destruct IH as [c IH]. rewrite IH.
    destruct (ISR_scroll_fitting (set_scroll_counter c (disp w))) as [c' E];
      [exact H|].
    exists c'. rewrite E. reflexivity.
Qed.

Lemma run_ticks_fitting_bus (ps : list pin_reads) (w : world) :
  max_line_size (disp w) <= NUM_COLUMNS ->
  lcd_bus (disp (run_ticks ps w)) = lcd_bus (disp w).
Proof.
  intros H. destruct (run_ticks_fitting ps w H) as [c E].
  rewrite E. reflexivity.
Qed.

(** X16. A display whose longest line fits the 16 columns never scrolls:
    whatever the number of ticks, the interrupt changes nothing of the
    display state but its countdown, and sends nothing. *)
Theorem lines_that_fit_never_scroll (ps : list pin_reads) (w : world) :
  max_line_size (disp w) <= NUM_COLUMNS ->
  (exists c, disp (run_ticks ps w) = set_scroll_counter c (disp w)) /\
  lcd_bus (disp (run_ticks ps w)) = lcd_bus (disp w).
Proof.
  intros H. destruct (run_ticks_fitting ps w H) as [c E].
  split; [exists c; exact E|]. rewrite E. reflexivity.
Qed.

Lemma lines_that_fit_never_scroll_witness :
  let w := run_ops [OpGotoStartOfLine 0; OpWriteString str_stream_error true]
             power_on in
  max_line_size (disp w) <= NUM_COLUMNS /\
  lcd_bus (disp (run_ticks (replicate 2000 pins_released) w))
  = lcd_bus (disp w).
Proof.
  cbv zeta. split; [vm_compute; discriminate|].
  apply lines_that_fit_never_scroll. vm_compute. discriminate.
Defined.

(** ** Pins and the 4-bit transport *)

Lemma testbit_u8 (x k : Z) :
  0 <= k < 8 -> Z.testbit (u8 x) k = Z.testbit x k.
Proof.
  intros H. unfold u8. change 256 with (2 ^ 8).
  apply Z.mod_pow2_bits_low. lia.
Qed.

Lemma testbit_pin_mask (p k : Z) :
  0 <= p < 8 -> 0 <= k < 8 ->
  Z.testbit (u8 (Z.shiftl 1 p)) k = (k =? p).
Proof.
  intros Hp Hk. rewrite testbit_u8 by lia.
  rewrite Z.shiftl_1_l, Z.pow2_bits_eqb by lia.
  apply Z.eqb_sym.
Qed.

Lemma testbit_set (x p k : Z) :
  0 <= p < 8 -> 0 <= k < 8 ->
  Z.testbit (u8 (Z.lor x (u8 (Z.shiftl 1 p)))) k
  = if k =? p then true else Z.testbit x k.
Proof.
  intros Hp Hk.
  rewrite testbit_u8, Z.lor_spec, testbit_pin_mask by lia.
  destruct (k =? p); [apply orb_true_r|apply orb_false_r].
Qed.

Lemma testbit_clear (x p k : Z) :
  0 <= p < 8 -> 0 <= k < 8 ->
  Z.testbit (u8 (Z.land x (Z.lnot (u8 (Z.shiftl 1 p))))) k
  = if k =? p then false else Z.testbit x k.
Proof.
  intros Hp Hk.
  rewrite testbit_u8, Z.land_spec, Z.lnot_spec, testbit_pin_mask by lia.
  destruct (k =? p); [apply andb_false_r|apply andb_true_r].
Qed.

Ltac pin_cases pin q :=
  unfold port_bit, direction_bit, Pins.writeArduinoPin,
    Pins.setArduinoPinInput, Pins.store;
  destruct (pin <? 8) eqn:Hpin; destruct (q <? 8) eqn:Hq;
  [apply Z.ltb_lt in Hpin; apply Z.ltb_lt in Hq
  |apply Z.ltb_lt in Hpin; apply Z.ltb_ge in Hq
  |apply Z.ltb_ge in Hpin; apply Z.ltb_lt in Hq
  |apply Z.ltb_ge in Hpin; apply Z.ltb_ge in Hq].

Ltac other_pin q pin :=
  replace (q =? pin) with false by (symmetry; apply Z.eqb_neq; lia).

Ltac same_or_shifted q pin :=
  replace (q - 8 =? pin - 8) with (q =? pin)
    by (destruct (Z.eqb_spec q pin), (Z.eqb_spec (q - 8) (pin - 8));
        reflexivity || lia).

Lemma port_bit_writeArduinoPin (pin value : Z) (c : Pins.mcu) (q : Z) :
  0 <= pin < 16 -> 0 <= q < 16 ->
  port_bit (Pins.io (Pins.writeArduinoPin pin value c)) q
  = if q =? pin then negb (value =? 0) else port_bit (Pins.io c) q.
Proof.
  intros Hp Hq'. pin_cases pin q; cbv zeta;
    destruct (value =? 0);
    cbn [negb Pins.io Pins.PORTD Pins.PORTB Pins.set_DDRD Pins.set_DDRB
         Pins.set_PORTD Pins.set_PORTB Pins.DDRD Pins.DDRB];
    try (other_pin q pin; reflexivity);
    try (rewrite testbit_clear by lia);
    try (rewrite testbit_set by lia);
    try same_or_shifted q pin;
    destruct (q =? pin); reflexivity.
Qed.

Lemma direction_bit_writeArduinoPin (pin value : Z) (c : Pins.mcu) (q : Z) :
  0 <= pin < 16 -> 0 <= q < 16 ->
  direction_bit (Pins.io (Pins.writeArduinoPin pin value c)) q
  = if q =? pin then true else direction_bit (Pins.io c) q.
Proof.
  intros Hp Hq'. pin_cases pin q; cbv zeta;
    destruct (value =? 0);
    cbn [negb Pins.io Pins.PORTD Pins.PORTB Pins.set_DDRD Pins.set_DDRB
         Pins.set_PORTD Pins.set_PORTB Pins.DDRD Pins.DDRB];
    try (other_pin q pin; reflexivity);
    try (rewrite testbit_set by lia);
    try same_or_shifted q pin;
    destruct (q =? pin); reflexivity.
Qed.

(** X18. [writeArduinoPin] makes the pin an output and drives it high for
    a non-zero value, low for zero; of the sixteen pins of the two ports,
    no other changes its direction or its level. *)
Theorem writeArduinoPin_drives_one_pin
    (pin value : Z) (c : Pins.mcu) (q : Z) :
  0 <= pin < 16 -> 0 <= q < 16 ->
  let r' := Pins.io (Pins.writeArduinoPin pin value c) in
  direction_bit r' q = (if q =? pin then true else direction_bit (Pins.io c) q)
  /\
  port_bit r' q
  = (if q =? pin then negb (value =? 0) else port_bit (Pins.io c) q).
Proof.
  intros Hp Hq. cbv zeta. split.
  - apply direction_bit_writeArduinoPin; assumption.
  - apply port_bit_writeArduinoPin; assumption.
Qed.

Lemma writeArduinoPin_drives_one_pin_witness :
  let r' := Pins.io (Pins.writeArduinoPin Pins.RS_PIN 1 reset_pins) in
  direction_bit r' Pins.RS_PIN
  = (if Pins.RS_PIN =? Pins.RS_PIN then true
     else direction_bit (Pins.io reset_pins) Pins.RS_PIN)
  /\
  port_bit r' Pins.RS_PIN
  = (if Pins.RS_PIN =? Pins.RS_PIN then negb (1 =? 0)
     else port_bit (Pins.io reset_pins) Pins.RS_PIN).
Proof.
  apply (writeArduinoPin_drives_one_pin Pins.RS_PIN 1 reset_pins Pins.RS_PIN);
    unfold Pins.RS_PIN; lia.
Defined.

(** X19. [setArduinoPinInput] makes the pin an input and switches its
    pull-up on; no other pin changes its direction or its output bit. *)
Theorem setArduinoPinInput_makes_a_pulled_up_input
    (pin : Z) (c : Pins.mcu) (q : Z) :
  0 <= pin < 16 -> 0 <= q < 16 ->
  let r' := Pins.io (Pins.setArduinoPinInput pin c) in
  direction_bit r' q
  = (if q =? pin then false else direction_bit (Pins.io c) q) /\
  port_bit r' q = (if q =? pin then true else port_bit (Pins.io c) q).
Proof.
  intros Hp Hq'. cbv zeta. split.
  - pin_cases pin q; cbv zeta;
      cbn [negb Pins.io Pins.PORTD Pins.PORTB Pins.set_DDRD Pins.set_DDRB
           Pins.set_PORTD Pins.set_PORTB Pins.DDRD Pins.DDRB];
      try (other_pin q pin; reflexivity);
      try (rewrite testbit_clear by lia);
      try same_or_shifted q pin;
      destruct (q =? pin); reflexivity.
  - pin_cases pin q; cbv zeta;
      cbn [negb Pins.io Pins.PORTD Pins.PORTB Pins.set_DDRD Pins.set_DDRB
           Pins.set_PORTD Pins.set_PORTB Pins.DDRD Pins.DDRB];
      try (other_pin q pin; reflexivity);
      try (rewrite testbit_set by lia);
      try same_or_shifted q pin;
      destruct (q =? pin); reflexivity.
Qed.

Lemma setArduinoPinInput_makes_a_pulled_up_input_witness :
  let r' := Pins.io (Pins.setArduinoPinInput ACCEPT_PIN reset_pins) in
  direction_bit r' CANCEL_PIN
  = (if CANCEL_PIN =? ACCEPT_PIN then false
     else direction_bit (Pins.io reset_pins) CANCEL_PIN) /\
  port_bit r' CANCEL_PIN
  = (if CANCEL_PIN =? ACCEPT_PIN then true
     else port_bit (Pins.io reset_pins) CANCEL_PIN).
Proof.
  apply (setArduinoPinInput_makes_a_pulled_up_input
           ACCEPT_PIN reset_pins CANCEL_PIN);
    unfold ACCEPT_PIN, CANCEL_PIN; lia.
Defined.

Lemma last_cons_default {A : Type} (l : list A) (x d1 d2 : A) :
  default d1 (last (x :: l)) = default d2 (last (x :: l)).
Proof.
  revert x. induction l as [|y l IH]; intros x; [reflexivity|].
  change (last (x :: y :: l)) with (last (y :: l)). apply IH.
Qed.

Lemma latched_app (prev : Pins.ports) (l1 l2 : list Pins.ports) :
  latched prev (l1 ++ l2)
  = latched prev l1 ++ latched (default prev (last l1)) l2.
Proof.
  revert prev. induction l1 as [|r l1 IH]; intros prev; [reflexivity|].
  cbn [app latched]. rewrite IH, <- app_assoc.
  destruct l1 as [|r' l1]; [reflexivity|].
  change (last (r :: r' :: l1)) with (last (r' :: l1)).
  rewrite (last_cons_default l1 r' prev r). reflexivity.
Qed.

Lemma sends_trans (c c1 c2 : Pins.mcu) (o1 o2 : list (bool * Z)) :
  sends c c1 o1 -> sends c1 c2 o2 -> sends c c2 (o1 ++ o2).
Proof.
  intros (n1 & L1 & O1 & E1) (n2 & L2 & O2 & E2).
  exists (n1 ++ n2). split; [|split].
  - rewrite L2, L1, app_assoc. reflexivity.
  - rewrite latched_app, O1, E1, O2. reflexivity.
  - rewrite last_app. destruct (last n2) as [r|]; [exact E2|].
    cbn [default from_option] in *. rewrite E1. exact E2.
Qed.

Lemma port_bit_same_ports (r1 r : Pins.ports) (q : Z) :
  Pins.PORTB r1 = Pins.PORTB r -> Pins.PORTD r1 = Pins.PORTD r ->
  port_bit r1 q = port_bit r q.
Proof. intros HB HD. unfold port_bit. rewrite HB, HD. reflexivity. Qed.

Lemma writeArduinoPin_stores (pin value : Z) (c : Pins.mcu) :
  exists r1,
    Pins.io_log (Pins.writeArduinoPin pin value c)
    = Pins.io_log c ++ [r1; Pins.io (Pins.writeArduinoPin pin value c)] /\
    Pins.PORTB r1 = Pins.PORTB (Pins.io c) /\
    Pins.PORTD r1 = Pins.PORTD (Pins.io c).
Proof.
  unfold Pins.writeArduinoPin, Pins.store.
  destruct (pin <? 8); destruct (negb (value =? 0)); cbv zeta;
    cbn [Pins.io Pins.io_log];
    eexists; (split; [rewrite <- app_assoc; reflexivity|]);
    split; reflexivity.
Qed.

Lemma data_lines_writeArduinoPin_E (value : Z) (c : Pins.mcu) :
  data_lines (Pins.io (Pins.writeArduinoPin Pins.E_PIN value c))
  = data_lines (Pins.io c).
Proof.
  unfold data_lines, Pins.E_PIN, Pins.D7_PIN, Pins.D6_PIN, Pins.D5_PIN,
    Pins.D4_PIN.
  rewrite !port_bit_writeArduinoPin by lia. reflexivity.
Qed.

(** What the display latches from one [writeArduinoPin]: nothing, unless
    the call takes E from high to low. *)
Lemma sends_writeArduinoPin (pin value : Z) (c : Pins.mcu) :
  0 <= pin < 16 ->
  sends c (Pins.writeArduinoPin pin value c)
    (if (pin =? Pins.E_PIN) && port_bit (Pins.io c) Pins.E_PIN
        && (value =? 0)
     then [(port_bit (Pins.io c) Pins.RS_PIN, data_lines (Pins.io c))]
     else []).
Proof.
  intros Hp.
  destruct (writeArduinoPin_stores pin value c) as (r1 & L & HB & HD).
  exists [r1; Pins.io (Pins.writeArduinoPin pin value c)].
  split; [exact L|]. split; [|reflexivity].
  cbn [latched].
  rewrite !(port_bit_same_ports r1 (Pins.io c)) by assumption.
  rewrite andb_negb_r. cbn [app]. rewrite app_nil_r.
  rewrite (port_bit_writeArduinoPin pin value c Pins.E_PIN)
    by (unfold Pins.E_PIN; lia).
  rewrite (Z.eqb_sym pin Pins.E_PIN).
  destruct (Z.eqb_spec Pins.E_PIN pin) as [<-|Hne].
  - rewrite negb_involutive, data_lines_writeArduinoPin_E.
    rewrite (port_bit_writeArduinoPin Pins.E_PIN value c Pins.RS_PIN)
      by (unfold Pins.E_PIN, Pins.RS_PIN; lia).
    change (Pins.RS_PIN =? Pins.E_PIN) with false. cbv iota.
    cbn [andb]. rewrite andb_comm. reflexivity.
  - rewrite andb_negb_r. reflexivity.
Qed.

Lemma nibble_of_bits (value : Z) :
  0 <= value < 256 ->
  8 * Z.b2z (negb (u8 (Z.land value 8) =? 0))
  + 4 * Z.b2z (negb (u8 (Z.land value 4) =? 0))
  + 2 * Z.b2z (negb (u8 (Z.land value 2) =? 0))
  + Z.b2z (negb (u8 (Z.land value 1) =? 0))
  = value mod 16.
Proof.
  intros H.
  assert (A : forallb
            (fun v =>
               8 * Z.b2z (negb (u8 (Z.land v 8) =? 0))
               + 4 * Z.b2z (negb (u8 (Z.land v 4) =? 0))
               + 2 * Z.b2z (negb (u8 (Z.land v 2) =? 0))
               + Z.b2z (negb (u8 (Z.land v 1) =? 0))
               =? v mod 16)
            (map Z.of_nat (seq 0 256)) = true) by (vm_compute; reflexivity).
  rewrite forallb_forall in A.
  apply Z.eqb_eq, A. apply in_map_iff. exists (Z.to_nat value).
  split; [lia|]. apply in_seq. lia.
Qed.

(** The pins after [write4]. *)
Lemma port_bit_write4 (value : Z) (c : Pins.mcu) (q : Z) :
  0 <= q < 16 ->
  port_bit (Pins.io (Pins.write4 value c)) q
  = if q =? Pins.E_PIN then false
    else if q =? Pins.D7_PIN then negb (u8 (Z.land value 8) =? 0)
    else if q =? Pins.D6_PIN then negb (u8 (Z.land value 4) =? 0)
    else if q =? Pins.D5_PIN then negb (u8 (Z.land value 2) =? 0)
    else if q =? Pins.D4_PIN then negb (u8 (Z.land value 1) =? 0)
    else port_bit (Pins.io c) q.
Proof.
  intros Hq. unfold Pins.write4. cbv zeta.
  unfold Pins.E_PIN, Pins.D7_PIN, Pins.D6_PIN, Pins.D5_PIN, Pins.D4_PIN.
  rewrite !port_bit_writeArduinoPin by lia.
  destruct (q =? 11); reflexivity.
Qed.

Lemma direction_bit_write4 (value : Z) (c : Pins.mcu) (q : Z) :
  0 <= q < 16 ->
  direction_bit (Pins.io (Pins.write4 value c)) q
  = if (q =? Pins.E_PIN) || (q =? Pins.D7_PIN) || (q =? Pins.D6_PIN)
       || (q =? Pins.D5_PIN) || (q =? Pins.D4_PIN)
    then true else direction_bit (Pins.io c) q.
Proof.
  intros Hq. unfold Pins.write4. cbv zeta.
  unfold Pins.E_PIN, Pins.D7_PIN, Pins.D6_PIN, Pins.D5_PIN, Pins.D4_PIN.
  rewrite !direction_bit_writeArduinoPin by lia.
  destruct (q =? 11), (q =? 2), (q =? 3), (q =? 4), (q =? 5); reflexivity.
Qed.

Lemma sends_write4 (value : Z) (c : Pins.mcu) :
  0 <= value < 256 ->
  port_bit (Pins.io c) Pins.E_PIN = false ->
  sends c (Pins.write4 value c)
    [(port_bit (Pins.io c) Pins.RS_PIN, value mod 16)].
Proof.
  intros Hv HE. unfold Pins.write4. cbv zeta.
  set (c1 := Pins.writeArduinoPin Pins.D4_PIN (u8 (Z.land value 1)) c).
  set (c2 := Pins.writeArduinoPin Pins.D5_PIN (u8 (Z.land value 2)) c1).
  set (c3 := Pins.writeArduinoPin Pins.D6_PIN (u8 (Z.land value 4)) c2).
  set (c4 := Pins.writeArduinoPin Pins.D7_PIN (u8 (Z.land value 8)) c3).
  set (c5 := Pins.writeArduinoPin Pins.E_PIN 0 c4).
  set (c6 := Pins.writeArduinoPin Pins.E_PIN 1 c5).
  pose proof (sends_writeArduinoPin Pins.D4_PIN (u8 (Z.land value 1)) c) as S1.
  pose proof (sends_writeArduinoPin Pins.D5_PIN (u8 (Z.land value 2)) c1) as S2.
  pose proof (sends_writeArduinoPin Pins.D6_PIN (u8 (Z.land value 4)) c2) as S3.
  pose proof (sends_writeArduinoPin Pins.D7_PIN (u8 (Z.land value 8)) c3) as S4.
  pose proof (sends_writeArduinoPin Pins.E_PIN 0 c4) as S5.
  pose proof (sends_writeArduinoPin Pins.E_PIN 1 c5) as S6.
  pose proof (sends_writeArduinoPin Pins.E_PIN 0 c6) as S7.
  fold c1 in S1. fold c2 in S2. fold c3 in S3. fold c4 in S4. fold c5 in S5.
  fold c6 in S6.
  assert (E4 : port_bit (Pins.io c4) Pins.E_PIN = false).
  { subst c4 c3 c2 c1.
    unfold Pins.E_PIN, Pins.D7_PIN, Pins.D6_PIN, Pins.D5_PIN, Pins.D4_PIN.
    rewrite !port_bit_writeArduinoPin by lia. exact HE. }
  assert (E6 : port_bit (Pins.io c6) Pins.E_PIN = true).
  { subst c6. unfold Pins.E_PIN.
    rewrite port_bit_writeArduinoPin by lia. reflexivity. }
  assert (R6 : port_bit (Pins.io c6) Pins.RS_PIN
               = port_bit (Pins.io c) Pins.RS_PIN).
  { subst c6 c5 c4 c3 c2 c1.
    unfold Pins.RS_PIN, Pins.E_PIN, Pins.D7_PIN, Pins.D6_PIN, Pins.D5_PIN,
      Pins.D4_PIN.
    rewrite !port_bit_writeArduinoPin by lia. reflexivity. }
  assert (D6 : data_lines (Pins.io c6) = value mod 16).
  { subst c6 c5. rewrite !data_lines_writeArduinoPin_E.
    subst c4 c3 c2 c1.
    unfold data_lines, Pins.D7_PIN, Pins.D6_PIN, Pins.D5_PIN, Pins.D4_PIN.
    rewrite !port_bit_writeArduinoPin by lia.
    cbn [Z.eqb Pos.eqb]. apply nibble_of_bits. exact Hv. }
  rewrite E4 in S5. rewrite E6, R6, D6 in S7.
  change (Pins.D4_PIN =? Pins.E_PIN) with false in S1.
  change (Pins.D5_PIN =? Pins.E_PIN) with false in S2.
  change (Pins.D6_PIN =? Pins.E_PIN) with false in S3.
  change (Pins.D7_PIN =? Pins.E_PIN) with false in S4.
  change (Pins.E_PIN =? Pins.E_PIN) with true in S5, S6, S7.
  change (1 =? 0) with false in S6. change (0 =? 0) with true in S7.
  rewrite andb_false_r in S6.
  cbn [andb] in S1, S2, S3, S4, S5, S6, S7.
  specialize (S1 ltac:(unfold Pins.D4_PIN; lia)).
  specialize (S2 ltac:(unfold Pins.D5_PIN; lia)).
  specialize (S3 ltac:(unfold Pins.D6_PIN; lia)).
  specialize (S4 ltac:(unfold Pins.D7_PIN; lia)).
  specialize (S5 ltac:(unfold Pins.E_PIN; lia)).
  specialize (S6 ltac:(unfold Pins.E_PIN; lia)).
  specialize (S7 ltac:(unfold Pins.E_PIN; lia)).
  pose proof (sends_trans _ _ _ _ _ S1
               (sends_trans _ _ _ _ _ S2
                 (sends_trans _ _ _ _ _ S3
                   (sends_trans _ _ _ _ _ S4
                     (sends_trans _ _ _ _ _ S5
                       (sends_trans _ _ _ _ _ S6 S7)))))) as S.
  exact S.
Qed.

(** X20. [write4] called with E low gives the display exactly one falling
    edge of E, at which the data lines carry the low nibble of the value
    (D7 the most significant bit) and RS is as it was; it leaves E low and
    touches neither the direction nor the output bit of any pin other than
    E and the four data pins: the button pins keep their pull-ups. *)
Theorem write4_strobes_the_low_nibble (value : Z) (c : Pins.mcu) :
  0 <= value < 256 ->
  port_bit (Pins.io c) Pins.E_PIN = false ->
  let c' := Pins.write4 value c in
  sends c c' [(port_bit (Pins.io c) Pins.RS_PIN, value mod 16)] /\
  port_bit (Pins.io c') Pins.E_PIN = false /\
  forall q, 0 <= q < 16 ->
    q <> Pins.E_PIN -> q <> Pins.D7_PIN -> q <> Pins.D6_PIN ->
    q <> Pins.D5_PIN -> q <> Pins.D4_PIN ->
    direction_bit (Pins.io c') q = direction_bit (Pins.io c) q /\
    port_bit (Pins.io c') q = port_bit (Pins.io c) q.
Proof.
  intros Hv HE. cbv zeta. split; [apply sends_write4; assumption|].
  split.
  - rewrite port_bit_write4 by (unfold Pins.E_PIN; lia). reflexivity.
  - intros q Hq H1 H2 H3 H4 H5.
    rewrite direction_bit_write4, port_bit_write4 by assumption.
    apply Z.eqb_neq in H1, H2, H3, H4, H5.
    rewrite H1, H2, H3, H4, H5. split; reflexivity.
Qed.

Lemma write4_strobes_the_low_nibble_witness :
  sends reset_pins (Pins.write4 3 reset_pins)
    [(port_bit (Pins.io reset_pins) Pins.RS_PIN, 3 mod 16)].
Proof.
  apply (write4_strobes_the_low_nibble 3 reset_pins); [lia|reflexivity].
Defined.

Lemma high_nibble (value : Z) :
  0 <= value < 256 ->
  0 <= u8 (Z.shiftr value 4) < 256 /\
  u8 (Z.shiftr value 4) mod 16 = value / 16.
Proof.
  intros H. rewrite Z.shiftr_div_pow2 by lia. change (2 ^ 4) with 16.
  unfold u8.
  assert (0 <= value / 16 < 16)
    by (split; [apply Z.div_pos; lia|apply Z.div_lt_upper_bound; lia]).
  rewrite (Z.mod_small (value / 16) 256) by lia.
  rewrite Z.mod_small by lia. lia.
Qed.

Lemma sends_write8 (value : Z) (c : Pins.mcu) :
  0 <= value < 256 ->
  port_bit (Pins.io c) Pins.E_PIN = false ->
  sends c (Pins.write8 value c)
    [(port_bit (Pins.io c) Pins.RS_PIN, value / 16);
     (port_bit (Pins.io c) Pins.RS_PIN, value mod 16)].
Proof.
  intros Hv HE. unfold Pins.write8. cbv zeta.
  destruct (high_nibble value Hv) as [Hh Hd].
  pose proof (sends_write4 (u8 (Z.shiftr value 4)) c Hh HE) as S1.
  rewrite Hd in S1.
  set (c1 := Pins.write4 (u8 (Z.shiftr value 4)) c) in *.
  assert (E1 : port_bit (Pins.io c1) Pins.E_PIN = false).
  { subst c1. rewrite port_bit_write4 by (unfold Pins.E_PIN; lia).
    reflexivity. }
  assert (R1 : port_bit (Pins.io c1) Pins.RS_PIN
               = port_bit (Pins.io c) Pins.RS_PIN).
  { subst c1. rewrite port_bit_write4 by (unfold Pins.RS_PIN; lia).
    reflexivity. }
  pose proof (sends_write4 value c1 Hv E1) as S2. rewrite R1 in S2.
  exact (sends_trans _ _ _ _ _ S1 S2).
Qed.

(** X21. [write8] called with E low gives the display two falling edges
    of E: the high nibble of the byte, then the low nibble, both with RS as
    it was. In 4-bit mode these two nibbles are one transfer of the byte:
    the entry that the abstract transport appends to the bus when its RS
    line has the same level. E is low again afterwards, and no pin other
    than E and the data pins is touched. *)
Theorem write8_transfers_the_byte
    (value : Z) (c : Pins.mcu) (d : display) :
  0 <= value < 256 ->
  port_bit (Pins.io c) Pins.E_PIN = false ->
  rs_pin d = port_bit (Pins.io c) Pins.RS_PIN ->
  let c' := Pins.write8 value c in
  let nibbles := [(rs_pin d, value / 16); (rs_pin d, value mod 16)] in
  sends c c' nibbles /\
  lcd_bus (write8 value d) = lcd_bus d ++ transfers nibbles /\
  port_bit (Pins.io c') Pins.E_PIN = false /\
  forall q, 0 <= q < 16 ->
    q <> Pins.E_PIN -> q <> Pins.D7_PIN -> q <> Pins.D6_PIN ->
    q <> Pins.D5_PIN -> q <> Pins.D4_PIN ->
    direction_bit (Pins.io c') q = direction_bit (Pins.io c) q /\
    port_bit (Pins.io c') q = port_bit (Pins.io c) q.
Proof.
  intros Hv HE Hrs. cbv zeta. split; [|split; [|split]].
  - rewrite Hrs. apply sends_write8; assumption.
  - cbn [transfers lcd_bus write8]. unfold u8.
    rewrite (Z.mod_small value 256) by lia.
    replace (16 * (value / 16) + value mod 16) with value
      by (rewrite <- Z.div_mod; lia).
    reflexivity.
  - unfold Pins.write8. cbv zeta.
    rewrite port_bit_write4 by (unfold Pins.E_PIN; lia). reflexivity.
  - intros q Hq H1 H2 H3 H4 H5. unfold Pins.write8. cbv zeta.
    rewrite !direction_bit_write4, !port_bit_write4 by assumption.
    apply Z.eqb_neq in H1, H2, H3, H4, H5.
    rewrite H1, H2, H3, H4, H5. split; reflexivity.
Qed.

Lemma write8_transfers_the_byte_witness :
  let c' := Pins.write8 40 reset_pins in
  let nibbles :=
    [(rs_pin blank_display, 40 / 16); (rs_pin blank_display, 40 mod 16)] in
  sends reset_pins c' nibbles /\
  lcd_bus (write8 40 blank_display)
  = lcd_bus blank_display ++ transfers nibbles.
Proof.
  cbv zeta.
  destruct (write8_transfers_the_byte 40 reset_pins blank_display)
    as (S & B & _); [lia|reflexivity|reflexivity|].
  split; [exact S|exact B].
Defined.

(** X22. Selecting the register: [writeArduinoPin(RS_PIN, value)] gives
    the display no falling edge of E (nothing is latched), leaves E as it
    was, and puts the RS line at the level the abstract transport records
    for it. *)
Theorem writeArduinoPin_RS_selects_the_register
    (value : Z) (c : Pins.mcu) (d : display) :
  let c' := Pins.writeArduinoPin Pins.RS_PIN value c in
  sends c c' [] /\
  port_bit (Pins.io c') Pins.RS_PIN = rs_pin (writeArduinoPin_RS value d) /\
  port_bit (Pins.io c') Pins.E_PIN = port_bit (Pins.io c) Pins.E_PIN.
Proof.
  cbv zeta. split; [|split].
  - apply (sends_writeArduinoPin Pins.RS_PIN value c).
    unfold Pins.RS_PIN. lia.
  - rewrite port_bit_writeArduinoPin by (unfold Pins.RS_PIN; lia).
    reflexivity.
  - rewrite port_bit_writeArduinoPin
      by (unfold Pins.RS_PIN, Pins.E_PIN; lia).
    reflexivity.
Qed.

(** ** Glitches and released buttons *)

(** X23. A glitch is ignored: from a counter of 0, up to seven ticks that
    disagree with the debounced state followed by one tick that agrees
    with it leave the state as it was and the counter at 0 again. *)
Theorem short_glitch_is_ignored
    (ch : channel) (w : world) (ps : list pin_reads) (p : pin_reads) :
  debounce_of ch w = 0 ->
  Z.of_nat (length ps) < DEBOUNCE_COUNT ->
  Forall (fun q => disagrees ch q (button_of ch w) = true) ps ->
  disagrees ch p (button_of ch w) = false ->
  button_of ch (run_ticks (ps ++ [p]) w) = button_of ch w /\
  debounce_of ch (run_ticks (ps ++ [p]) w) = 0.
Proof.
  intros H0 Hlen Hall Hp.
  destruct (disagreeing_ticks_count ch w ps H0 Hlen Hall) as [Hb Hc].
  rewrite run_ticks_snoc, ISR_button, ISR_debounce, Hb, Hp.
  split; reflexivity.
Qed.

Lemma short_glitch_is_ignored_witness :
  button_of AcceptChannel
    (run_ticks (replicate 7 pins_accept ++ [pins_released]) power_on)
  = button_of AcceptChannel power_on /\
  debounce_of AcceptChannel
    (run_ticks (replicate 7 pins_accept ++ [pins_released]) power_on) = 0.
Proof.
  apply (short_glitch_is_ignored AcceptChannel power_on
           (replicate 7 pins_accept) pins_released).
  - reflexivity.
  - vm_compute. reflexivity.
  - repeat constructor.
  - reflexivity.
Defined.

Lemma run_ticks_channel (ch : channel) (ps : list pin_reads) (w : world) :
  (button_of ch (run_ticks ps w), debounce_of ch (run_ticks ps w))
  = fold_left (fun st p => debounce_step (temp_of ch p) st) ps
      (button_of ch w, debounce_of ch w).
Proof.
  induction ps as [|p ps IH] using rev_ind; [reflexivity|].
  rewrite run_ticks_snoc, ISR_debounce_step, IH, fold_left_app.
  reflexivity.
Qed.

(** X24. The two buttons are debounced independently, and independently
    of the display: the state and the counter of a channel after a run of
    ticks depend only on the channel's own state and counter before it and
    on the samples of its own pin. *)
Theorem channels_are_debounced_independently
    (ch : channel) (ps ps' : list pin_reads) (w w' : world) :
  button_of ch w = button_of ch w' ->
  debounce_of ch w = debounce_of ch w' ->
  map (temp_of ch) ps = map (temp_of ch) ps' ->
  button_of ch (run_ticks ps w) = button_of ch (run_ticks ps' w') /\
  debounce_of ch (run_ticks ps w) = debounce_of ch (run_ticks ps' w').
Proof.
  intros Hb Hc Hs.
  assert (E : (button_of ch (run_ticks ps w), debounce_of ch (run_ticks ps w))
              = (button_of ch (run_ticks ps' w'),
                 debounce_of ch (run_ticks ps' w'))).
  { rewrite !run_ticks_channel, Hb, Hc.
    generalize (button_of ch w', debounce_of ch w'). revert ps' Hs.
    induction ps as [|p ps IH]; intros [|p' ps'] Hs st;
      try discriminate; [reflexivity|].
    cbn [map] in Hs. injection Hs as Hp Hs.
    cbn [fold_left]. rewrite Hp. apply IH. exact Hs. }
  inversion E. split; reflexivity.
Qed.

Lemma channels_are_debounced_independently_witness :
  button_of AcceptChannel (run_ticks (replicate 8 pins_accept) power_on)
  = button_of AcceptChannel
      (run_ticks (replicate 8 pins_both)
         (run_ops scroll_demo_ops power_on)) /\
  debounce_of AcceptChannel (run_ticks (replicate 8 pins_accept) power_on)
  = debounce_of AcceptChannel
      (run_ticks (replicate 8 pins_both)
         (run_ops scroll_demo_ops power_on)).
Proof.
  apply (channels_are_debounced_independently AcceptChannel);
    vm_compute; reflexivity.
Defined.

Lemma released_button_stays (ch : channel) (ps : list pin_reads) (w : world) :
  button_of ch w = false ->
  Forall (fun p => temp_of ch p = true) ps ->
  button_of ch (run_ticks ps w) = false.
Proof.
  intros Hb. induction ps as [|p ps IH] using rev_ind; intros Hall;
    [exact Hb|].
  apply Forall_app in Hall. destruct Hall as [Hps Hp].
  inversion Hp as [|? ? Hl _]; subst.
  rewrite run_ticks_snoc, ISR_button, IH by exact Hps.
  unfold disagrees. rewrite Hl. reflexivity.
Qed.

(** X25. With both buttons released the wait returns at once: when both
    debounced flags are clear and both pins read high during the two reads
    of the loop condition, [waitForNoButtonPress] returns after exactly
    these two reads, having changed nothing but what the interrupts of the
    two bursts changed. *)
Theorem waitForNoButtonPress_returns_when_released
    (w : world) (b1 b2 : list pin_reads) (tl : timeline) :
  accept_button (btn w) = false ->
  cancel_button (btn w) = false ->
  Forall (fun p => temp_of AcceptChannel p = true) b1 ->
  Forall (fun p => temp_of CancelChannel p = true) (b1 ++ b2) ->
  waitForNoButtonPress (mkMachine w (b1 :: b2 :: tl))
  = Some (tt, mkMachine (run_ticks (b1 ++ b2) w) tl).
Proof.
  intros Ha Hc H1 H2.
  pose proof (released_button_stays AcceptChannel b1 w Ha H1) as A1.
  pose proof (released_button_stays CancelChannel (b1 ++ b2) w Hc H2) as C2.
  cbn [button_of] in A1, C2. rewrite run_ticks_app in C2.
  unfold waitForNoButtonPress. cbn [hw irq waitForNoButtonPress_loop].
  rewrite A1, C2, run_ticks_app. reflexivity.
Qed.

Lemma waitForNoButtonPress_returns_when_released_witness :
  waitForNoButtonPress
    (mkMachine power_on
       (replicate 3 pins_released :: replicate 2 pins_released :: user_idle))
  = Some (tt,
          mkMachine
            (run_ticks (replicate 3 pins_released ++ replicate 2 pins_released)
               power_on)
            user_idle).
Proof.
  apply (waitForNoButtonPress_returns_when_released power_on).
  - reflexivity.
  - reflexivity.
  - repeat constructor.
  - repeat constructor.
Defined.

(** ** The scroll interrupt inside [writeString] *)

Lemma shown_app_commands (bus : list lcd_write) (text : list ascii) :
  shown (bus ++ map command_write text) = shown bus.
Proof.
  induction text as [|c text IH] using rev_ind.
  - cbn. rewrite app_nil_r. reflexivity.
  - rewrite map_app, app_assoc. cbn [map]. unfold command_write at 2.
    rewrite shown_snoc_command. exact IH.
Qed.

Lemma writeString_loop_sends_commands (str : list ascii) (d : display) :
  0 <= current_column d <= 40 ->
  rs_pin d = false ->
  lcd_bus (writeString_loop str d)
  = lcd_bus d
    ++ map command_write
         (take (Z.to_nat (40 - current_column d)) (c_str str)).
Proof.
  revert d. induction str as [|c str IH]; intros d Hc Hrs.
  - cbn [c_str writeString_loop]. rewrite take_nil. cbn.
    rewrite app_nil_r. reflexivity.
  - rewrite writeString_loop_cons. cbn [c_str].
    destruct (is_NUL c) eqn:En; cbn [negb andb].
    { rewrite take_nil. cbn. rewrite app_nil_r. reflexivity. }
    destruct (current_column d <? 40) eqn:E40.
    + apply Z.ltb_lt in E40.
      destruct (write_char_fields c d)
        as (Hb & Hcol & _ & _ & _ & _ & Hr).
      unfold u8 in Hcol. rewrite Z.mod_small in Hcol by lia.
      rewrite IH by (rewrite ?Hcol, ?Hr; first [lia|exact Hrs]).
      rewrite Hcol, Hb, Hrs.
      replace (Z.to_nat (40 - current_column d))
        with (S (Z.to_nat (40 - (current_column d + 1)))) by lia.
      cbn [take map]. rewrite <- app_assoc. reflexivity.
    + apply Z.ltb_ge in E40.
      replace (Z.to_nat (40 - current_column d)) with 0%nat by lia.
      cbn. rewrite app_nil_r. reflexivity.
Qed.

(** A tick that scrolls: what it leaves. *)
Lemma ISR_scroll_scrolls (d : display) :
  max_line_size d > NUM_COLUMNS ->
  scroll_counter d = 1 ->
  (if scroll_to_left d then scroll_pos d <> 0
   else scroll_pos d <> max_line_size d - NUM_COLUMNS) ->
  rs_pin (ISR_scroll d) = false /\
  current_column (ISR_scroll d) = current_column d /\
  lcd_bus (ISR_scroll d)
  = lcd_bus d ++ [LcdWrite false (if scroll_to_left d then 28 else 24)].
Proof.
  intros Hm Hc Hb. unfold ISR_scroll.
  cbn [scroll_counter max_line_size set_scroll_counter scroll_to_left
       scroll_pos].
  rewrite Hc. change (u16 (1 - 1) =? 0) with true. cbv iota.
  replace (max_line_size d >? NUM_COLUMNS) with true
    by (symmetry; apply Z.gtb_lt; lia).
  destruct (scroll_to_left d).
  - replace (scroll_pos d =? 0) with false
      by (symmetry; apply Z.eqb_neq; exact Hb).
    repeat split.
  - replace (scroll_pos d =? max_line_size d - NUM_COLUMNS) with false
      by (symmetry; apply Z.eqb_neq; exact Hb).
    repeat split.
Qed.

(** X26. [writeString] is not protected against the scroll interrupt. If
    a timer tick is taken inside its loop at a moment when the line is
    longer than the display, the countdown expires and the scroll is not at
    the boundary it is heading to, the interrupt sends its shift command
    and leaves RS low: every character the loop writes after it is sent to
    the display as a command, and none of them is shown. *)
Theorem scroll_tick_inside_writeString_sends_the_rest_as_commands
    (rest : list ascii) (d : display) :
  0 <= current_column d <= 40 ->
  max_line_size d > NUM_COLUMNS ->
  scroll_counter d = 1 ->
  (if scroll_to_left d then scroll_pos d <> 0
   else scroll_pos d <> max_line_size d - NUM_COLUMNS) ->
  let d' := writeString_loop rest (ISR_scroll d) in
  let dropped := take (Z.to_nat (40 - current_column d)) (c_str rest) in
  lcd_bus d'
  = lcd_bus d
    ++ [LcdWrite false (if scroll_to_left d then 28 else 24)]
    ++ map command_write dropped /\
  shown (lcd_bus d') = shown (lcd_bus d).
Proof.
  intros Hc Hm Hcnt Hb. cbv zeta.
  destruct (ISR_scroll_scrolls d Hm Hcnt Hb) as (R & C & B).
  assert (E : lcd_bus (writeString_loop rest (ISR_scroll d))
              = lcd_bus d
                ++ [LcdWrite false (if scroll_to_left d then 28 else 24)]
                ++ map command_write
                     (take (Z.to_nat (40 - current_column d)) (c_str rest))).
  { rewrite writeString_loop_sends_commands by (rewrite ?C; assumption).
    rewrite C, B, <- app_assoc. reflexivity. }
  split; [exact E|].
  rewrite E, app_assoc, shown_app_commands, shown_snoc_command.
  reflexivity.
Qed.

(** The last five characters of "Delete existing wallet" are lost. *)
Lemma scroll_tick_inside_writeString_sends_the_rest_as_commands_witness :
  let d' := writeString_loop (literal "allet") (ISR_scroll seventeen_written) in
  rs_pin seventeen_written = true /\
  lcd_bus d'
  = lcd_bus seventeen_written
    ++ [LcdWrite false 24]
    ++ map command_write (list_ascii_of_string "allet") /\
  shown (lcd_bus d') = list_ascii_of_string "Delete existing w".
Proof.
  cbv zeta.
  destruct (scroll_tick_inside_writeString_sends_the_rest_as_commands
              (literal "allet") seventeen_written)
    as (B & S); try (vm_compute; reflexivity).
  - vm_compute. split; discriminate.
  - vm_compute. discriminate.
  - split; [reflexivity|]. split; [exact B|]. rewrite S. reflexivity.
Defined.

(** * Properties of the traced foreground *)

Local Open Scope tr_scope.

Lemma t_bind_assoc {A B C : Type} (c : T A) (f : A -> T B) (g : B -> T C)
    (t : run) :
  t_bind (t_bind c f) g t = t_bind c (fun a => t_bind (f a) g) t.
Proof.
  unfold t_bind. destruct (c t) as [[a t1]|]; reflexivity.
Qed.

Lemma t_bind_ext {A B : Type} (c : T A) (f g : A -> T B) (t : run) :
  (forall a t', f a t' = g a t') -> t_bind c f t = t_bind c g t.
Proof.
  intros H. unfold t_bind. destruct (c t) as [[a t1]|]; [apply H|reflexivity].
Qed.

Lemma t_bind_on_disp {A : Type} (f : display -> display) (k : unit -> T A)
    (d : display) (b : buttons) (s : staging) (tl : timeline)
    (log : list flag_read) :
  t_bind (Traced.on_disp f) k (mkRun (mkMachine (mkWorld d b s) tl) log)
  = k tt (mkRun (mkMachine (mkWorld (f d) b s) tl) log).
Proof. reflexivity. Qed.

(** [clearLcd] returns when the timeline holds the burst of its settle
    delay, which it takes after the clear command. *)
Lemma clearLcd_settles (t t' : run) (u : unit) :
  Traced.clearLcd t = Some (u, t') ->
  exists settle : list pin_reads,
    irq (mach t) = settle :: irq (mach t') /\
    hw (mach t')
    = run_ticks settle
        (with_disp (clearLcd_disp (disp (hw (mach t)))) (hw (mach t))) /\
    reads t' = reads t.
Proof.
  destruct t as [[w tl] log]. unfold Traced.clearLcd, t_bind, Traced.on_disp,
    Traced.delay_ms. cbn [mach hw irq reads].
  destruct tl as [|b tl]; [discriminate|].
  intros H. inversion H; subst. exists b. repeat split.
Qed.

(** The countdown of a display that has nothing to scroll runs in
    a cycle of SCROLL_SPEED ticks. *)
Lemma ISR_scroll_cycle (d : display) :
  max_line_size d <= NUM_COLUMNS ->
  0 < scroll_counter d <= SCROLL_SPEED ->
  ISR_scroll d
  = set_scroll_counter
      (SCROLL_SPEED - (SCROLL_SPEED - scroll_counter d + 1) mod SCROLL_SPEED)
      d.
Proof.
  unfold SCROLL_SPEED. intros Hm Hc. unfold ISR_scroll.
  cbn [scroll_counter max_line_size set_scroll_counter].
  replace (max_line_size d >? NUM_COLUMNS) with false
    by (symmetry; rewrite Z.gtb_ltb; apply Z.ltb_ge; exact Hm).
  unfold u16. rewrite (Z.mod_small (scroll_counter d - 1)) by lia.
  destruct (Z.eqb_spec (scroll_counter d - 1) 0) as [E|E].
  - replace (scroll_counter d) with 1 by lia. destruct d. reflexivity.
  - rewrite (Z.mod_small (150 - scroll_counter d + 1)) by lia.
    replace (150 - (150 - scroll_counter d + 1)) with (scroll_counter d - 1)
      by lia.
    reflexivity.
Qed.

Lemma run_ticks_cycle (ps : list pin_reads) (w : world) :
  max_line_size (disp w) <= NUM_COLUMNS ->
  0 < scroll_counter (disp w) <= SCROLL_SPEED ->
  disp (run_ticks ps w)
  = set_scroll_counter
      (SCROLL_SPEED
       - (SCROLL_SPEED - scroll_counter (disp w) + Z.of_nat (length ps))
         mod SCROLL_SPEED)
      (disp w).
Proof.
  unfold SCROLL_SPEED. intros Hm Hc.
  induction ps as [|p ps IH] using rev_ind.
  - cbn [length Z.of_nat run_ticks fold_left]. rewrite Z.add_0_r.
    rewrite Z.mod_small by lia.
    replace (150 - (150 - scroll_counter (disp w)))
      with (scroll_counter (disp w)) by lia.
    destruct (disp w). reflexivity.
  - rewrite run_ticks_snoc, disp_ISR, IH.
    pose proof (Z.mod_pos_bound
                  (150 - scroll_counter (disp w) + Z.of_nat (length ps)) 150
                  ltac:(lia)) as Hb.
    rewrite ISR_scroll_cycle;
      [|exact Hm|cbn [scroll_counter set_scroll_counter];
                 unfold SCROLL_SPEED; lia].
    cbn [scroll_counter set_scroll_counter]. unfold SCROLL_SPEED.
    rewrite length_app. cbn [length].
    replace (150 - (150 - (150 - scroll_counter (disp w)
                            + Z.of_nat (length ps)) mod 150) + 1)
      with ((150 - scroll_counter (disp w) + Z.of_nat (length ps)) mod 150
            + 1) by lia.
    rewrite Z.add_mod_idemp_l by lia.
    replace (150 - scroll_counter (disp w) + Z.of_nat (length ps) + 1)
      with (150 - scroll_counter (disp w) + Z.of_nat (length ps + 1)) by lia.
    destruct (disp w). reflexivity.
Qed.

(** The display after [clearLcd] and the ticks of its settle delay. *)
Lemma settled_display (settle : list pin_reads) (w : world) :
  disp (run_ticks settle (with_disp (clearLcd_disp (disp w)) w))
  = mkDisplay 0 0 0 false
      (SCROLL_SPEED - Z.of_nat (length settle) mod SCROLL_SPEED) false
      (lcd_bus (disp w) ++ [LcdWrite false 1]).
Proof.
  rewrite run_ticks_cycle.
  - cbn [disp with_disp scroll_counter clearLcd_disp set_scroll_counter
         set_current_column set_max_line_size set_scroll_pos
         set_scroll_to_left write8 writeArduinoPin_RS current_column
         max_line_size scroll_pos scroll_to_left rs_pin lcd_bus].
    rewrite Z.sub_diag, Z.add_0_l. reflexivity.
  - cbn. unfold NUM_COLUMNS. lia.
  - cbn. unfold SCROLL_SPEED. lia.
Qed.

Lemma userDenied_ends_in_clearLcd (command : AskUserCommand) (t t' : run)
    (r : bool) :
  Traced.userDenied command t = Some (r, t') ->
  exists t1 : run, Traced.clearLcd t1 = Some (tt, t').
Proof.
  unfold Traced.userDenied. rewrite <- t_bind_assoc.
  unfold t_bind at 1.
  match goal with
  | |- match ?c with _ => _ end = _ -> _ => destruct c as [[r1 t1]|]
  end; [|discriminate].
  unfold t_bind. destruct (Traced.clearLcd t1) as [[[] t2]|] eqn:E;
    [|discriminate].
  intros H. inversion H; subst. exists t1. exact E.
Qed.

(** C10 (amended). Whatever the command and whatever the buttons do, when
    [userDenied] returns, its last action was [clearLcd]: the clear command
    is the last byte sent to the display, and the column, the longest line
    size and the scroll position are 0 and the scroll direction is the
    initial one ("to the right"). The countdown is not back at its initial
    value: the timer ticks that fire during the settle delay of that
    [clearLcd] have each lowered it by one from SCROLL_SPEED (in a cycle of
    SCROLL_SPEED ticks; no line being longer than the display, they send
    nothing). *)
Theorem userDenied_returns_with_cleared_display
    (command : AskUserCommand) (t t' : run) (r : bool) :
  Traced.userDenied command t = Some (r, t') ->
  exists (w : world) (settle : list pin_reads),
    hw (mach t') = run_ticks settle (with_disp (clearLcd_disp (disp w)) w) /\
    current_column (disp (hw (mach t'))) = 0 /\
    max_line_size (disp (hw (mach t'))) = 0 /\
    scroll_pos (disp (hw (mach t'))) = 0 /\
    scroll_to_left (disp (hw (mach t'))) = false /\
    scroll_counter (disp (hw (mach t')))
    = SCROLL_SPEED - Z.of_nat (length settle) mod SCROLL_SPEED /\
    lcd_bus (disp (hw (mach t'))) = lcd_bus (disp w) ++ [LcdWrite false 1].
Proof.
  intros H. apply userDenied_ends_in_clearLcd in H. destruct H as [t1 H].
  apply clearLcd_settles in H. destruct H as (settle & _ & Hw & _).
  exists (hw (mach t1)), settle. split; [exact Hw|].
  rewrite Hw, settled_display. repeat split.
Qed.

(** C10 (counterexample). An address prompt is answered with the accept
    button and two timer ticks fire during each settle delay: [userDenied]
    returns with the countdown at 148, not at its initial value
    SCROLL_SPEED = 150. *)
Lemma userDenied_countdown_not_initial :
  exists t' : run,
    Traced.userDenied ASKUSER_NEW_ADDRESS new_address_accepted
    = Some (false, t') /\
    scroll_counter (disp (hw (mach t'))) = 148 /\
    scroll_counter (disp (hw (mach t'))) <> SCROLL_SPEED.
Proof.
  eexists. split; [vm_compute; reflexivity|].
  split; [reflexivity|discriminate].
Qed.

Lemma userDenied_returns_with_cleared_display_witness :
  let t' := t_after (Traced.userDenied ASKUSER_NEW_ADDRESS)
              new_address_accepted in
  exists (w : world) (settle : list pin_reads),
    hw (mach t') = run_ticks settle (with_disp (clearLcd_disp (disp w)) w) /\
    current_column (disp (hw (mach t'))) = 0 /\
    max_line_size (disp (hw (mach t'))) = 0 /\
    scroll_pos (disp (hw (mach t'))) = 0 /\
    scroll_to_left (disp (hw (mach t'))) = false /\
    scroll_counter (disp (hw (mach t')))
    = SCROLL_SPEED - Z.of_nat (length settle) mod SCROLL_SPEED /\
    lcd_bus (disp (hw (mach t'))) = lcd_bus (disp w) ++ [LcdWrite false 1].
Proof.
  apply (userDenied_returns_with_cleared_display ASKUSER_NEW_ADDRESS
           new_address_accepted _ false).
  vm_compute. reflexivity.
Defined.

(** ** [streamError] *)

Lemma btn_run_ticks (ps : list pin_reads) (w : world) :
  btn (run_ticks ps w) = fold_left (fun b p => ISR_buttons p b) ps (btn w).
Proof.
  induction ps as [|p ps IH] using rev_ind; [reflexivity|].
  rewrite run_ticks_snoc, fold_left_app, <- IH. reflexivity.
Qed.

Lemma stream_error_written (d1 : display) :
  max_line_size d1 = 0 -> scroll_pos d1 = 0 ->
  let d' := writeString_disp str_stream_error true
              (gotoStartOfLine_disp 0 d1) in
  lcd_bus d'
  = lcd_bus d1
    ++ [LcdWrite false 128]
    ++ map data_write (list_ascii_of_string "Stream error") /\
  current_column d' = 12 /\
  max_line_size d' = 12 /\
  scroll_pos d' = 0.
Proof.
  intros Hm1 Hp1.
  set (d0 := gotoStartOfLine_disp 0 d1). cbv zeta.
  assert (Hc : current_column d0 = 0) by reflexivity.
  assert (Hm : max_line_size d0 = 0) by exact Hm1.
  assert (Hp : scroll_pos d0 = 0) by exact Hp1.
  assert (Hb : lcd_bus d0 = lcd_bus d1 ++ [LcdWrite false 128])
    by reflexivity.
  destruct (writeString_disp_facts str_stream_error true d0)
    as (B & _ & C & Mx & P & _); [lia|lia|].
  rewrite Hc in B, C, Mx. rewrite Hm in Mx.
  change (take (Z.to_nat (40 - 0)) (c_str str_stream_error))
    with (list_ascii_of_string "Stream error") in B, C, Mx.
  change (Z.max 0 (0 + Z.of_nat (length (list_ascii_of_string "Stream error"))))
    with 12 in Mx.
  change (0 + Z.of_nat (length (list_ascii_of_string "Stream error")))
    with 12 in C.
  split; [rewrite B, Hb, <- app_assoc; reflexivity|].
  split; [exact C|]. split; [exact Mx|]. rewrite P; exact Hp.
Qed.

(** X17. [streamError] reads no button flag, so it never waits for the
    user: given the burst of timer ticks that fire during the settle
    delay of its [clearLcd], it returns, having taken that burst and no
    other and leaving the log of reads as it was. It sends the clear
    command, the address of line 0 and the twelve characters of its
    message, which fits the display and is therefore never scrolled by the
    interrupt; the staging store is untouched and the button state is what
    the ticks of the settle delay made of it. *)
Theorem streamError_shows_its_message_without_waiting
    (t : run) (settle : list pin_reads) (tl : timeline) :
  irq (mach t) = settle :: tl ->
  exists t' : run,
    Traced.streamError t = Some (tt, t') /\
    irq (mach t') = tl /\
    reads t' = reads t /\
    stage (hw (mach t')) = stage (hw (mach t)) /\
    btn (hw (mach t')) = btn (run_ticks settle (hw (mach t))) /\
    lcd_bus (disp (hw (mach t')))
    = lcd_bus (disp (hw (mach t)))
      ++ [LcdWrite false 1; LcdWrite false 128]
      ++ map data_write (list_ascii_of_string "Stream error") /\
    current_column (disp (hw (mach t'))) = 12 /\
    max_line_size (disp (hw (mach t'))) = 12 /\
    scroll_pos (disp (hw (mach t'))) = 0 /\
    forall ps,
      lcd_bus (disp (run_ticks ps (hw (mach t'))))
      = lcd_bus (disp (hw (mach t'))).
Proof.
  destruct t as [[w tl0] log]. cbn [mach irq hw reads]. intros ->.
  set (w1 := run_ticks settle (with_disp (clearLcd_disp (disp w)) w)).
  set (d' := writeString_disp str_stream_error true
               (gotoStartOfLine_disp 0 (disp w1))).
  exists (mkRun (mkMachine (with_disp d' w1) tl) log).
  assert (Hd1 : disp w1
                = mkDisplay 0 0 0 false
                    (SCROLL_SPEED - Z.of_nat (length settle) mod SCROLL_SPEED)
                    false (lcd_bus (disp w) ++ [LcdWrite false 1]))
    by apply settled_display.
  destruct (stream_error_written (disp w1)) as (B & C & Mx & P);
    [rewrite Hd1; reflexivity|rewrite Hd1; reflexivity|].
  fold d' in B, C, Mx, P.
  split; [reflexivity|].
  cbn [mach irq hw reads disp btn stage with_disp].
  split; [reflexivity|]. split; [reflexivity|].
  split; [subst w1; rewrite stage_run_ticks; reflexivity|].
  split; [subst w1; rewrite !btn_run_ticks; reflexivity|].
  split.
  { rewrite B, Hd1. cbn [lcd_bus]. rewrite <- app_assoc. reflexivity. }
  split; [exact C|]. split; [exact Mx|]. split; [exact P|].
  intros ps. apply (run_ticks_fitting_bus ps (with_disp d' w1)).
  cbn [disp with_disp]. rewrite Mx. discriminate.
Qed.

Lemma streamError_shows_its_message_without_waiting_witness :
  exists t' : run,
    Traced.streamError (run_from power_on settle_ticks) = Some (tt, t') /\
    irq (mach t') = [] /\
    reads t' = [] /\
    shown (lcd_bus (disp (hw (mach t'))))
    = list_ascii_of_string "Stream error".
Proof.
  destruct (streamError_shows_its_message_without_waiting
              (run_from power_on settle_ticks) (replicate 2 pins_released) [])
    as (t' & H & I & R & _ & _ & B & _); [reflexivity|].
  exists t'. split; [exact H|]. split; [exact I|]. split; [exact R|].
  rewrite B. reflexivity.
Defined.

(** ** The seed presenter *)

Lemma traced_for_step (n : nat) (seed : list Z) (i bc : Z) (t : run) :
  (bc =? 12) = false ->
  Traced.writeBackupSeed_for (S n) seed i bc t =
  (Traced.on_disp (seed_byte bc (default 0 (seed !! Z.to_nat i))) ;;
   Traced.writeBackupSeed_for n seed (u8 (i + 1)) (u8 (bc + 1))) t.
Proof.
  intros H. cbn [Traced.writeBackupSeed_for]. rewrite H.
  unfold seed_byte, seed_text, t_bind, Traced.gotoStartOfLine,
    Traced.writeString, Traced.on_disp, t_ret.
  cbn [mach hw irq reads disp with_disp].
  destruct (bc =? 0); [|destruct (bc =? 6)];
    destruct (Z.land bc 1 =? 0); reflexivity.
Qed.

Lemma traced_for_pause (n : nat) (seed : list Z) (i : Z) (t : run) :
  Traced.writeBackupSeed_for (S n) seed i 12 t =
  (r <- Traced.checkpoint ;;
   if r then Traced.clearLcd ;; t_ret true
   else
     Traced.clearLcd ;;
     Traced.on_disp (seed_byte 0 (default 0 (seed !! Z.to_nat i))) ;;
     Traced.writeBackupSeed_for n seed (u8 (i + 1)) 1) t.
Proof.
  cbn [Traced.writeBackupSeed_for]. change (12 =? 12) with true. cbv iota.
  unfold Traced.checkpoint. rewrite t_bind_assoc.
  apply t_bind_ext. intros [] t1.
  apply t_bind_ext. intros [|] t2; [reflexivity|].
  apply t_bind_ext. intros [] [[[d b s] tl] log]. reflexivity.
Qed.

Lemma traced_for_end (seed : list Z) (i bc : Z) (t : run) :
  Traced.writeBackupSeed_for 0 seed i bc t =
  (r <- Traced.checkpoint ;; Traced.clearLcd ;; t_ret r) t.
Proof.
  cbn [Traced.writeBackupSeed_for].
  unfold Traced.checkpoint. rewrite t_bind_assoc.
  apply t_bind_ext. intros [] t1.
  apply t_bind_ext. intros [|] t2; reflexivity.
Qed.

Lemma traced_for_run (k : nat) :
  forall (n : nat) (seed : list Z) (i bc : Z) (t : run),
  0 <= i -> 0 <= bc -> i + Z.of_nat k <= 255 -> bc + Z.of_nat k <= 12 ->
  Traced.writeBackupSeed_for (k + n) seed i bc t =
  (Traced.on_disp (seed_run k seed i bc) ;;
   Traced.writeBackupSeed_for n seed (i + Z.of_nat k) (bc + Z.of_nat k)) t.
Proof.
  induction k as [|k IH]; intros n seed i bc t Hi Hbc Hik Hbk.
  - cbn [Nat.add seed_run]. rewrite !Z.add_0_r.
    destruct t as [[[d b s] tl] log]. reflexivity.
  - cbn [Nat.add]. rewrite traced_for_step by (apply Z.eqb_neq; lia).
    destruct t as [[[d b s] tl] log]. rewrite !t_bind_on_disp.
    unfold u8. rewrite !Z.mod_small by lia.
    rewrite IH by lia. rewrite t_bind_on_disp. cbn [seed_run].
    replace (i + 1 + Z.of_nat k) with (i + Z.of_nat (S k)) by lia.
    replace (bc + 1 + Z.of_nat k) with (bc + Z.of_nat (S k)) by lia.
    reflexivity.
Qed.

Lemma traced_notice (n : nat) (seed : list Z) (enc : bool) (t : run) :
  Traced.writeBackupSeed n seed enc 0 t =
  (r <- Traced.notice_screen enc ;;
   if r then Traced.clearLcd ;; t_ret true
   else
     Traced.waitForNoButtonPress ;;
     Traced.writeBackupSeed_for n seed 0 0) t.
Proof.
  unfold Traced.writeBackupSeed, Traced.notice_screen.
  change (negb (0 =? 0)) with false. cbv iota.
  rewrite !t_bind_assoc. apply t_bind_ext. intros [] t1.
  rewrite !t_bind_assoc. apply t_bind_ext. intros [] t2.
  rewrite !t_bind_assoc. apply t_bind_ext. intros [] t3.
  rewrite !t_bind_assoc. apply t_bind_ext. intros [] t4.
  rewrite !t_bind_assoc. apply t_bind_ext. intros [] t5.
  rewrite !t_bind_assoc.
  destruct enc; reflexivity.
Qed.

Lemma traced_hex_page (bytes : list Z) {A : Type} (k : unit -> T A)
    (d : display) (b : buttons) (s : staging) (tl : timeline)
    (log : list flag_read) :
  t_bind (Traced.hex_page bytes) k (mkRun (mkMachine (mkWorld d b s) tl) log)
  = k tt (mkRun (mkMachine (mkWorld (page_disp bytes d) b s) tl) log).
Proof.
  unfold Traced.hex_page, page_disp, t_bind, Traced.gotoStartOfLine,
    Traced.writeString, Traced.on_disp.
  cbn [mach hw irq reads disp btn stage with_disp].
  destruct (6 <? length bytes)%nat; reflexivity.
Qed.

Lemma traced_first_bytes_of_page (n rest : nat) (seed : list Z) (i : Z)
    (d : display) (b : buttons) (s : staging) (tl : timeline)
    (log : list flag_read) :
  0 <= i -> i + Z.of_nat n + 1 <= 255 ->
  (Z.to_nat i + S n <= length seed)%nat -> (n + 1 <= 12)%nat ->
  (Traced.on_disp (seed_byte 0 (default 0 (seed !! Z.to_nat i))) ;;
   Traced.writeBackupSeed_for (n + rest) seed (u8 (i + 1)) 1)
    (mkRun (mkMachine (mkWorld d b s) tl) log)
  = Traced.writeBackupSeed_for rest seed (i + 1 + Z.of_nat n)
      (1 + Z.of_nat n)
      (mkRun
         (mkMachine
            (mkWorld (page_disp (take (S n) (drop (Z.to_nat i) seed)) d) b s)
            tl)
         log).
Proof.
  intros Hi Hn Hlen H12.
  rewrite t_bind_on_disp.
  unfold u8. rewrite Z.mod_small by lia.
  rewrite traced_for_run by lia.
  rewrite t_bind_on_disp.
  change (seed_run n seed (i + 1) 1
            (seed_byte 0 (default 0 (seed !! Z.to_nat i)) d))
    with (seed_run (S n) seed i 0 d).
  rewrite seed_run_bytes by lia.
  rewrite seed_bytes_page; [reflexivity|].
  rewrite length_take, length_drop. lia.
Qed.

Lemma traced_for_pages (pages : nat) :
  forall (n : nat) (seed : list Z) (i : Z) (t : run),
  0 <= i -> i + Z.of_nat n + 1 <= 255 ->
  (Z.to_nat i + S n <= length seed)%nat -> (S n <= 12 * pages)%nat ->
  (Traced.on_disp (seed_byte 0 (default 0 (seed !! Z.to_nat i))) ;;
   Traced.writeBackupSeed_for n seed (u8 (i + 1)) 1) t
  = Traced.seed_pages pages (take (S n) (drop (Z.to_nat i) seed)) t.
Proof.
  induction pages as [|pages IH]; intros n seed i t Hi Hn Hlen Hp; [lia|].
  destruct t as [[[d b s] tl] log].
  assert (Hl : length (take (S n) (drop (Z.to_nat i) seed)) = S n).
  { rewrite length_take, length_drop. lia. }
  cbn [Traced.seed_pages]. rewrite Hl.
  destruct (le_lt_dec (S n) 12) as [Hs|Hs].
  - pose proof (traced_first_bytes_of_page n 0 seed i d b s tl log) as E.
    rewrite Nat.add_0_r in E. rewrite E by lia. clear E.
    rewrite traced_for_end.
    rewrite (take_ge (take (S n) _)) by lia.
    rewrite traced_hex_page.
    replace (S n <=? 12)%nat with true by (symmetry; apply Nat.leb_le; lia).
    apply t_bind_ext. intros [|] t1; reflexivity.
  - pose proof (traced_first_bytes_of_page 11 (S (n - 12)) seed i d b s tl log)
      as E.
    replace (11 + S (n - 12))%nat with n in E by lia.
    rewrite E by lia. clear E.
    change (1 + Z.of_nat 11) with 12.
    rewrite traced_for_pause.
    rewrite take_take. replace (12 `min` S n)%nat with 12%nat by lia.
    rewrite traced_hex_page.
    replace (S n <=? 12)%nat with false by (symmetry; apply Nat.leb_gt; lia).
    replace (drop 12 (take (S n) (drop (Z.to_nat i) seed)))
      with (take (S (n - 12)) (drop (Z.to_nat (i + 12)) seed)).
    2:{ replace (S n) with (12 + S (n - 12))%nat by lia.
        rewrite <- take_drop_commute, drop_drop.
        replace (Z.to_nat i + 12)%nat with (Z.to_nat (i + 12)) by lia.
        reflexivity. }
    replace (i + 1 + Z.of_nat 11) with (i + 12) by lia.
    apply t_bind_ext. intros [|] t1; [reflexivity|].
    apply t_bind_ext. intros [] t2.
    apply IH; lia.
Qed.

(** C8. Called with a 16-byte secret and destination 0, [writeBackupSeed]
    behaves as this script: the notice and its press; on approval, once the
    buttons are released, a first page showing bytes 0-11 (six per line)
    followed by one checkpoint (release, then a press); a cancel there
    clears the display and returns true with no further page; an accept
    clears the display and shows a second page with bytes 12-15, followed
    by one checkpoint whose press is the result: false when it is an
    accept. The runs compared hold the bus and the log of the flag reads,
    each read with the number of bus entries sent before it: the press of
    a page is read after the page has been sent. *)
Theorem writeBackupSeed_16_bytes_two_pages
    (seed : list Z) (is_encrypted : bool) (t : run) :
  length seed = 16%nat ->
  Traced.writeBackupSeed 16 seed is_encrypted 0 t =
  (r0 <- Traced.notice_screen is_encrypted ;;
   if r0 then Traced.clearLcd ;; t_ret true
   else
     Traced.waitForNoButtonPress ;;
     Traced.hex_page (take 12 seed) ;;
     r1 <- Traced.checkpoint ;;
     if r1 then Traced.clearLcd ;; t_ret true
     else
       Traced.clearLcd ;;
       Traced.hex_page (drop 12 seed) ;;
       r2 <- Traced.checkpoint ;;
       Traced.clearLcd ;;
       t_ret r2) t.
Proof.
  intros Hlen. rewrite traced_notice.
  apply t_bind_ext. intros [|] t1; [reflexivity|].
  apply t_bind_ext. intros [] t2.
  rewrite traced_for_step by reflexivity.
  change (u8 (0 + 1)) with 1.
  pose proof (traced_for_pages 2 15 seed 0 t2) as E.
  change (u8 (0 + 1)) with 1 in E. change (Z.to_nat 0) with 0%nat in *.
  rewrite drop_0, take_ge in E by lia.
  rewrite E by (cbn; lia). clear E.
  cbn [Traced.seed_pages]. rewrite Hlen.
  change (16 <=? 12)%nat with false. cbv iota.
  assert (H4 : length (drop 12 seed) = 4%nat)
    by (rewrite length_drop; lia).
  rewrite H4. change (4 <=? 12)%nat with true. cbv iota.
  rewrite (take_ge (drop 12 seed)) by lia.
  apply t_bind_ext. intros [] t3.
  apply t_bind_ext. intros [|] t4; [reflexivity|].
  apply t_bind_ext. intros [] t5.
  apply t_bind_ext. intros [] t6.
  apply t_bind_ext. intros [|] t7; reflexivity.
Qed.

(** A cancel at the first page, and a full approval: what is shown, and
    after how many bus entries each flag was read. In the approved run the
    first page is entries 26 to 57 of the bus and the second page entries
    59 to 69. *)
Lemma writeBackupSeed_16_bytes_two_pages_witness :
  (exists t' : run,
     Traced.writeBackupSeed 16 demo_seed true 0 seed_cancelled_at_first_page
     = Some (true, t') /\
     shown (lcd_bus (disp (hw (mach t'))))
     = list_ascii_of_string
         "Backup isencrypted 0001 0203 0405 0607 0809 0a0b" /\
     map read_after (reads t')
     = [1; 1; 21; 21; 21; 21; 53; 53; 53; 53]%nat)
  /\
  (exists t' : run,
     Traced.writeBackupSeed 16 demo_seed false 0 seed_approved
     = Some (false, t') /\
     shown (lcd_bus (disp (hw (mach t'))))
     = list_ascii_of_string
         "Backup isnot encrypted 0001 0203 0405 0607 0809 0a0b fcfd feff" /\
     map read_after (reads t')
     = [1; 1; 25; 25; 25; 25; 57; 57; 57; 57; 69; 69; 69; 69]%nat).
Proof.
  split.
  - exists (t_after (Traced.writeBackupSeed 16 demo_seed true 0)
              seed_cancelled_at_first_page).
    split; [|split].
    + rewrite (writeBackupSeed_16_bytes_two_pages demo_seed true
                 seed_cancelled_at_first_page eq_refl).
      vm_compute. reflexivity.
    + vm_compute. reflexivity.
    + vm_compute. reflexivity.
  - exists (t_after (Traced.writeBackupSeed 16 demo_seed false 0)
              seed_approved).
    split; [|split].
    + rewrite (writeBackupSeed_16_bytes_two_pages demo_seed false
                 seed_approved eq_refl).
      vm_compute. reflexivity.
    + vm_compute. reflexivity.
    + vm_compute. reflexivity.
Defined.

(** The log tells the order: a presenter that takes the press of the
    second page before it renders the page leaves the same machine and the
    same bus, and another log; it is not the script of the theorem. *)
Lemma press_before_second_page_is_told_apart :
  exists t1 t2 : run,
    Traced.writeBackupSeed 16 demo_seed false 0 seed_approved
    = Some (false, t1) /\
    press_before_second_page demo_seed false seed_approved
    = Some (false, t2) /\
    mach t1 = mach t2 /\
    map read_after (reads t1)
    = [1; 1; 25; 25; 25; 25; 57; 57; 57; 57; 69; 69; 69; 69]%nat /\
    map read_after (reads t2)
    = [1; 1; 25; 25; 25; 25; 57; 57; 57; 57; 58; 58; 58; 58]%nat.
Proof.
  eexists. eexists.
  split; [vm_compute; reflexivity|].
  split; [vm_compute; reflexivity|].
  split; [reflexivity|]. split; reflexivity.
Qed.

(** X15. For every seed length from 1 to 255 and destination 0,
    [writeBackupSeed] is the notice followed, on approval and once the
    buttons are released, by the seed in pages of twelve bytes (six per
    line, the last page holding what remains): after every page one
    checkpoint; a cancel there clears the display and returns true without
    a further page; an accept clears the display and goes on to the next
    page, or returns false after the last one. The runs compared hold the
    bus and the log of the flag reads with their positions in the bus, so
    that the checkpoint of a page is read after the page has been sent. *)
Theorem writeBackupSeed_shows_pages_of_twelve
    (SEED_LENGTH : nat) (seed : list Z) (is_encrypted : bool) (t : run) :
  (0 < SEED_LENGTH <= 255)%nat ->
  (SEED_LENGTH <= length seed)%nat ->
  Traced.writeBackupSeed SEED_LENGTH seed is_encrypted 0 t
  = (r <- Traced.notice_screen is_encrypted ;;
     if r then Traced.clearLcd ;; t_ret true
     else
       Traced.waitForNoButtonPress ;;
       Traced.seed_pages ((SEED_LENGTH + 11) / 12) (take SEED_LENGTH seed)) t.
Proof.
  intros Hn Hlen. rewrite traced_notice.
  apply t_bind_ext. intros [|] t1; [reflexivity|].
  apply t_bind_ext. intros [] t2.
  destruct SEED_LENGTH as [|n]; [lia|].
  rewrite traced_for_step by reflexivity.
  change (u8 (0 + 1)) with 1.
  pose proof (traced_for_pages ((S n + 11) / 12) n seed 0 t2) as E.
  change (u8 (0 + 1)) with 1 in E. change (Z.to_nat 0) with 0%nat in *.
  rewrite drop_0 in E. apply E; try lia.
  pose proof (Nat.div_mod_eq (S n + 11) 12) as D.
  pose proof (Nat.mod_upper_bound (S n + 11) 12). lia.
Qed.

(** Six pages of a 64-byte seed, the last one cancelled: every page is
    sent before its checkpoint is read. *)
Lemma writeBackupSeed_shows_pages_of_twelve_witness :
  Traced.writeBackupSeed 64 long_seed false 0 seed_cancelled_at_last_page
  = (r <- Traced.notice_screen false ;;
     if r then Traced.clearLcd ;; t_ret true
     else
       Traced.waitForNoButtonPress ;;
       Traced.seed_pages ((64 + 11) / 12) (take 64 long_seed))
      seed_cancelled_at_last_page
  /\
  exists t' : run,
    Traced.writeBackupSeed 64 long_seed false 0 seed_cancelled_at_last_page
    = Some (true, t') /\
    irq (mach t') = [] /\
    map read_after (reads t')
    = [1; 1; 25; 25; 25; 25; 57; 57; 57; 57; 90; 90; 90; 90;
       123; 123; 123; 123; 156; 156; 156; 156; 189; 189; 189; 189;
       201; 201; 201; 201]%nat.
Proof.
  split.
  - apply writeBackupSeed_shows_pages_of_twelve.
    + lia.
    + vm_compute. lia.
  - eexists. split; [vm_compute; reflexivity|]. split; reflexivity.
Defined.

(** ** Prompts *)

Lemma set_scroll_counter_twice (c c' : Z) (d : display) :
  set_scroll_counter c' (set_scroll_counter c d) = set_scroll_counter c' d.
Proof. reflexivity. Qed.








